(** * The dependency smoke test of railway-deployment/local-poc/code-test.py

    A shallow embedding of [verify_dependencies] and of the library calls it
    makes.  The function builds one report (a nested dict) out of three
    guarded sections and a summary:

    - Test 1 calls [requests.get] and reads four fields of the JSON body;
    - Test 2 parses two dates with [dateutil] and does date arithmetic on the
      clock;
    - Test 3 exercises [math], [random], [json] and [datetime];
    - the summary counts the [packages] entries whose flag is the check mark.

    What the script receives from outside is gathered in a [World]: the
    outcome of the HTTP request, the successive readings of the clock and the
    successive draws of the random generator.  Everything else is computed. *)

From Stdlib Require Import ZArith NArith List String Ascii Bool Lia Floats DecimalString.
From Stdlib Require DecimalFacts DecimalPos DecimalZ.
Import ListNotations.

Set Warnings "-inexact-float,-register-all".

Open Scope string_scope.
Open Scope Z_scope.

(* ================================================================== *)
(** * Python values, exceptions and dict operations                    *)
(* ================================================================== *)

Module Py.

(** The objects the script handles: the JSON-like values of the report and of
    the HTTP body.  A dict keeps its keys in insertion order, as Python's
    does, so it is an association list. *)
Inductive value : Type :=
| VNone
| VBool (b : bool)
| VInt (n : Z)
| VFloat (x : float)
| VStr (s : string)
| VList (l : list value)
| VDict (d : list (string * value)).

(** The classes an exception can belong to.  [KeyboardInterrupt],
    [SystemExit] and [GeneratorExit] derive from [BaseException] directly;
    every other class that occurs here derives from [Exception] and is kept
    by name. *)
Inductive exc_class : Type :=
| KeyboardInterrupt
| SystemExit
| GeneratorExit
| ExceptionClass (name : string).

(** An exception object: its class and what [str(e)] returns. *)
Record exception : Type := { exc_type : exc_class; exc_str : string }.

(** [isinstance(e, Exception)], the test of an [except Exception] clause. *)
Definition isinstance_Exception (e : exception) : bool :=
  match exc_type e with
  | ExceptionClass _ => true
  | KeyboardInterrupt | SystemExit | GeneratorExit => false
  end.

Definition KeyError (key : string) : exception :=
  {| exc_type := ExceptionClass "KeyError"; exc_str := "'" ++ key ++ "'" |}.
Definition TypeError (msg : string) : exception :=
  {| exc_type := ExceptionClass "TypeError"; exc_str := msg |}.
Definition ValueError (msg : string) : exception :=
  {| exc_type := ExceptionClass "ValueError"; exc_str := msg |}.
Definition OverflowError (msg : string) : exception :=
  {| exc_type := ExceptionClass "OverflowError"; exc_str := msg |}.
Definition AttributeError (msg : string) : exception :=
  {| exc_type := ExceptionClass "AttributeError"; exc_str := msg |}.
Definition IndexError (msg : string) : exception :=
  {| exc_type := ExceptionClass "IndexError"; exc_str := msg |}.

(** The outcome of an expression: a value, or a raised exception. *)
Inductive result (A : Type) : Type :=
| Ok (a : A)
| Raise (e : exception).
Arguments Ok {A} a.
Arguments Raise {A} e.

(** [type(v).__name__] *)
Definition type_name (v : value) : string :=
  match v with
  | VNone => "NoneType"
  | VBool _ => "bool"
  | VInt _ => "int"
  | VFloat _ => "float"
  | VStr _ => "str"
  | VList _ => "list"
  | VDict _ => "dict"
  end.

(** ** Dicts *)

Fixpoint dict_lookup (d : list (string * value)) (k : string) : option value :=
  match d with
  | [] => None
  | (k', v) :: r => if String.eqb k' k then Some v else dict_lookup r k
  end.

(** [d[k] = v] on the association list: an existing key keeps its place, a
    new one goes last. *)
Fixpoint dict_set (d : list (string * value)) (k : string) (v : value)
  : list (string * value) :=
  match d with
  | [] => [(k, v)]
  | (k', v') :: r =>
      if String.eqb k' k then (k', v) :: r else (k', v') :: dict_set r k v
  end.

Definition dict_keys (d : list (string * value)) : list string := map fst d.
Definition dict_values (d : list (string * value)) : list value := map snd d.

(** [obj[key]] for a string key. *)
Definition getitem (obj : value) (key : string) : result value :=
  match obj with
  | VDict d =>
      match dict_lookup d key with
      | Some v => Ok v
      | None => Raise (KeyError key)
      end
  | VList _ => Raise (TypeError "list indices must be integers or slices, not str")
  | VStr _ => Raise (TypeError "string indices must be integers, not 'str'")
  | _ => Raise (TypeError ("'" ++ type_name obj ++ "' object is not subscriptable"))
  end.

(** [obj[key] = v] for a string key; the updated object is returned. *)
Definition setitem (obj : value) (key : string) (v : value) : result value :=
  match obj with
  | VDict d => Ok (VDict (dict_set d key v))
  | VList _ => Raise (TypeError "list indices must be integers or slices, not str")
  | _ => Raise (TypeError ("'" ++ type_name obj
                           ++ "' object does not support item assignment"))
  end.

(** [obj.get(key)] *)
Definition get (obj : value) (key : string) : result value :=
  match obj with
  | VDict d =>
      match dict_lookup d key with
      | Some v => Ok v
      | None => Ok VNone
      end
  | _ => Raise (AttributeError ("'" ++ type_name obj
                                ++ "' object has no attribute 'get'"))
  end.

(** [obj.values()] *)
Definition values (obj : value) : result (list value) :=
  match obj with
  | VDict d => Ok (dict_values d)
  | _ => Raise (AttributeError ("'" ++ type_name obj
                                ++ "' object has no attribute 'values'"))
  end.

(** [v == s] for a string literal [s]. *)
Definition eq_str (v : value) (s : string) : bool :=
  match v with
  | VStr s' => String.eqb s' s
  | _ => false
  end.

(** ** Text of integers *)

(** [str(n)] *)
Definition str_of_Z (n : Z) : string := NilZero.string_of_int (Z.to_int n).

(** ["%0<width>d" % n] for [0 <= n]: zeros on the left up to [width]. *)
Definition zero_pad (width : nat) (n : Z) : string :=
  let s := str_of_Z n in
  string_of_list_ascii (repeat "0"%char (width - String.length s)) ++ s.

(** One comma after every third digit, on the reversed digits. *)
Fixpoint commas_rev (rev_digits : list ascii) (seen : nat) : list ascii :=
  match rev_digits with
  | [] => []
  | c :: r =>
      match r, seen with
      | _ :: _, 2%nat => c :: ","%char :: commas_rev r 0
      | _, _ => c :: commas_rev r (S seen)
      end
  end.

Definition group_digits (digits : string) : string :=
  string_of_list_ascii (rev (commas_rev (rev (list_ascii_of_string digits)) 0)).

(** [format(n, ',')] for an int. *)
Definition format_int_comma (n : Z) : string :=
  if n <? 0 then "-" ++ group_digits (str_of_Z (- n))
  else group_digits (str_of_Z n).

End Py.

(* ================================================================== *)
(** * Floating point: [math] and [round]                               *)
(* ================================================================== *)

Module PyFloat.
Import Py.

(** Python's [float] is the binary64 format, which the kernel's primitive
    floats implement; [Prim2SF] gives the sign, mantissa and exponent of
    one, so exact results can be computed in [Z] and rounded once. *)

(** What the installed interpreter and libraries fix and is not computed
    here: the text of a float ([repr]), the float of a text ([float(s)],
    strtod), [pow] where the power is not a representable number, and
    [requests.__version__]. *)
Class Runtime : Type := {
  float_repr : float -> string;
  float_of_str : string -> float;
  libm_pow : float -> float -> float;
  requests_version : string
}.

(** [math.pi] *)
Definition math_pi : float := 0x1.921fb54442d18p+1%float.

(** The float nearest to the integer [n] (ties to even), as a
    specification float. *)
Definition SF_of_Z (n : Z) : spec_float := binary_normalize prec emax n 0 false.

(** [float(n)] for an int: [OverflowError] past the largest float. *)
Definition float_of_int (n : Z) : result float :=
  match SF_of_Z n with
  | S754_infinity _ => Raise (OverflowError "int too large to convert to float")
  | f => Ok (SF2Prim f)
  end.

(** The integer a float is, when it is one. *)
Definition int_of_float (x : float) : option Z :=
  match Prim2SF x with
  | S754_zero _ => Some 0
  | S754_finite s m e =>
      let n := if 0 <=? e then Some (Z.pos m * 2 ^ e)
               else if Z.pos m mod 2 ^ (- e) =? 0 then Some (Z.pos m / 2 ^ (- e))
               else None in
      option_map (fun n => if s then - n else n) n
  | _ => None
  end.

(** [m1 * 2^e1 = m2 * 2^e2] *)
Definition same_dyadic (m1 e1 m2 e2 : Z) : bool :=
  let e := Z.min e1 e2 in
  m1 * 2 ^ (e1 - e) =? m2 * 2 ^ (e2 - e).

(** [x ** n] for a finite [x] and an integer [n >= 0], when that power is a
    float: the one case in which every [pow] returns the same number. *)
Definition exact_power (x : float) (n : Z) : option float :=
  match Prim2SF x with
  | S754_finite s m e =>
      let sign := andb s (Z.odd n) in
      let mn := Z.pos m ^ n in
      match binary_normalize prec emax mn (e * n) false with
      | S754_finite _ m' e' =>
          if same_dyadic mn (e * n) (Z.pos m') e'
          then Some (SF2Prim (S754_finite sign m' e'))
          else None
      | _ => None
      end
  | _ => None
  end.

Definition is_finite (x : float) : bool :=
  negb (orb (PrimFloat.is_nan x) (PrimFloat.is_infinity x)).

(** [math.pow(x, y)] on floats.  A non-negative integral exponent whose power
    is representable gives that power; the rest is the C library's [pow].
    For finite arguments a result that is not a number is a [ValueError],
    and an infinite one is a [ValueError] for base zero and an
    [OverflowError] otherwise. *)
Definition math_pow `{Runtime} (x y : float) : result float :=
  let exact :=
    match int_of_float y with
    | Some n => if 0 <=? n then exact_power x n else None
    | None => None
    end in
  match exact with
  | Some r => Ok r
  | None =>
      let r := libm_pow x y in
      if andb (is_finite x) (is_finite y) then
        if PrimFloat.is_nan r then Raise (ValueError "math domain error")
        else if PrimFloat.is_infinity r then
          if PrimFloat.eqb x 0%float then Raise (ValueError "math domain error")
          else Raise (OverflowError "math range error")
        else Ok r
      else Ok r
  end.

(** [math.sqrt(x)]: the correctly rounded square root, [ValueError] below
    zero. *)
Definition math_sqrt (x : float) : result float :=
  if PrimFloat.ltb x 0%float then Raise (ValueError "math domain error")
  else Ok (PrimFloat.sqrt x).

(** The integer nearest to [num / den], ties to the even one
    ([0 <= num], [0 < den]). *)
Definition div_half_even (num den : Z) : Z :=
  let q := num / den in
  let r := num mod den in
  match Z.compare (2 * r) den with
  | Lt => q
  | Gt => q + 1
  | Eq => if Z.even q then q else q + 1
  end.

(** [round(x, ndigits)] for a float: the decimal with [ndigits] places
    nearest to the exact value of [x] (ties to even), then the float nearest
    to that decimal.  The two early exits are the interpreter's. *)
Definition round_ndigits (x : float) (ndigits : Z) : result float :=
  match Prim2SF x with
  | S754_finite s m e =>
      if 323 <? ndigits then Ok x
      else if ndigits <? -308 then Ok (PrimFloat.mul 0%float x)
      else
        let up := 10 ^ Z.max ndigits 0 in
        let down := 10 ^ Z.max (- ndigits) 0 in
        let q := div_half_even (Z.pos m * up * 2 ^ Z.max e 0)
                               (down * 2 ^ Z.max (- e) 0) in
        match q with
        | Z.pos qp =>
            let r := SFdiv prec emax (S754_finite s (qp * Z.to_pos down) 0)
                                     (S754_finite false (Z.to_pos up) 0) in
            match r with
            | S754_infinity _ =>
                Raise (OverflowError "rounded value too large to represent")
            | _ => Ok (SF2Prim r)
            end
        | _ => Ok (SF2Prim (S754_zero s))
        end
  | _ => Ok x
  end.

(** [format(x, ',')] for a float: the digits before the point of its text,
    grouped by three. *)
Fixpoint leading_digits (l : list ascii) : list ascii * list ascii :=
  match l with
  | c :: r =>
      if andb (48 <=? Z.of_N (N_of_ascii c)) (Z.of_N (N_of_ascii c) <=? 57)
      then let (d, t) := leading_digits r in (c :: d, t)
      else ([], l)
  | [] => ([], [])
  end.

Definition format_float_comma `{Runtime} (x : float) : string :=
  let text := list_ascii_of_string (float_repr x) in
  let (sign, body) :=
    match text with
    | "-"%char :: r => ("-", r)
    | _ => ("", text)
    end in
  let (digits, tail) := leading_digits body in
  sign ++ group_digits (string_of_list_ascii digits) ++ string_of_list_ascii tail.

(** [f"{v:,}"] *)
Definition format_comma `{Runtime} (v : value) : result string :=
  match v with
  | VInt n => Ok (format_int_comma n)
  | VBool b => Ok (if b then "1" else "0")
  | VFloat x => Ok (format_float_comma x)
  | VStr _ => Raise (ValueError "Cannot specify ',' with 's'.")
  | _ => Raise (TypeError ("unsupported format string passed to "
                           ++ type_name v ++ ".__format__"))
  end.

End PyFloat.

(* ================================================================== *)
(** * [datetime]: calendar arithmetic and formatting                   *)
(* ================================================================== *)

Module Datetime.
Import Py.

(** A [datetime] object.  [utcoffset] is [None] for a naive one and the
    offset from UTC in seconds for an aware one. *)
Record datetime : Type := {
  year : Z; month : Z; day : Z;
  hour : Z; minute : Z; second : Z; microsecond : Z;
  utcoffset : option Z
}.

Definition MINYEAR : Z := 1.
Definition MAXYEAR : Z := 9999.
Definition MAXORDINAL : Z := 3652059.

Definition is_leap (y : Z) : bool :=
  andb (y mod 4 =? 0) (orb (negb (y mod 100 =? 0)) (y mod 400 =? 0)).

Definition days_before_year (y : Z) : Z :=
  let y := y - 1 in y * 365 + y / 4 - y / 100 + y / 400.

Definition DAYS_IN_MONTH : list Z := [-1; 31; 28; 31; 30; 31; 30; 31; 31; 30; 31; 30; 31].
Definition DAYS_BEFORE_MONTH : list Z :=
  [-1; 0; 31; 59; 90; 120; 151; 181; 212; 243; 273; 304; 334].

Definition days_in_month (y m : Z) : Z :=
  if andb (m =? 2) (is_leap y) then 29 else nth (Z.to_nat m) DAYS_IN_MONTH 0.

Definition days_before_month (y m : Z) : Z :=
  nth (Z.to_nat m) DAYS_BEFORE_MONTH 0
  + (if andb (2 <? m) (is_leap y) then 1 else 0).

(** Year, month, day to the number of the day, 0001-01-01 being day 1. *)
Definition ymd2ord (y m d : Z) : Z :=
  days_before_year y + days_before_month y m + d.

Definition DI400Y : Z := 146097.
Definition DI100Y : Z := 36524.
Definition DI4Y : Z := 1461.

(** The number of the day back to year, month, day. *)
Definition ord2ymd (n : Z) : Z * Z * Z :=
  let n := n - 1 in
  let n400 := n / DI400Y in
  let n := n mod DI400Y in
  let y := n400 * 400 + 1 in
  let n100 := n / DI100Y in
  let n := n mod DI100Y in
  let n4 := n / DI4Y in
  let n := n mod DI4Y in
  let n1 := n / 365 in
  let n := n mod 365 in
  let y := y + n100 * 100 + n4 * 4 + n1 in
  if orb (n1 =? 4) (n100 =? 4) then (y - 1, 12, 31)
  else
    let leapyear := andb (n1 =? 3) (orb (negb (n4 =? 24)) (n100 =? 3)) in
    let m := Z.shiftr (n + 50) 5 in
    let preceding :=
      nth (Z.to_nat m) DAYS_BEFORE_MONTH 0
      + (if andb (2 <? m) leapyear then 1 else 0) in
    if n <? preceding then
      let m := m - 1 in
      let preceding :=
        preceding - (nth (Z.to_nat m) DAYS_IN_MONTH 0
                     + (if andb (m =? 2) leapyear then 1 else 0)) in
      (y, m, n - preceding + 1)
    else (y, m, n - preceding + 1).

(** [dt.toordinal()] *)
Definition toordinal (dt : datetime) : Z := ymd2ord (year dt) (month dt) (day dt).

(** The fields of a date the constructor accepts. *)
Definition check_date_fields (y m d : Z) : result unit :=
  if negb (andb (MINYEAR <=? y) (y <=? MAXYEAR)) then
    Raise (ValueError ("year " ++ str_of_Z y ++ " is out of range"))
  else if negb (andb (1 <=? m) (m <=? 12)) then
    Raise (ValueError "month must be in 1..12")
  else if negb (andb (1 <=? d) (d <=? days_in_month y m)) then
    Raise (ValueError "day is out of range for month")
  else Ok tt.

(** A reading of the clock is a date and a time of day in range. *)
Definition valid_datetime (dt : datetime) : bool :=
  match check_date_fields (year dt) (month dt) (day dt) with
  | Ok _ =>
      andb (andb (andb (0 <=? hour dt) (hour dt <=? 23))
                 (andb (0 <=? minute dt) (minute dt <=? 59)))
           (andb (andb (0 <=? second dt) (second dt <=? 59))
                 (andb (0 <=? microsecond dt) (microsecond dt <=? 999999)))
  | Raise _ => false
  end.

(** [dt.replace(year=y, month=m, day=d)] *)
Definition replace_date (dt : datetime) (y m d : Z) : result datetime :=
  match check_date_fields y m d with
  | Raise e => Raise e
  | Ok _ =>
      Ok {| year := y; month := m; day := d;
            hour := hour dt; minute := minute dt; second := second dt;
            microsecond := microsecond dt; utcoffset := utcoffset dt |}
  end.

(** [dt + timedelta(days=n)]: the time of day stays, the date moves by [n]
    days, and a date outside years 1 to 9999 is an [OverflowError]. *)
Definition add_days (dt : datetime) (n : Z) : result datetime :=
  let o := toordinal dt + n in
  if andb (0 <? o) (o <=? MAXORDINAL) then
    let '(y, m, d) := ord2ymd o in
    Ok {| year := y; month := m; day := d;
          hour := hour dt; minute := minute dt; second := second dt;
          microsecond := microsecond dt; utcoffset := utcoffset dt |}
  else Raise (OverflowError "date value out of range").

(** [dt - timedelta(days=n)] *)
Definition sub_days (dt : datetime) (n : Z) : result datetime := add_days dt (- n).

(** The text of a UTC offset: sign, hours and minutes, and the seconds when
    there are some. *)
Definition format_offset (off : option Z) : string :=
  match off with
  | None => ""
  | Some o =>
      let sign := if o <? 0 then "-" else "+" in
      let a := Z.abs o in
      let hh := a / 3600 in
      let mm := (a mod 3600) / 60 in
      let ss := a mod 60 in
      sign ++ zero_pad 2 hh ++ ":" ++ zero_pad 2 mm
      ++ (if ss =? 0 then "" else ":" ++ zero_pad 2 ss)
  end.

(** The time of day, with the microseconds when they are not zero. *)
Definition format_time (hh mm ss us : Z) : string :=
  zero_pad 2 hh ++ ":" ++ zero_pad 2 mm ++ ":" ++ zero_pad 2 ss
  ++ (if us =? 0 then "" else "." ++ zero_pad 6 us).

(** [dt.isoformat()] *)
Definition isoformat (dt : datetime) : string :=
  zero_pad 4 (year dt) ++ "-" ++ zero_pad 2 (month dt) ++ "-" ++ zero_pad 2 (day dt)
  ++ "T" ++ format_time (hour dt) (minute dt) (second dt) (microsecond dt)
  ++ format_offset (utcoffset dt).

(** [dt.strftime(fmt)] for the numeric directives; any other character,
    and a directive not listed, is copied.  The year is written with four
    digits, which is what every platform does from year 1000 on. *)
Fixpoint strftime_chars (dt : datetime) (fmt : list ascii) : string :=
  match fmt with
  | "%"%char :: c :: r =>
      let field :=
        if Ascii.eqb c "Y" then zero_pad 4 (year dt)
        else if Ascii.eqb c "m" then zero_pad 2 (month dt)
        else if Ascii.eqb c "d" then zero_pad 2 (day dt)
        else if Ascii.eqb c "H" then zero_pad 2 (hour dt)
        else if Ascii.eqb c "M" then zero_pad 2 (minute dt)
        else if Ascii.eqb c "S" then zero_pad 2 (second dt)
        else if Ascii.eqb c "f" then zero_pad 6 (microsecond dt)
        else if Ascii.eqb c "%" then "%"
        else String "%" (String c "") in
      field ++ strftime_chars dt r
  | c :: r => String c (strftime_chars dt r)
  | [] => ""
  end.

Definition strftime (dt : datetime) (fmt : string) : string :=
  strftime_chars dt (list_ascii_of_string fmt).

End Datetime.

(* ================================================================== *)
(** * [dateutil]: the parser and [relativedelta]                       *)
(* ================================================================== *)

Module Dateutil.
Import Py Datetime.

(** ** Splitting a text into tokens ([_timelex]) *)

Definition code (c : ascii) : Z := Z.of_N (N_of_ascii c).
Definition is_digit (c : ascii) : bool := andb (48 <=? code c) (code c <=? 57).
Definition is_upper (c : ascii) : bool := andb (65 <=? code c) (code c <=? 90).
Definition is_lower (c : ascii) : bool := andb (97 <=? code c) (code c <=? 122).
Definition is_alpha (c : ascii) : bool := orb (is_upper c) (is_lower c).
Definition is_space (c : ascii) : bool :=
  orb (code c =? 32) (orb (andb (9 <=? code c) (code c <=? 13))
                          (andb (28 <=? code c) (code c <=? 31))).
Definition is_dot (c : ascii) : bool := code c =? 46.
Definition is_comma (c : ascii) : bool := code c =? 44.

Definition lower_char (c : ascii) : ascii :=
  if is_upper c then ascii_of_N (N_of_ascii c + 32) else c.
Fixpoint lower (s : string) : string :=
  match s with
  | EmptyString => EmptyString
  | String c r => String (lower_char c) (lower r)
  end.

Fixpoint all_chars (p : ascii -> bool) (s : string) : bool :=
  match s with
  | EmptyString => true
  | String c r => andb (p c) (all_chars p r)
  end.

Definition mem (s : string) (l : list string) : bool := existsb (String.eqb s) l.

(** The states of the lexer once a token has started: in a word, in a
    number, and the same after a dot. *)
Inductive lex_state : Type := InWord | InNum | InWordDot | InNumDot.

Definition last_is_dot (acc : list ascii) : bool :=
  match acc with
  | c :: _ => is_dot c
  | [] => false
  end.

(** Reads on from a started token.  [acc] is the token so far, last
    character first; the result is the state reached, whether letters were
    seen, the token and the text left. *)
Fixpoint scan (st : lex_state) (seen : bool) (acc input : list ascii)
  : lex_state * bool * list ascii * list ascii :=
  match input with
  | [] => (st, seen, acc, [])
  | c :: r =>
      if code c =? 0 then scan st seen acc r
      else
        match st with
        | InWord =>
            if is_alpha c then scan InWord true (c :: acc) r
            else if is_dot c then scan InWordDot true (c :: acc) r
            else (st, true, acc, input)
        | InNum =>
            if is_digit c then scan InNum seen (c :: acc) r
            else if orb (is_dot c) (andb (is_comma c) (2 <=? Z.of_nat (List.length acc)))
            then scan InNumDot seen (c :: acc) r
            else (st, seen, acc, input)
        | InWordDot =>
            if orb (is_dot c) (is_alpha c) then scan InWordDot true (c :: acc) r
            else if andb (is_digit c) (last_is_dot acc) then scan InNumDot true (c :: acc) r
            else (st, true, acc, input)
        | InNumDot =>
            if orb (is_dot c) (is_digit c) then scan InNumDot seen (c :: acc) r
            else if andb (is_alpha c) (last_is_dot acc) then scan InWordDot seen (c :: acc) r
            else (st, seen, acc, input)
        end
  end.

(** A token cut at every dot and comma, the separators kept. *)
Fixpoint split_decimal (cur : list ascii) (l : list ascii) : list string :=
  match l with
  | [] => [string_of_list_ascii (rev cur)]
  | c :: r =>
      if orb (is_dot c) (is_comma c)
      then string_of_list_ascii (rev cur) :: String c "" :: split_decimal [] r
      else split_decimal (c :: cur) r
  end.

Definition count_dots (l : list ascii) : nat := List.length (filter is_dot l).

Definition comma_to_dot (s : string) : string :=
  string_of_list_ascii
    (map (fun c => if is_comma c then "."%char else c) (list_ascii_of_string s)).

(** The tokens one started token gives: itself, or its pieces. *)
Definition finish_token (st : lex_state) (seen : bool) (acc : list ascii) : list string :=
  let token := rev acc in
  let dotted := match st with InWordDot | InNumDot => true | _ => false end in
  let ends_sep := match acc with c :: _ => orb (is_dot c) (is_comma c) | [] => false end in
  let pieces :=
    if andb dotted (orb seen (orb (2 <=? Z.of_nat (count_dots token)) ends_sep))
    then match split_decimal [] token with
         | first :: others =>
             first :: filter (fun t => negb (String.eqb t "")) others
         | [] => []
         end
    else [string_of_list_ascii token] in
  match pieces, st with
  | first :: others, InNumDot =>
      (if (count_dots (list_ascii_of_string first) =? 0)%nat
       then comma_to_dot first else first) :: others
  | _, _ => pieces
  end.

(** [_timelex.split] *)
Fixpoint timelex (fuel : nat) (input : list ascii) : list string :=
  match fuel, input with
  | O, _ => []
  | _, [] => []
  | S fuel, c :: r =>
      if code c =? 0 then timelex fuel r
      else if is_alpha c then
        let '(st, seen, acc, rest) := scan InWord false [c] r in
        finish_token st seen acc ++ timelex fuel rest
      else if is_digit c then
        let '(st, seen, acc, rest) := scan InNum false [c] r in
        finish_token st seen acc ++ timelex fuel rest
      else if is_space c then " " :: timelex fuel r
      else String c "" :: timelex fuel r
  end.

Definition split (s : string) : list string :=
  timelex (String.length s) (list_ascii_of_string s).

(** ** The words the parser knows ([parserinfo]) *)

Definition JUMP : list string :=
  [" "; "."; ","; ";"; "-"; "/"; "'"; "at"; "on"; "and"; "ad"; "m"; "t"; "of";
   "st"; "nd"; "rd"; "th"].
Definition WEEKDAYS : list (list string) :=
  [["mon"; "monday"]; ["tue"; "tuesday"]; ["wed"; "wednesday"];
   ["thu"; "thursday"]; ["fri"; "friday"]; ["sat"; "saturday"];
   ["sun"; "sunday"]].
Definition MONTHS : list (list string) :=
  [["jan"; "january"]; ["feb"; "february"]; ["mar"; "march"]; ["apr"; "april"];
   ["may"; "may"]; ["jun"; "june"]; ["jul"; "july"]; ["aug"; "august"];
   ["sep"; "sept"; "september"]; ["oct"; "october"]; ["nov"; "november"];
   ["dec"; "december"]].
Definition HMS : list (list string) :=
  [["h"; "hour"; "hours"]; ["m"; "minute"; "minutes"]; ["s"; "second"; "seconds"]].
Definition AMPM : list (list string) := [["am"; "a"]; ["pm"; "p"]].
Definition UTCZONE : list string := ["UTC"; "GMT"; "Z"; "z"].
Definition PERTAIN : list string := ["of"].

(** The place of the group of [table] that holds the word, from [start]. *)
Fixpoint find_group (table : list (list string)) (word : string) (start : Z) : option Z :=
  match table with
  | [] => None
  | g :: r => if mem word g then Some start else find_group r word (start + 1)
  end.

Definition jump (name : string) : bool := mem (lower name) JUMP.
Definition weekday (name : string) : option Z := find_group WEEKDAYS (lower name) 0.
Definition month_of (name : string) : option Z := find_group MONTHS (lower name) 1.
Definition hms (name : string) : option Z := find_group HMS (lower name) 0.
Definition ampm (name : string) : option Z := find_group AMPM (lower name) 0.
Definition pertain (name : string) : bool := mem (lower name) PERTAIN.
Definition utczone (name : string) : bool := mem name UTCZONE.
(** No zone offsets are registered by default: only the UTC names have one. *)
Definition tzoffset (name : string) : option Z := if utczone name then Some 0 else None.

Definition is_some {A : Type} (o : option A) : bool :=
  match o with Some _ => true | None => false end.

(** ** The year, month and day found so far ([_ymd]) *)

Record ymd_list : Type := {
  ymd_values : list Z;
  mstridx : option nat;
  dstridx : option nat;
  ystridx : option nat;
  century_specified : bool
}.

Definition ymd_empty : ymd_list :=
  {| ymd_values := []; mstridx := None; dstridx := None; ystridx := None;
     century_specified := false |}.

Inductive ymd_label : Type := LabelY | LabelM | LabelD.

(** [ymd.append(val, label)]; [century] says that the value names its
    century.  [None] is the [ValueError] of the library. *)
Definition ymd_append (y : ymd_list) (val : Z) (century : bool)
           (label : option ymd_label) : option ymd_list :=
  let label :=
    if century then
      match label with
      | None | Some LabelY => Some (Some LabelY)
      | _ => None
      end
    else Some label in
  match label with
  | None => None
  | Some label =>
      let idx := List.length (ymd_values y) in
      let vals := (ymd_values y ++ [val])%list in
      let cent := orb century (century_specified y) in
      match label with
      | Some LabelM =>
          if is_some (mstridx y) then None
          else Some {| ymd_values := vals; mstridx := Some idx; dstridx := dstridx y;
                       ystridx := ystridx y; century_specified := cent |}
      | Some LabelD =>
          if is_some (dstridx y) then None
          else Some {| ymd_values := vals; mstridx := mstridx y; dstridx := Some idx;
                       ystridx := ystridx y; century_specified := cent |}
      | Some LabelY =>
          if is_some (ystridx y) then None
          else Some {| ymd_values := vals; mstridx := mstridx y; dstridx := dstridx y;
                       ystridx := Some idx; century_specified := cent |}
      | None =>
          Some {| ymd_values := vals; mstridx := mstridx y; dstridx := dstridx y;
                  ystridx := ystridx y; century_specified := cent |}
      end
  end.

(** [int(token)] for a token of digits. *)
Definition token_int (t : string) : option Z :=
  if andb (negb (String.eqb t "")) (all_chars is_digit t)
  then option_map Z.of_uint (NilZero.uint_of_string t)
  else None.

(** Appending a token as it stands: digits only, and more than two of them
    name the century. *)
Definition ymd_append_token (y : ymd_list) (t : string) (label : option ymd_label)
  : option ymd_list :=
  match token_int t with
  | Some n => ymd_append y n (2 <? Z.of_nat (String.length t)) label
  | None => None
  end.

(** Appending a number: above 100 it names the century. *)
Definition ymd_append_number (y : ymd_list) (n : Z) (label : option ymd_label)
  : option ymd_list :=
  ymd_append y n (100 <? n) label.

Definition ymd_nth (y : ymd_list) (i : nat) : Z := nth i (ymd_values y) 0.

Definition could_be_day (y : ymd_list) (value : Z) : bool :=
  match dstridx y, mstridx y, ystridx y with
  | Some _, _, _ => false
  | None, None, _ => andb (1 <=? value) (value <=? 31)
  | None, Some mi, None =>
      andb (1 <=? value) (value <=? days_in_month 2000 (ymd_nth y mi))
  | None, Some mi, Some yi =>
      andb (1 <=? value) (value <=? days_in_month (ymd_nth y yi) (ymd_nth y mi))
  end.

(** [ymd.resolve_ymd(yearfirst=False, dayfirst=False)]: which value is the
    year, which the month and which the day. *)
Definition resolve_from_stridxs (y : ymd_list) : option (option Z * option Z * option Z) :=
  let n := List.length (ymd_values y) in
  let pick (o : option nat) := option_map (ymd_nth y) o in
  let missing (a b : nat) : nat :=
    match a, b with
    | 0, 1 | 1, 0 => 2
    | 0, 2 | 2, 0 => 1
    | _, _ => 0
    end%nat in
  match ystridx y, mstridx y, dstridx y with
  | Some yi, Some mi, None =>
      if (n =? 3)%nat then Some (pick (Some yi), pick (Some mi), pick (Some (missing yi mi)))
      else Some (pick (Some yi), pick (Some mi), None)
  | Some yi, None, Some di =>
      if (n =? 3)%nat then Some (pick (Some yi), pick (Some (missing yi di)), pick (Some di))
      else Some (pick (Some yi), None, pick (Some di))
  | None, Some mi, Some di =>
      if (n =? 3)%nat then Some (pick (Some (missing mi di)), pick (Some mi), pick (Some di))
      else Some (None, pick (Some mi), pick (Some di))
  | yi, mi, di => Some (pick yi, pick mi, pick di)
  end.

Definition count_some (l : list (option nat)) : nat := List.length (filter is_some l).

Definition resolve_ymd (y : ymd_list) : option (option Z * option Z * option Z) :=
  let n := List.length (ymd_values y) in
  let k := count_some [ystridx y; mstridx y; dstridx y] in
  let v := ymd_nth y in
  if orb (andb (n =? k)%nat (0 <? k)%nat) (andb (n =? 3)%nat (k =? 2)%nat)
  then resolve_from_stridxs y
  else if (3 <? n)%nat then None
  else if orb (n =? 1)%nat (andb (is_some (mstridx y)) (n =? 2)%nat) then
    match mstridx y with
    | Some mi =>
        let other := v (if (mi =? 0)%nat then (n - 1)%nat else (mi - 1)%nat) in
        if (1 <? n)%nat then
          if 31 <? other then Some (Some other, Some (v mi), None)
          else Some (None, Some (v mi), Some other)
        else Some (None, Some (v mi), None)
    | None =>
        let other := v 0%nat in
        if 31 <? other then Some (Some other, None, None)
        else Some (None, None, Some other)
    end
  else if (n =? 2)%nat then
    if 31 <? v 0%nat then Some (Some (v 0%nat), Some (v 1%nat), None)
    else if 31 <? v 1%nat then Some (Some (v 1%nat), Some (v 0%nat), None)
    else Some (None, Some (v 0%nat), Some (v 1%nat))
  else if (n =? 3)%nat then
    match mstridx y with
    | Some 0%nat =>
        if 31 <? v 1%nat then Some (Some (v 1%nat), Some (v 0%nat), Some (v 2%nat))
        else Some (Some (v 2%nat), Some (v 0%nat), Some (v 1%nat))
    | Some 1%nat =>
        if 31 <? v 0%nat then Some (Some (v 0%nat), Some (v 1%nat), Some (v 2%nat))
        else Some (Some (v 2%nat), Some (v 1%nat), Some (v 0%nat))
    | Some _ =>
        if 31 <? v 1%nat then Some (Some (v 1%nat), Some (v 2%nat), Some (v 0%nat))
        else Some (Some (v 0%nat), Some (v 2%nat), Some (v 1%nat))
    | None =>
        if orb (31 <? v 0%nat) (match ystridx y with Some 0%nat => true | _ => false end)
        then Some (Some (v 0%nat), Some (v 1%nat), Some (v 2%nat))
        else if 12 <? v 0%nat then Some (Some (v 2%nat), Some (v 1%nat), Some (v 0%nat))
        else Some (Some (v 2%nat), Some (v 0%nat), Some (v 1%nat))
    end
  else Some (None, None, None).

(** ** The parser ([parser._parse] and [parser.parse])

    The fields read from the text; a field that the text does not give is
    [None]. *)
Record parse_result : Type := {
  r_year : option Z; r_month : option Z; r_day : option Z;
  r_weekday : option Z;
  r_hour : option Z; r_minute : option Z; r_second : option Z;
  r_microsecond : option Z;
  r_tzname : option string; r_tzoffset : option Z;
  r_ampm : option Z
}.

Definition result_empty : parse_result :=
  {| r_year := None; r_month := None; r_day := None; r_weekday := None;
     r_hour := None; r_minute := None; r_second := None; r_microsecond := None;
     r_tzname := None; r_tzoffset := None; r_ampm := None |}.

Definition set_hms (r : parse_result) (h m s us : option Z) : parse_result :=
  {| r_year := r_year r; r_month := r_month r; r_day := r_day r;
     r_weekday := r_weekday r;
     r_hour := h; r_minute := m; r_second := s; r_microsecond := us;
     r_tzname := r_tzname r; r_tzoffset := r_tzoffset r; r_ampm := r_ampm r |}.

Definition set_weekday (r : parse_result) (wd : Z) : parse_result :=
  {| r_year := r_year r; r_month := r_month r; r_day := r_day r;
     r_weekday := Some wd;
     r_hour := r_hour r; r_minute := r_minute r; r_second := r_second r;
     r_microsecond := r_microsecond r;
     r_tzname := r_tzname r; r_tzoffset := r_tzoffset r; r_ampm := r_ampm r |}.

Definition set_ampm (r : parse_result) (h : Z) (flag : Z) : parse_result :=
  {| r_year := r_year r; r_month := r_month r; r_day := r_day r;
     r_weekday := r_weekday r;
     r_hour := Some h; r_minute := r_minute r; r_second := r_second r;
     r_microsecond := r_microsecond r;
     r_tzname := r_tzname r; r_tzoffset := r_tzoffset r; r_ampm := Some flag |}.

Definition set_tz (r : parse_result) (name : option string) (off : option Z)
  : parse_result :=
  {| r_year := r_year r; r_month := r_month r; r_day := r_day r;
     r_weekday := r_weekday r;
     r_hour := r_hour r; r_minute := r_minute r; r_second := r_second r;
     r_microsecond := r_microsecond r;
     r_tzname := name; r_tzoffset := off; r_ampm := r_ampm r |}.

Definition set_ymd (r : parse_result) (y m d : option Z) : parse_result :=
  {| r_year := y; r_month := m; r_day := d;
     r_weekday := r_weekday r;
     r_hour := r_hour r; r_minute := r_minute r; r_second := r_second r;
     r_microsecond := r_microsecond r;
     r_tzname := r_tzname r; r_tzoffset := r_tzoffset r; r_ampm := r_ampm r |}.

Section Tokens.
Variable tokens : list string.

Definition len_l : nat := List.length tokens.
Definition tok (i : nat) : string := nth i tokens "".
Definition tok_is (i : nat) (t : string) : bool :=
  andb (i <? len_l)%nat (String.eqb (tok i) t).
Definition tok_in (i : nat) (l : list string) : bool :=
  andb (i <? len_l)%nat (mem (tok i) l).

(** The token that labels the number at [idx] as hours, minutes or seconds,
    when there is one. *)
Definition find_hms_idx (idx : nat) : option nat :=
  if andb (idx + 1 <? len_l)%nat (is_some (hms (tok (idx + 1)))) then Some (idx + 1)%nat
  else if andb (andb (idx + 2 <? len_l)%nat (String.eqb (tok (idx + 1)) " "))
               (is_some (hms (tok (idx + 2)))) then Some (idx + 2)%nat
  else if andb (0 <? idx)%nat (is_some (hms (tok (idx - 1)))) then Some (idx - 1)%nat
  else if andb (andb (andb (1 <? idx)%nat (idx =? len_l - 1)%nat)
                     (String.eqb (tok (idx - 1)) " "))
               (is_some (hms (tok (idx - 2)))) then Some (idx - 2)%nat
  else None.

(** The hour on the 24 hour clock for an hour said with am or pm. *)
Definition adjust_ampm (h : Z) (flag : Z) : Z :=
  if andb (h <? 12) (flag =? 1) then h + 12
  else if andb (h =? 12) (flag =? 0) then 0
  else h.

Definition sub2 (s : string) (from : nat) : string := substring from 2 s.

(** A token of digits at [idx] ([_parse_numeric_token]): the index of the
    last token used, the dates and the fields so far.  [None] stands for the
    [ValueError] that makes the text unknown; the forms with a decimal point,
    with an hour, minute or second label and with a numbered time zone are
    outside this model and end there as well. *)
Definition parse_numeric_token (idx : nat) (ymd : ymd_list) (res : parse_result)
  : option (nat * ymd_list * parse_result) :=
  let t := tok idx in
  let len_li := String.length t in
  match token_int t with
  | None => None
  | Some value =>
      if andb (andb (List.length (ymd_values ymd) =? 3)%nat
                    (orb (len_li =? 2)%nat (len_li =? 4)%nat))
              (andb (negb (is_some (r_hour res)))
                    (orb (len_l <=? idx + 1)%nat
                         (andb (negb (String.eqb (tok (idx + 1)) ":"))
                               (negb (is_some (hms (tok (idx + 1))))))))
      then
        let m := if (len_li =? 4)%nat then token_int (sub2 t 2) else r_minute res in
        Some (idx, ymd, set_hms res (token_int (sub2 t 0)) m
                                (r_second res) (r_microsecond res))
      else if (len_li =? 6)%nat then
        if (List.length (ymd_values ymd) =? 0)%nat then
          match ymd_append_token ymd (sub2 t 0) None with
          | Some y1 =>
              match ymd_append_token y1 (sub2 t 2) None with
              | Some y2 =>
                  match ymd_append_token y2 (sub2 t 4) None with
                  | Some y3 => Some (idx, y3, res)
                  | None => None
                  end
              | None => None
              end
          | None => None
          end
        else
          Some (idx, ymd, set_hms res (token_int (sub2 t 0)) (token_int (sub2 t 2))
                                  (token_int (sub2 t 4)) (Some 0))
      else if orb (len_li =? 8)%nat (orb (len_li =? 12)%nat (len_li =? 14)%nat) then
        match ymd_append_token ymd (substring 0 4 t) (Some LabelY) with
        | Some y1 =>
            match ymd_append_token y1 (sub2 t 4) None with
            | Some y2 =>
                match ymd_append_token y2 (sub2 t 6) None with
                | Some y3 =>
                    if (8 <? len_li)%nat then
                      Some (idx, y3,
                            set_hms res (token_int (sub2 t 8)) (token_int (sub2 t 10))
                                    (if (12 <? len_li)%nat then token_int (sub2 t 12)
                                     else r_second res)
                                    (r_microsecond res))
                    else Some (idx, y3, res)
                | None => None
                end
            | None => None
            end
        | None => None
        end
      else if is_some (find_hms_idx idx) then None
      else if andb (idx + 2 <? len_l)%nat (String.eqb (tok (idx + 1)) ":") then
        match token_int (tok (idx + 2)) with
        | None => None
        | Some mi =>
            if andb (idx + 4 <? len_l)%nat (String.eqb (tok (idx + 3)) ":") then
              match token_int (tok (idx + 4)) with
              | None => None
              | Some sec =>
                  Some ((idx + 4)%nat, ymd,
                        set_hms res (Some value) (Some mi) (Some sec) (Some 0))
              end
            else Some ((idx + 2)%nat, ymd,
                       set_hms res (Some value) (Some mi) None (r_microsecond res))
        end
      else if andb (idx + 1 <? len_l)%nat (mem (tok (idx + 1)) ["-"; "/"; "."]) then
        let sep := tok (idx + 1) in
        match ymd_append_token ymd t None with
        | None => None
        | Some y1 =>
            if andb (idx + 2 <? len_l)%nat (negb (jump (tok (idx + 2)))) then
              let second_member :=
                if all_chars is_digit (tok (idx + 2))
                then ymd_append_token y1 (tok (idx + 2)) None
                else match month_of (tok (idx + 2)) with
                     | Some m => ymd_append_number y1 m (Some LabelM)
                     | None => None
                     end in
              match second_member with
              | None => None
              | Some y2 =>
                  if andb (idx + 3 <? len_l)%nat (String.eqb (tok (idx + 3)) sep) then
                    if (idx + 4 <? len_l)%nat then
                      let third_member :=
                        match month_of (tok (idx + 4)) with
                        | Some m => ymd_append_number y2 m (Some LabelM)
                        | None => ymd_append_token y2 (tok (idx + 4)) None
                        end in
                      match third_member with
                      | Some y3 => Some ((idx + 4)%nat, y3, res)
                      | None => None
                      end
                    else None
                  else Some ((idx + 2)%nat, y2, res)
              end
            else Some ((idx + 1)%nat, y1, res)
        end
      else if orb (len_l <=? idx + 1)%nat (jump (tok (idx + 1))) then
        if (idx + 2 <? len_l)%nat then
          match ampm (tok (idx + 2)) with
          | Some flag =>
              Some ((idx + 2)%nat, ymd,
                    set_hms res (Some (adjust_ampm value flag)) (r_minute res)
                            (r_second res) (r_microsecond res))
          | None =>
              match ymd_append_number ymd value None with
              | Some y1 => Some ((idx + 1)%nat, y1, res)
              | None => None
              end
          end
        else
          match ymd_append_number ymd value None with
          | Some y1 => Some ((idx + 1)%nat, y1, res)
          | None => None
          end
      else
        match ampm (tok (idx + 1)) with
        | Some flag =>
            if andb (0 <=? value) (value <? 24) then
              Some ((idx + 1)%nat, ymd,
                    set_hms res (Some (adjust_ampm value flag)) (r_minute res)
                            (r_second res) (r_microsecond res))
            else if could_be_day ymd value then
              option_map (fun y1 => (idx, y1, res)) (ymd_append_number ymd value None)
            else None
        | None =>
            if could_be_day ymd value then
              option_map (fun y1 => (idx, y1, res)) (ymd_append_number ymd value None)
            else None
        end
  end.

(** A time zone name can follow an hour: up to five capitals, or a UTC
    name. *)
Definition could_be_tzname (res : parse_result) (t : string) : bool :=
  andb (andb (is_some (r_hour res))
             (andb (negb (is_some (r_tzname res))) (negb (is_some (r_tzoffset res)))))
       (andb (String.length t <=? 5)%nat (orb (all_chars is_upper t) (utczone t))).

(** A token of digits starts with one; a literal of [float] that is a word
    is refused as a number. *)
Definition starts_with_digit (t : string) : bool :=
  match t with
  | String c _ => is_digit c
  | EmptyString => false
  end.

(** The loop of [_parse] over the tokens, from index [i]. *)
Fixpoint parse_tokens (fuel : nat) (i : nat) (ymd : ymd_list) (res : parse_result)
  : option (ymd_list * parse_result) :=
  match fuel with
  | O => if (len_l <=? i)%nat then Some (ymd, res) else None
  | S fuel =>
      if (len_l <=? i)%nat then Some (ymd, res)
      else
        let t := tok i in
        if starts_with_digit t then
          match parse_numeric_token i ymd res with
          | Some (j, ymd, res) => parse_tokens fuel (j + 1) ymd res
          | None => None
          end
        else if mem (lower t) ["nan"; "inf"; "infinity"] then None
        else
          match weekday t with
          | Some wd => parse_tokens fuel (i + 1) ymd (set_weekday res wd)
          | None =>
          match month_of t with
          | Some m =>
              match ymd_append_number ymd m (Some LabelM) with
              | None => None
              | Some y1 =>
                  if (i + 1 <? len_l)%nat then
                    if mem (tok (i + 1)) ["-"; "/"] then
                      if (i + 2 <? len_l)%nat then
                        match ymd_append_token y1 (tok (i + 2)) None with
                        | None => None
                        | Some y2 =>
                            if andb (i + 3 <? len_l)%nat
                                    (String.eqb (tok (i + 3)) (tok (i + 1)))
                            then
                              if (i + 4 <? len_l)%nat then
                                match ymd_append_token y2 (tok (i + 4)) None with
                                | Some y3 => parse_tokens fuel (i + 5) y3 res
                                | None => None
                                end
                              else None
                            else parse_tokens fuel (i + 3) y2 res
                        end
                      else None
                    else if andb (andb (i + 4 <? len_l)%nat
                                       (andb (String.eqb (tok (i + 1)) " ")
                                             (String.eqb (tok (i + 3)) " ")))
                                 (pertain (tok (i + 2)))
                    then None
                    else parse_tokens fuel (i + 1) y1 res
                  else parse_tokens fuel (i + 1) y1 res
              end
          | None =>
          match ampm t with
          | Some flag =>
              match r_hour res with
              | None => None
              | Some h =>
                  if andb (0 <=? h) (h <=? 12)
                  then parse_tokens fuel (i + 1) ymd (set_ampm res (adjust_ampm h flag) flag)
                  else None
              end
          | None =>
              if could_be_tzname res t then
                if tok_in (i + 1) ["+"; "-"] then None
                else parse_tokens fuel (i + 1) ymd (set_tz res (Some t) (tzoffset t))
              else if andb (is_some (r_hour res)) (mem t ["+"; "-"]) then None
              else if jump t then parse_tokens fuel (i + 1) ymd res
              else None
          end end end
  end.

End Tokens.

Definition ParserError (msg : string) : exception :=
  {| exc_type := ExceptionClass "ParserError"; exc_str := msg |}.

(** [_parse]: the tokens read, the date resolved and the zone settled
    ([validate]).  A year of one or two digits is completed from the current
    year by the library; that form is outside this model. *)
Definition parse_fields (timestr : string) : option parse_result :=
  let tokens := split timestr in
  match parse_tokens tokens (List.length tokens) 0 ymd_empty result_empty with
  | None => None
  | Some (ymd, res) =>
      match resolve_ymd ymd with
      | None => None
      | Some (y, m, d) =>
          let short_year :=
            match y with
            | Some yv => andb (yv <? 100) (negb (century_specified ymd))
            | None => false
            end in
          if short_year then None
          else
            let res := set_ymd res y m d in
            let is_z := match r_tzname res with
                        | Some n => orb (String.eqb n "Z") (String.eqb n "z")
                        | None => false
                        end in
            let zero_unnamed :=
              match r_tzoffset res, r_tzname res with
              | Some 0, None => true
              | _, _ => false
              end in
            if orb zero_unnamed is_z then Some (set_tz res (Some "UTC") (Some 0))
            else
              match r_tzname res with
              | Some n => if utczone n then Some (set_tz res (Some n) (Some 0))
                          else Some res
              | None => Some res
              end
      end
  end.

(** How many fields the text gave. *)
Definition fields_given (r : parse_result) : nat :=
  List.length (filter (@is_some Z)
    [r_year r; r_month r; r_day r; r_weekday r; r_hour r; r_minute r;
     r_second r; r_microsecond r; r_tzoffset r; r_ampm r])
  + (if is_some (r_tzname r) then 1 else 0).

Definition or_default (o : option Z) (d : Z) : Z :=
  match o with Some v => v | None => d end.

(** The fields of a time of day the constructor accepts. *)
Definition check_time_fields (h m s us : Z) : result unit :=
  if negb (andb (0 <=? h) (h <=? 23)) then Raise (ValueError "hour must be in 0..23")
  else if negb (andb (0 <=? m) (m <=? 59)) then Raise (ValueError "minute must be in 0..59")
  else if negb (andb (0 <=? s) (s <=? 59)) then Raise (ValueError "second must be in 0..59")
  else if negb (andb (0 <=? us) (us <=? 999999))
  then Raise (ValueError "microsecond must be in 0..999999")
  else Ok tt.

(** [_build_naive]: the fields of the text over those of [default].  A
    missing day is cut to the length of the month.  Only the fields that the
    text sets are checked again; those of [default] were when it was built. *)
Definition build_naive (res : parse_result) (default : datetime) : result datetime :=
  let y := or_default (r_year res) (year default) in
  let m := or_default (r_month res) (month default) in
  let d :=
    match r_day res with
    | Some d => d
    | None => Z.min (day default) (days_in_month y m)
    end in
  let date_given := orb (is_some (r_year res)) (orb (is_some (r_month res)) (is_some (r_day res))) in
  let h := or_default (r_hour res) (hour default) in
  let mi := or_default (r_minute res) (minute default) in
  let sec := or_default (r_second res) (second default) in
  let us := or_default (r_microsecond res) (microsecond default) in
  let time_given :=
    orb (orb (is_some (r_hour res)) (is_some (r_minute res)))
        (orb (is_some (r_second res)) (is_some (r_microsecond res))) in
  match (if date_given then check_date_fields y m d else Ok tt) with
  | Raise e => Raise e
  | Ok _ =>
      match (if time_given then check_time_fields h mi sec us else Ok tt) with
      | Raise e => Raise e
      | Ok _ =>
          Ok {| year := y; month := m; day := d;
                hour := h; minute := mi; second := sec; microsecond := us;
                utcoffset := utcoffset default |}
      end
  end.

(** [_build_tzaware]: offset zero is UTC; a name without an offset leaves
    the result naive.  (The library gives a zone named like the local one the
    local zone; the local zone named UTC is taken to be at offset zero.) *)
Definition build_tzaware (naive : datetime) (res : parse_result) : datetime :=
  match r_tzoffset res with
  | Some off =>
      {| year := year naive; month := month naive; day := day naive;
         hour := hour naive; minute := minute naive; second := second naive;
         microsecond := microsecond naive; utcoffset := Some off |}
  | None => naive
  end.

(** [now.replace(hour=0, minute=0, second=0, microsecond=0)] *)
Definition midnight (now : datetime) : datetime :=
  {| year := year now; month := month now; day := day now;
     hour := 0; minute := 0; second := 0; microsecond := 0;
     utcoffset := utcoffset now |}.

(** [parser.parse(timestr)], given the reading of the clock it takes its
    default from.  A weekday without a day moves the date to that weekday in
    the library; that form is outside this model and is refused. *)
Definition parse_at (now : datetime) (timestr : string) : result datetime :=
  match parse_fields timestr with
  | None => Raise (ParserError ("Unknown string format: " ++ timestr))
  | Some res =>
      if (fields_given res =? 0)%nat
      then Raise (ParserError ("String does not contain a date: " ++ timestr))
      else
        match build_naive res (midnight now) with
        | Raise e => Raise (ParserError (exc_str e ++ ": " ++ timestr))
        | Ok naive =>
            if andb (is_some (r_weekday res)) (negb (is_some (r_day res)))
            then Raise (ParserError ("Unknown string format: " ++ timestr))
            else Ok (build_tzaware naive res)
        end
  end.

(** ** [relativedelta] *)

(** The fields [relativedelta(months=..., days=...)] sets; a count of
    months past eleven carries into the years. *)
Record relativedelta_t : Type := { rd_years : Z; rd_months : Z; rd_days : Z }.

Definition relativedelta (months days : Z) : relativedelta_t :=
  if 11 <? Z.abs months then
    let sg := Z.sgn months in
    {| rd_years := (Z.abs months / 12) * sg;
       rd_months := (Z.abs months mod 12) * sg;
       rd_days := days |}
  else {| rd_years := 0; rd_months := months; rd_days := days |}.

(** [dt + rd]: the years and months first, the day cut to the length of the
    month reached, then the days. *)
Definition add_relativedelta (dt : datetime) (rd : relativedelta_t) : result datetime :=
  let y := year dt + rd_years rd in
  let m := month dt + rd_months rd in
  let '(y, m) := if 12 <? m then (y + 1, m - 12)
                 else if m <? 1 then (y - 1, m + 12)
                 else (y, m) in
  let d := Z.min (days_in_month y m) (day dt) in
  match replace_date dt y m d with
  | Raise e => Raise e
  | Ok moved => add_days moved (rd_days rd)
  end.

End Dateutil.

(* ================================================================== *)
(** * [json]: [dumps] and [loads]                                      *)
(* ================================================================== *)

Module Json.
Import Py PyFloat.

(** A [str] is kept as its UTF-8 bytes. *)

Definition code (c : ascii) : Z := Z.of_N (N_of_ascii c).
Definition chr (n : Z) : ascii := ascii_of_N (Z.to_N n).
Definition dquote : ascii := "034"%char.
Definition backslash : ascii := "092"%char.

Definition hex_digit (n : Z) : ascii :=
  if n <? 10 then chr (48 + n) else chr (87 + n).

(** [\uXXXX] *)
Definition escape_u (cp : Z) : list ascii :=
  [backslash; "u"%char; hex_digit (cp / 4096); hex_digit ((cp / 256) mod 16);
   hex_digit ((cp / 16) mod 16); hex_digit (cp mod 16)].

(** The escape of a code point outside the printable ASCII range: one
    [\uXXXX], or a surrogate pair above the basic plane. *)
Definition escape_code_point (cp : Z) : list ascii :=
  if cp <? 65536 then escape_u cp
  else
    let n := cp - 65536 in
    (escape_u (Z.lor 55296 (Z.land (Z.shiftr n 10) 1023))
     ++ escape_u (Z.lor 56320 (Z.land n 1023)))%list.

Definition is_cont (c : ascii) : bool := andb (128 <=? code c) (code c <? 192).

(** The characters of a string between quotes, as [ensure_ascii] writes
    them. *)
Fixpoint encode_chars (l : list ascii) : list ascii :=
  match l with
  | [] => []
  | c :: r =>
      let n := code c in
      if n =? 34 then backslash :: dquote :: encode_chars r
      else if n =? 92 then backslash :: backslash :: encode_chars r
      else if n =? 10 then backslash :: "n"%char :: encode_chars r
      else if n =? 13 then backslash :: "r"%char :: encode_chars r
      else if n =? 9 then backslash :: "t"%char :: encode_chars r
      else if n =? 8 then backslash :: "b"%char :: encode_chars r
      else if n =? 12 then backslash :: "f"%char :: encode_chars r
      else if andb (32 <=? n) (n <=? 126) then c :: encode_chars r
      else if n <? 128 then (escape_u n ++ encode_chars r)%list
      else
        match r with
        | c1 :: r1 =>
            if andb (andb (192 <=? n) (n <? 224)) (is_cont c1) then
              (escape_code_point ((n - 192) * 64 + (code c1 - 128))
               ++ encode_chars r1)%list
            else
              match r1 with
              | c2 :: r2 =>
                  if andb (andb (224 <=? n) (n <? 240)) (andb (is_cont c1) (is_cont c2))
                  then
                    (escape_code_point ((n - 224) * 4096 + (code c1 - 128) * 64
                                        + (code c2 - 128))
                     ++ encode_chars r2)%list
                  else
                    match r2 with
                    | c3 :: r3 =>
                        if andb (andb (240 <=? n) (n <? 248))
                                (andb (is_cont c1) (andb (is_cont c2) (is_cont c3)))
                        then
                          (escape_code_point
                             ((n - 240) * 262144 + (code c1 - 128) * 4096
                              + (code c2 - 128) * 64 + (code c3 - 128))
                           ++ encode_chars r3)%list
                        else (escape_u n ++ encode_chars r)%list
                    | [] => (escape_u n ++ encode_chars r)%list
                    end
              | [] => (escape_u n ++ encode_chars r)%list
              end
        | [] => escape_u n
        end
  end.

Definition encode_string (s : string) : string :=
  String dquote (string_of_list_ascii (encode_chars (list_ascii_of_string s)))
  ++ String dquote "".

(** The text of a float in JSON. *)
Definition encode_float `{Runtime} (x : float) : string :=
  if PrimFloat.is_nan x then "NaN"
  else if PrimFloat.is_infinity x then
    (if PrimFloat.ltb x 0%float then "-Infinity" else "Infinity")
  else float_repr x.

(** [json.dumps(v)] with the default separators. *)
Fixpoint dumps `{Runtime} (v : value) : string :=
  match v with
  | VNone => "null"
  | VBool true => "true"
  | VBool false => "false"
  | VInt n => str_of_Z n
  | VFloat x => encode_float x
  | VStr s => encode_string s
  | VList l => "[" ++ String.concat ", " (map dumps l) ++ "]"
  | VDict d =>
      "{" ++ String.concat ", "
               (map (fun kv => encode_string (fst kv) ++ ": " ++ dumps (snd kv)) d)
      ++ "}"
  end.

(** ** Decoding *)

(** The error of the decoder: the message, then where in [doc] the text
    left over starts, as line, column and offset. *)
Definition JSONDecodeError (msg : string) (doc rest : list ascii) : exception :=
  let pos := (List.length doc - List.length rest)%nat in
  let before := firstn pos doc in
  let is_nl (c : ascii) := code c =? 10 in
  let line := S (List.length (filter is_nl before)) in
  let fix since_nl (l : list ascii) (n : nat) : nat :=
    match l with
    | [] => n
    | c :: r => if is_nl c then since_nl r 0%nat else since_nl r (S n)
    end in
  let col := S (since_nl before 0%nat) in
  {| exc_type := ExceptionClass "JSONDecodeError";
     exc_str := msg ++ ": line " ++ str_of_Z (Z.of_nat line)
                ++ " column " ++ str_of_Z (Z.of_nat col)
                ++ " (char " ++ str_of_Z (Z.of_nat pos) ++ ")" |}.

Definition RecursionError : exception :=
  {| exc_type := ExceptionClass "RecursionError";
     exc_str := "maximum recursion depth exceeded while decoding a JSON document" |}.

Definition is_ws (c : ascii) : bool :=
  orb (orb (code c =? 32) (code c =? 9)) (orb (code c =? 10) (code c =? 13)).
Definition is_digit (c : ascii) : bool := andb (48 <=? code c) (code c <=? 57).

Fixpoint skip_ws (l : list ascii) : list ascii :=
  match l with
  | c :: r => if is_ws c then skip_ws r else l
  | [] => []
  end.

Definition hex_value (c : ascii) : option Z :=
  let n := code c in
  if andb (48 <=? n) (n <=? 57) then Some (n - 48)
  else if andb (97 <=? n) (n <=? 102) then Some (n - 87)
  else if andb (65 <=? n) (n <=? 70) then Some (n - 55)
  else None.

Definition hex4 (a b c d : ascii) : option Z :=
  match hex_value a, hex_value b, hex_value c, hex_value d with
  | Some x, Some y, Some z, Some w => Some (((x * 16 + y) * 16 + z) * 16 + w)
  | _, _, _, _ => None
  end.

(** The UTF-8 bytes of a code point. *)
Definition utf8 (cp : Z) : list ascii :=
  if cp <? 128 then [chr cp]
  else if cp <? 2048 then [chr (192 + cp / 64); chr (128 + cp mod 64)]
  else if cp <? 65536 then
    [chr (224 + cp / 4096); chr (128 + (cp / 64) mod 64); chr (128 + cp mod 64)]
  else
    [chr (240 + cp / 262144); chr (128 + (cp / 4096) mod 64);
     chr (128 + (cp / 64) mod 64); chr (128 + cp mod 64)].

Definition simple_escape (c : ascii) : option ascii :=
  let n := code c in
  if n =? 34 then Some dquote
  else if n =? 92 then Some backslash
  else if n =? 47 then Some "/"%char
  else if n =? 98 then Some (chr 8)
  else if n =? 102 then Some (chr 12)
  else if n =? 110 then Some (chr 10)
  else if n =? 114 then Some (chr 13)
  else if n =? 116 then Some (chr 9)
  else None.

(** The string whose opening quote was just read ([scanstring]): its
    characters (last first in [acc]) and the text after the closing quote. *)
Fixpoint scan_string (doc : list ascii) (acc : list ascii) (l : list ascii)
  : result (string * list ascii) :=
  match l with
  | [] => Raise (JSONDecodeError "Unterminated string starting at" doc l)
  | c :: r =>
      if code c =? 34 then Ok (string_of_list_ascii (rev acc), r)
      else if code c <? 32 then Raise (JSONDecodeError "Invalid control character at" doc l)
      else if code c =? 92 then
        match r with
        | [] => Raise (JSONDecodeError "Unterminated string starting at" doc l)
        | e :: r1 =>
            if code e =? 117 then
              match r1 with
              | h1 :: h2 :: h3 :: h4 :: r2 =>
                  match hex4 h1 h2 h3 h4 with
                  | None => Raise (JSONDecodeError "Invalid \uXXXX escape" doc r)
                  | Some hi =>
                      let single := scan_string doc (rev (utf8 hi) ++ acc)%list r2 in
                      if andb (55296 <=? hi) (hi <=? 56319) then
                        match r2 with
                        | b :: u :: l1 :: l2 :: l3 :: l4 :: r3 =>
                            if andb (code b =? 92) (code u =? 117) then
                              match hex4 l1 l2 l3 l4 with
                              | None => Raise (JSONDecodeError "Invalid \uXXXX escape" doc (u :: l1 :: l2 :: l3 :: l4 :: r3))
                              | Some lo =>
                                  if andb (56320 <=? lo) (lo <=? 57343) then
                                    scan_string doc
                                      (rev (utf8 (65536 + (hi - 55296) * 1024 + (lo - 56320)))
                                       ++ acc)%list r3
                                  else single
                              end
                            else single
                        | _ => single
                        end
                      else single
                  end
              | _ => Raise (JSONDecodeError "Invalid \uXXXX escape" doc r)
              end
            else
              match simple_escape e with
              | Some ch => scan_string doc (ch :: acc) r1
              | None => Raise (JSONDecodeError "Invalid \escape" doc r)
              end
        end
      else scan_string doc (c :: acc) r
  end.

Fixpoint take_digits (l : list ascii) : list ascii * list ascii :=
  match l with
  | c :: r => if is_digit c then let (d, t) := take_digits r in (c :: d, t) else ([], l)
  | [] => ([], [])
  end.

(** A number at the head of the text: the literal and the text after it. *)
Definition scan_number (l : list ascii) : option (list ascii * bool * list ascii) :=
  let (sign, l1) :=
    match l with
    | c :: r => if code c =? 45 then ([c], r) else ([], l)
    | [] => ([], l)
    end in
  let (int_part, l2) := take_digits l1 in
  let (int_part, l2) :=
    match int_part with
    | z :: _ :: _ => if code z =? 48 then ([z], tl l1) else (int_part, l2)
    | _ => (int_part, l2)
    end in
  match int_part with
  | [] => None
  | _ =>
      let (frac, l3) :=
        match l2 with
        | p :: r =>
            if code p =? 46 then
              let (d, t) := take_digits r in
              match d with
              | [] => ([], l2)
              | _ => (p :: d, t)
              end
            else ([], l2)
        | [] => ([], l2)
        end in
      let (expo, l4) :=
        match l3 with
        | e :: r =>
            if orb (code e =? 101) (code e =? 69) then
              let (sg, r') :=
                match r with
                | s :: r'' => if orb (code s =? 43) (code s =? 45) then ([s], r'') else ([], r)
                | [] => ([], r)
                end in
              let (d, t) := take_digits r' in
              match d with
              | [] => ([], l3)
              | _ => ((e :: sg ++ d)%list, t)
              end
            else ([], l3)
        | [] => ([], l3)
        end in
      let is_float := negb (andb (Nat.eqb (List.length frac) 0) (Nat.eqb (List.length expo) 0)) in
      Some ((sign ++ int_part ++ frac ++ expo)%list, is_float, l4)
  end.

Definition int_of_literal (l : list ascii) : Z :=
  match NilZero.int_of_string (string_of_list_ascii l) with
  | Some i => Z.of_int i
  | None => 0
  end.

Fixpoint starts_with (prefix l : list ascii) : option (list ascii) :=
  match prefix, l with
  | [], _ => Some l
  | p :: ps, c :: r => if Ascii.eqb p c then starts_with ps r else None
  | _ :: _, [] => None
  end.

Definition literal (word : string) (l : list ascii) : option (list ascii) :=
  starts_with (list_ascii_of_string word) l.

Section Decoder.
Context `{Runtime}.
Variable doc : list ascii.

(** The scanner: one value at the head of the text, and what follows it.
    [fuel] bounds the depth of the calls; the length of the document is
    enough. *)
Fixpoint scan_once (fuel : nat) (l : list ascii) : result (value * list ascii) :=
  match fuel with
  | O => Raise RecursionError
  | S fuel =>
      match l with
      | [] => Raise (JSONDecodeError "Expecting value" doc l)
      | c :: r =>
          if code c =? 34 then
            match scan_string doc [] r with
            | Ok (s, rest) => Ok (VStr s, rest)
            | Raise e => Raise e
            end
          else if code c =? 123 then
            match skip_ws r with
            | c1 :: r1 =>
                if code c1 =? 125 then Ok (VDict [], r1)
                else scan_members fuel [] (c1 :: r1)
            | [] => Raise (JSONDecodeError
                             "Expecting property name enclosed in double quotes" doc [])
            end
          else if code c =? 91 then
            match skip_ws r with
            | c1 :: r1 =>
                if code c1 =? 93 then Ok (VList [], r1)
                else scan_elements fuel [] (c1 :: r1)
            | [] => Raise (JSONDecodeError "Expecting value" doc [])
            end
          else
            match literal "null" l, literal "true" l, literal "false" l with
            | Some rest, _, _ => Ok (VNone, rest)
            | _, Some rest, _ => Ok (VBool true, rest)
            | _, _, Some rest => Ok (VBool false, rest)
            | None, None, None =>
                match scan_number l with
                | Some (text, true, rest) =>
                    Ok (VFloat (float_of_str (string_of_list_ascii text)), rest)
                | Some (text, false, rest) => Ok (VInt (int_of_literal text), rest)
                | None =>
                    match literal "NaN" l, literal "Infinity" l, literal "-Infinity" l with
                    | Some rest, _, _ => Ok (VFloat PrimFloat.nan, rest)
                    | _, Some rest, _ => Ok (VFloat PrimFloat.infinity, rest)
                    | _, _, Some rest => Ok (VFloat PrimFloat.neg_infinity, rest)
                    | None, None, None => Raise (JSONDecodeError "Expecting value" doc l)
                    end
                end
            end
      end
  end

(** The members of an object from a key on; [acc] is the dict so far. *)
with scan_members (fuel : nat) (acc : list (string * value)) (l : list ascii)
  : result (value * list ascii) :=
  match fuel with
  | O => Raise RecursionError
  | S fuel =>
      match l with
      | q :: r =>
          if code q =? 34 then
            match scan_string doc [] r with
            | Raise e => Raise e
            | Ok (key, rest) =>
                match skip_ws rest with
                | colon :: after =>
                    if code colon =? 58 then
                      match scan_once fuel (skip_ws after) with
                      | Raise e => Raise e
                      | Ok (v, rest) =>
                          let acc := dict_set acc key v in
                          match skip_ws rest with
                          | sep :: more =>
                              if code sep =? 125 then Ok (VDict acc, more)
                              else if code sep =? 44 then
                                match skip_ws more with
                                | q' :: r' =>
                                    if code q' =? 34 then scan_members fuel acc (q' :: r')
                                    else Raise (JSONDecodeError
                                      "Expecting property name enclosed in double quotes"
                                      doc (q' :: r'))
                                | [] => Raise (JSONDecodeError
                                      "Expecting property name enclosed in double quotes"
                                      doc [])
                                end
                              else Raise (JSONDecodeError "Expecting ',' delimiter" doc (sep :: more))
                          | [] => Raise (JSONDecodeError "Expecting ',' delimiter" doc [])
                          end
                      end
                    else Raise (JSONDecodeError "Expecting ':' delimiter" doc (colon :: after))
                | [] => Raise (JSONDecodeError "Expecting ':' delimiter" doc [])
                end
            end
          else Raise (JSONDecodeError
                        "Expecting property name enclosed in double quotes" doc l)
      | [] => Raise (JSONDecodeError
                       "Expecting property name enclosed in double quotes" doc l)
      end
  end

(** The elements of an array from a value on; [acc] holds those read, last
    first. *)
with scan_elements (fuel : nat) (acc : list value) (l : list ascii)
  : result (value * list ascii) :=
  match fuel with
  | O => Raise RecursionError
  | S fuel =>
      match scan_once fuel l with
      | Raise e => Raise e
      | Ok (v, rest) =>
          match skip_ws rest with
          | sep :: more =>
              if code sep =? 93 then Ok (VList (rev (v :: acc)), more)
              else if code sep =? 44 then scan_elements fuel (v :: acc) (skip_ws more)
              else Raise (JSONDecodeError "Expecting ',' delimiter" doc (sep :: more))
          | [] => Raise (JSONDecodeError "Expecting ',' delimiter" doc [])
          end
      end
  end.

End Decoder.

(** [json.loads(s)]: one value, with blanks around it and nothing else. *)
Definition loads `{Runtime} (s : string) : result value :=
  let doc := list_ascii_of_string s in
  match scan_once doc (S (List.length doc)) (skip_ws doc) with
  | Raise e => Raise e
  | Ok (v, rest) =>
      match skip_ws rest with
      | [] => Ok v
      | extra => Raise (JSONDecodeError "Extra data" doc extra)
      end
  end.

End Json.

(* ================================================================== *)
(** * The world outside the script, and computations in it             *)
(* ================================================================== *)

Module Env.
Import Py Datetime.

(** What [requests.get] returns: the status code, and what [.json()] gives
    (the decoded body, or the exception of a body that is not JSON). *)
Record Response : Type := {
  status_code : Z;
  response_json : result value
}.

(** What one run of the script receives from outside.
    - [http_get]: the outcome of the one HTTP request, a response or the
      exception raised while waiting for it;
    - [clock n]: the [n]-th reading of the clock in the run;
    - [random_source n]: the [n]-th draw of the random generator. *)
Record World : Type := {
  http_get : result Response;
  clock : nat -> datetime;
  random_source : nat -> N
}.

(** How many readings and draws have been taken so far. *)
Record State : Type := { clock_reads : nat; random_draws : nat }.

Definition initial : State := {| clock_reads := 0; random_draws := 0 |}.

(** A computation: from the state to an outcome and the state after it. *)
Definition M (A : Type) : Type := State -> result A * State.

Definition ret {A : Type} (a : A) : M A := fun s => (Ok a, s).

Definition bind {A B : Type} (m : M A) (k : A -> M B) : M B :=
  fun s =>
    match m s with
    | (Ok a, s') => k a s'
    | (Raise e, s') => (Raise e, s')
    end.

(** An expression that touches neither the clock nor the generator. *)
Definition lift {A : Type} (r : result A) : M A := fun s => (r, s).

(** [try: body / except Exception as e: handler e].  An exception that is
    not an instance of [Exception] is not caught. *)
Definition try_except {A : Type} (body : M A) (handler : exception -> M A) : M A :=
  fun s =>
    match body s with
    | (Ok a, s') => (Ok a, s')
    | (Raise e, s') =>
        if isinstance_Exception e then handler e s' else (Raise e, s')
    end.

End Env.

Declare Scope py_scope.
Delimit Scope py_scope with py.
Notation "x <- m ;; k" := (Env.bind m (fun x => k))
  (at level 61, m at next level, right associativity) : py_scope.

(* ================================================================== *)
(** * [random]                                                          *)
(* ================================================================== *)

Module Random.
Import Py Env.
Open Scope py_scope.

Section Generator.
Variable w : World.

(** [_randbelow(n)] for [0 < n]: the next draw, brought into [0, n).  The
    library draws again until the draw is below [n]; every number below [n]
    can come out and no other. *)
Definition randbelow (n : Z) : M Z :=
  fun s =>
    (Ok (Z.of_N (random_source w (random_draws s)) mod n),
     {| clock_reads := clock_reads s; random_draws := S (random_draws s) |}).

(** [random.randint(a, b)] *)
Definition randint (a b : Z) : M Z :=
  let width := b + 1 - a in
  if 0 <? width then (r <- randbelow width ;; ret (a + r))
  else lift (Raise (ValueError ("empty range for randrange() ("
                                ++ str_of_Z a ++ ", " ++ str_of_Z (b + 1) ++ ", "
                                ++ str_of_Z width ++ ")"))).

(** [random.choice(seq)] *)
Definition choice (seq : list value) : M value :=
  match seq with
  | [] => lift (Raise (IndexError "Cannot choose from an empty sequence"))
  | _ => i <- randbelow (Z.of_nat (List.length seq)) ;; ret (nth (Z.to_nat i) seq VNone)
  end.

End Generator.
End Random.

(* ================================================================== *)
(** * The script                                                        *)
(* ================================================================== *)

Module Script.
Import Py PyFloat Datetime Dateutil Env Random.
Open Scope py_scope.

Section Program.
Context `{Runtime}.
Variable w : World.

(** [datetime.now()] and [datetime.today()]: the next reading of the
    clock. *)
Definition now : M datetime :=
  fun s =>
    (Ok (clock w (clock_reads s)),
     {| clock_reads := S (clock_reads s); random_draws := random_draws s |}).

Definition today : M datetime := now.

(** [parser.parse(timestr)]: the default it fills from is the clock's
    reading at the call. *)
Definition parser_parse (timestr : string) : M datetime :=
  t <- now ;; lift (parse_at t timestr).

(** [outer[key1][key2] = v] on the report. *)
Definition store (results : value) (key1 key2 : string) (v : value) : M value :=
  inner <- lift (getitem results key1) ;;
  inner <- lift (setitem inner key2 v) ;;
  lift (setitem results key1 inner).

(** ** Test 1: requests, HTTP GET (the body of the [try]) *)
Definition requests_test : M value :=
  response <- lift (http_get w) ;;
  repo_data <- lift (response_json response) ;;
  name <- lift (getitem repo_data "name") ;;
  stargazers_count <- lift (getitem repo_data "stargazers_count") ;;
  stars <- lift (format_comma stargazers_count) ;;
  forks_count <- lift (getitem repo_data "forks_count") ;;
  forks <- lift (format_comma forks_count) ;;
  language <- lift (getitem repo_data "language") ;;
  ret (VDict
         [("version", VStr requests_version);
          ("test", VStr ("GitHub API status: " ++ str_of_Z (status_code response)));
          ("repoData", VDict [("name", name);
                              ("stars", VStr stars);
                              ("forks", VStr forks);
                              ("language", language)]);
          ("installed", VStr "✅")]).

(** ** Test 2: dateutil, date parsing and manipulation *)
Definition dateutil_test : M value :=
  iso_date <- parser_parse "2025-10-22T14:30:00Z" ;;
  natural_date <- parser_parse "October 22, 2025" ;;
  t1 <- now ;;
  future_date <- lift (add_relativedelta t1 (relativedelta 3 15)) ;;
  t2 <- now ;;
  past_date <- lift (sub_days t2 30) ;;
  t3 <- now ;;
  ret (VDict
         [("test", VStr "Date parsing and manipulation");
          ("parsedDates", VDict [("iso", VStr (isoformat iso_date));
                                 ("natural", VStr (strftime natural_date "%Y-%m-%d"));
                                 ("currentTime", VStr (isoformat t3))]);
          ("calculations", VDict [("in3Months15Days", VStr (strftime future_date "%Y-%m-%d"));
                                  ("30DaysAgo", VStr (strftime past_date "%Y-%m-%d"))]);
          ("installed", VStr "✅")]).

(** ** Test 3: the standard library, json, math, random, datetime *)
Definition test_data : value := VDict [("name", VStr "test"); ("value", VInt 42)].

Definition stdlib_test : M value :=
  five <- lift (float_of_int 5) ;;
  two <- lift (float_of_int 2) ;;
  power <- lift (math_pow five two) ;;
  let circle_area := PrimFloat.mul math_pi power in
  arg <- lift (float_of_int 144) ;;
  sqrt_result <- lift (math_sqrt arg) ;;
  random_num <- randint w 1 100 ;;
  random_choice <- choice w [VStr "apple"; VStr "banana"; VStr "cherry"] ;;
  let json_string := Json.dumps test_data in
  json_parsed <- lift (Json.loads json_string) ;;
  area2 <- lift (round_ndigits circle_area 2) ;;
  pi4 <- lift (round_ndigits math_pi 4) ;;
  t1 <- now ;;
  t2 <- today ;;
  ret (VDict
         [("math", VDict [("circleArea", VFloat area2);
                          ("sqrt144", VFloat sqrt_result);
                          ("piValue", VFloat pi4)]);
          ("random", VDict [("randomNumber", VInt random_num);
                            ("randomChoice", random_choice)]);
          ("json", VDict [("serialized", VStr json_string);
                          ("deserialized", json_parsed)]);
          ("datetime", VDict [("now", VStr (isoformat t1));
                              ("today", VStr (strftime t2 "%Y-%m-%d"))])]).

(** ** Summary *)

(** [sum(1 for p in packages if p.get('installed') == '✅')] *)
Fixpoint count_installed (packages : list value) : result Z :=
  match packages with
  | [] => Ok 0
  | p :: rest =>
      match get p "installed" with
      | Raise e => Raise e
      | Ok flag =>
          match count_installed rest with
          | Raise e => Raise e
          | Ok n => Ok ((if eq_str flag "✅" then 1 else 0) + n)
          end
      end
  end.

Definition summary (results : value) : M value :=
  t <- now ;;
  packages <- lift (getitem results "packages") ;;
  entries <- lift (values packages) ;;
  working <- lift (count_installed entries) ;;
  lift (setitem results "summary"
          (VDict [("message", VStr "🎉 All packages and stdlib modules working!");
                  ("timestamp", VStr (isoformat t));
                  ("packagesWorking", VInt working)])).

(** The record a failed package section leaves, and the one a failed
    test section leaves. *)
Definition package_error (e : exception) : value :=
  VDict [("error", VStr (exc_str e)); ("installed", VStr "❌")].
Definition test_error (e : exception) : value :=
  VDict [("error", VStr (exc_str e))].

(** ** [verify_dependencies()] *)
Definition verify_dependencies : M value :=
  let results := VDict [("status", VStr "✅ ALL DEPENDENCIES WORKING");
                        ("packages", VDict []);
                        ("tests", VDict [])] in
  results <- try_except
               (entry <- requests_test ;; store results "packages" "requests" entry)
               (fun e => store results "packages" "requests" (package_error e)) ;;
  results <- try_except
               (entry <- dateutil_test ;; store results "packages" "dateutil" entry)
               (fun e => store results "packages" "dateutil" (package_error e)) ;;
  results <- try_except
               (entry <- stdlib_test ;; store results "tests" "stdlib" entry)
               (fun e => store results "tests" "stdlib" (test_error e)) ;;
  summary results.

(** The last line of the file: the report as the one item the node
    returns. *)
Definition node_output : M value :=
  report <- verify_dependencies ;; ret (VList [VDict [("json", report)]]).

End Program.
End Script.

(* ================================================================== *)
(** * Reading a report                                                  *)
(* ================================================================== *)

Module Report.
Import Py.

(** [v[k]] when [v] is a dict that has the key. *)
Definition lookup (v : value) (k : string) : option value :=
  match v with
  | VDict d => dict_lookup d k
  | _ => None
  end.

Definition lookup2 (v : value) (k1 k2 : string) : option value :=
  match lookup v k1 with
  | Some x => lookup x k2
  | None => None
  end.

Definition lookup3 (v : value) (k1 k2 k3 : string) : option value :=
  match lookup2 v k1 k2 with
  | Some x => lookup x k3
  | None => None
  end.

(** The keys of a dict, in order. *)
Definition keys (v : value) : list string :=
  match v with
  | VDict d => dict_keys d
  | _ => []
  end.

(** The installed flag of an entry is the check mark. *)
Definition installed (entry : value) : bool :=
  match lookup entry "installed" with
  | Some flag => eq_str flag "✅"
  | None => false
  end.

(** How many entries of a dict have the check mark. *)
Definition count_working (packages : value) : Z :=
  match packages with
  | VDict d => Z.of_nat (List.length (filter installed (dict_values d)))
  | _ => 0
  end.

End Report.

(* ================================================================== *)
(** * Closed worlds for the examples                                    *)
(* ================================================================== *)

Module Sample.
Import Py PyFloat Datetime Env.

(** A runtime for closed examples: no example below formats or reads a
    float, so the three float operations are never called. *)
Definition runtime : Runtime :=
  {| float_repr := fun _ => "0.0";
     float_of_str := fun _ => 0%float;
     libm_pow := fun _ _ => 0%float;
     requests_version := "2.31.0" |}.

(** A clock that starts on 2025-10-22 at 14:30:00.000250 and gains a
    second at every reading. *)
Definition ticking (n : nat) : datetime :=
  {| year := 2025; month := 10; day := 22; hour := 14; minute := 30;
     second := Z.of_nat n; microsecond := 250; utcoffset := None |}.

(** A clock stopped on the last day of year 9999. *)
Definition last_day (n : nat) : datetime :=
  {| year := 9999; month := 12; day := 31; hour := 23; minute := 59;
     second := 59; microsecond := 0; utcoffset := None |}.

Definition draws (n : nat) : N := (N.of_nat n * 1000 + 299)%N.

(** The body GitHub answers with, cut to the fields the script reads. *)
Definition repo_body : value :=
  VDict [("name", VStr "n8n"); ("stargazers_count", VInt 45123);
         ("forks_count", VInt 5012); ("language", VStr "TypeScript")].

Definition reachable : World :=
  {| http_get := Ok {| status_code := 200; response_json := Ok repo_body |};
     clock := ticking; random_source := draws |}.

(** The answer of a rate-limited request: an error message, none of the
    repository's fields. *)
Definition rate_limited : World :=
  {| http_get := Ok {| status_code := 403;
                       response_json :=
                         Ok (VDict [("message", VStr "API rate limit exceeded")]) |};
     clock := ticking; random_source := draws |}.

Definition timeout_error : exception :=
  {| exc_type := ExceptionClass "ConnectTimeout";
     exc_str := "Connection to api.github.com timed out. (connect timeout=5)" |}.

Definition unreachable : World :=
  {| http_get := Raise timeout_error; clock := ticking; random_source := draws |}.

Definition interrupted : World :=
  {| http_get := Raise {| exc_type := KeyboardInterrupt; exc_str := "" |};
     clock := ticking; random_source := draws |}.

Definition exiting : World :=
  {| http_get := Raise {| exc_type := SystemExit; exc_str := "1" |};
     clock := ticking; random_source := draws |}.

Definition year_end : World :=
  {| http_get := Raise timeout_error; clock := last_day; random_source := draws |}.

(** The reachable world as a run that starts later would see it: other
    readings before the third one and another first draw. *)
Definition replayed : World :=
  {| http_get := Ok {| status_code := 200; response_json := Ok repo_body |};
     clock := fun n => if (n <? 3)%nat then last_day n else ticking n;
     random_source := fun n => if (n <? 1)%nat then 7%N else draws n |}.

Definition later : State := {| clock_reads := 3; random_draws := 1 |}.

(* Worlds for the further properties. *)

(** GitHub answers, on the last day of year 9999. *)
Definition far_future : World :=
  {| http_get := Ok {| status_code := 200; response_json := Ok repo_body |};
     clock := last_day; random_source := draws |}.

(** The same body under status 404. *)
Definition not_found : World :=
  {| http_get := Ok {| status_code := 404; response_json := Ok repo_body |};
     clock := ticking; random_source := draws |}.

(** A body that has the name and the stars and lacks the forks. *)
Definition partial_body : value :=
  VDict [("name", VStr "n8n"); ("stargazers_count", VInt 45123);
         ("language", VStr "TypeScript")].

Definition no_forks : World :=
  {| http_get := Ok {| status_code := 200; response_json := Ok partial_body |};
     clock := ticking; random_source := draws |}.

(** A body with a field the script does not read and the four it reads in
    another order. *)
Definition verbose : World :=
  {| http_get :=
       Ok {| status_code := 200;
             response_json :=
               Ok (VDict [("id", VInt 193215554); ("language", VStr "TypeScript");
                          ("forks_count", VInt 5012); ("name", VStr "n8n");
                          ("stargazers_count", VInt 45123)]) |};
     clock := ticking; random_source := draws |}.

(** A clock stopped on the fifth day of year 1. *)
Definition first_days (n : nat) : datetime :=
  {| year := 1; month := 1; day := 5; hour := 0; minute := 0;
     second := 0; microsecond := 0; utcoffset := None |}.

(** GitHub answers, in the first days of year 1. *)
Definition far_past : World :=
  {| http_get := Ok {| status_code := 200; response_json := Ok repo_body |};
     clock := first_days; random_source := draws |}.

End Sample.

(* ================================================================== *)
(** * The records of the report, for the statements below               *)
(* ================================================================== *)

Import Py PyFloat Datetime Dateutil Env Random Script Report.

Section Records.
Context `{Runtime}.

(** The report the script assembles from the three entries and the reading
    of the clock taken for the summary. *)
Definition assemble (requests_entry dateutil_entry stdlib_entry : value)
           (t : datetime) : value :=
  VDict
    [("status", VStr "✅ ALL DEPENDENCIES WORKING");
     ("packages", VDict [("requests", requests_entry); ("dateutil", dateutil_entry)]);
     ("tests", VDict [("stdlib", stdlib_entry)]);
     ("summary",
      VDict [("message", VStr "🎉 All packages and stdlib modules working!");
             ("timestamp", VStr (isoformat t));
             ("packagesWorking",
              VInt ((if installed requests_entry then 1 else 0)
                    + ((if installed dateutil_entry then 1 else 0) + 0)))])].

(** What a section leaves in the report: its record, or the error record
    of the exception it raised. *)
Definition entry_of (o : result value) (on_error : exception -> value) : value :=
  match o with
  | Ok v => v
  | Raise e => on_error e
  end.

(** The outcome is a value or an exception that [except Exception]
    catches. *)
Definition caught {A : Type} (o : result A) : Prop :=
  match o with
  | Ok _ => True
  | Raise e => isinstance_Exception e = true
  end.

(** The value is a dict. *)
Definition is_dict (v : value) : Prop :=
  match v with
  | VDict _ => True
  | _ => False
  end.

(** The state after one more reading of the clock. *)
Definition tick (s : State) : State :=
  {| clock_reads := S (clock_reads s); random_draws := random_draws s |}.

(** The state after [n] more readings of the clock. *)
Definition reads (s : State) (n : nat) : State :=
  {| clock_reads := (n + clock_reads s)%nat; random_draws := random_draws s |}.

(** The record of a date section that went through. *)
Definition dateutil_record (future past t : datetime) : value :=
  VDict
    [("test", VStr "Date parsing and manipulation");
     ("parsedDates", VDict [("iso", VStr "2025-10-22T14:30:00+00:00");
                            ("natural", VStr "2025-10-22");
                            ("currentTime", VStr (isoformat t))]);
     ("calculations", VDict [("in3Months15Days", VStr (strftime future "%Y-%m-%d"));
                             ("30DaysAgo", VStr (strftime past "%Y-%m-%d"))]);
     ("installed", VStr "✅")].

(** The list the script chooses from. *)
Definition fruits : list value := [VStr "apple"; VStr "banana"; VStr "cherry"].

(** The record of the third section, from the two draws and the two
    readings of the clock. *)
Definition stdlib_record (draw1 draw2 : N) (t1 t2 : datetime) : value :=
  VDict
    [("math", VDict [("circleArea", VFloat 78.54%float);
                     ("sqrt144", VFloat 12%float);
                     ("piValue", VFloat 3.1416%float)]);
     ("random", VDict [("randomNumber", VInt (1 + Z.of_N draw1 mod 100));
                       ("randomChoice", nth (Z.to_nat (Z.of_N draw2 mod 3)) fruits VNone)]);
     ("json", VDict [("serialized", VStr (Json.dumps test_data));
                     ("deserialized", test_data)]);
     ("datetime", VDict [("now", VStr (isoformat t1));
                         ("today", VStr (strftime t2 "%Y-%m-%d"))])].

(** The count a returned report carries, when the summary step returns
    one. *)
Definition packages_working (o : result value * State) : option value :=
  match fst o with
  | Ok report => lookup2 report "summary" "packagesWorking"
  | Raise _ => None
  end.

(** The report of a run that returned one. *)
Definition returned (o : result value * State) : value :=
  match fst o with
  | Ok report => report
  | Raise _ => VNone
  end.

End Records.

(** A run of the script from the initial state, with the sample runtime. *)
Definition run (w : World) : result value * State :=
  verify_dependencies (H := Sample.runtime) w initial.

(** The third section of the reachable world, on its own. *)
Definition sample_stdlib : result value * State :=
  stdlib_test (H := Sample.runtime) Sample.reachable initial.

(* ================================================================== *)
(** * Notions for the further properties                                *)
(* ================================================================== *)

(** What [ord2ymd] does with the days left in the year, [n] from 0, once
    it knows whether the year is a leap year: the month and the day. *)
Definition month_day (leapyear : bool) (n : Z) : Z * Z :=
  let m := Z.shiftr (n + 50) 5 in
  let preceding :=
    nth (Z.to_nat m) DAYS_BEFORE_MONTH 0
    + (if andb (2 <? m) leapyear then 1 else 0) in
  if n <? preceding then
    let m := m - 1 in
    let preceding :=
      preceding - (nth (Z.to_nat m) DAYS_IN_MONTH 0
                   + (if andb (m =? 2) leapyear then 1 else 0)) in
    (m, n - preceding + 1)
  else (m, n - preceding + 1).

(** One day of a year: the month and the day found are a month and one of
    its days, and as many days come before them as [n] says. *)
Definition month_day_ok (leapyear : bool) (n : Z) : bool :=
  let '(m, d) := month_day leapyear n in
  andb (andb (1 <=? m) (m <=? 12))
       (andb (andb (1 <=? d)
                   (d <=? (if andb (m =? 2) leapyear then 29
                           else nth (Z.to_nat m) DAYS_IN_MONTH 0)))
             (nth (Z.to_nat m) DAYS_BEFORE_MONTH 0
              + (if andb (2 <? m) leapyear then 1 else 0) + d =? n + 1)).

(** The test on every number from [lo] up to [hi], by halves. *)
Fixpoint all_between (test : Z -> bool) (fuel : nat) (lo hi : Z) : bool :=
  match fuel with
  | O => hi <=? lo
  | S fuel =>
      if hi <=? lo then true
      else if hi =? lo + 1 then test lo
      else
        let mid := (lo + hi) / 2 in
        andb (all_between test fuel lo mid) (all_between test fuel mid hi)
  end.

(** The month three months on and its year. *)
Definition month_plus3 (dt : datetime) : Z := (month dt + 2) mod 12 + 1.
Definition year_plus3 (dt : datetime) : Z := year dt + (month dt + 2) / 12.

(** The fields of the body the first section reads, in the order it reads
    them. *)
Definition repo_fields : list string :=
  ["name"; "stargazers_count"; "forks_count"; "language"].

Definition absent (d : list (string * value)) (k : string) : bool :=
  match dict_lookup d k with
  | Some _ => false
  | None => true
  end.

(** The character is not the comma. *)
Definition not_comma (c : ascii) : bool := negb (Ascii.eqb c ","%char).

(** A text without its commas. *)
Definition remove_commas (s : string) : string :=
  string_of_list_ascii (filter not_comma (list_ascii_of_string s)).

(** Whether the character at place [i], counted from the right end of the
    text and from 0, is a comma. *)
Definition comma_at (t : string) (i : nat) : bool :=
  match nth_error (rev (list_ascii_of_string t)) i with
  | Some c => Ascii.eqb c ","%char
  | None => false
  end.

(** The node's output for a world, from the initial state, with the sample
    runtime. *)
Definition node_run (w : World) : result value * State :=
  node_output (H := Sample.runtime) w initial.

(** The values [f"{v:,}"] formats: the numbers. *)
Definition formattable (v : value) : bool :=
  match v with
  | VInt _ | VBool _ | VFloat _ => true
  | _ => false
  end.

(** The body is an object that has the four fields the first section
    reads, the two counts being numbers. *)
Definition body_ok (body : value) : bool :=
  match body with
  | VDict d =>
      match dict_lookup d "name", dict_lookup d "stargazers_count",
            dict_lookup d "forks_count", dict_lookup d "language" with
      | Some _, Some stars, Some forks, Some _ =>
          andb (formattable stars) (formattable forks)
      | _, _, _, _ => false
      end
  | _ => false
  end.

(** Notions for the round trip through JSON. *)
Module JsonText.
Import Json.

(** The character is in the ASCII range. *)
Definition is_ascii (c : ascii) : bool := code c <? 128.

(** What [encode_chars] writes for one ASCII character. *)
Definition encode_ascii (c : ascii) : list ascii :=
  let n := code c in
  if n =? 34 then [backslash; dquote]
  else if n =? 92 then [backslash; backslash]
  else if n =? 10 then [backslash; "n"%char]
  else if n =? 13 then [backslash; "r"%char]
  else if n =? 9 then [backslash; "t"%char]
  else if n =? 8 then [backslash; "b"%char]
  else if n =? 12 then [backslash; "f"%char]
  else if andb (32 <=? n) (n <=? 126) then [c]
  else escape_u n.

(** The text after a value of a document: nothing, or what starts with a
    comma or closes an array or an object. *)
Definition closed (rest : list ascii) : bool :=
  match rest with
  | [] => true
  | c :: _ => orb (code c =? 44) (orb (code c =? 93) (code c =? 125))
  end.

(** The text is ASCII. *)
Definition ascii_text (s : string) : bool := forallb is_ascii (list_ascii_of_string s).

Definition digits (u : Decimal.uint) : list ascii :=
  list_ascii_of_string (NilEmpty.string_of_uint u).

(** No zero in front, except for zero itself. *)
Definition normal (u : Decimal.uint) : bool :=
  match u with
  | Decimal.Nil => false
  | Decimal.D0 Decimal.Nil => true
  | Decimal.D0 _ => false
  | _ => true
  end.

Fixpoint distinct (ks : list string) : bool :=
  match ks with
  | [] => true
  | k :: r => andb (negb (existsb (String.eqb k) r)) (distinct r)
  end.

(** The values whose text is read back as they are: no float, ASCII
    strings and keys, and no key twice in an object. *)
Fixpoint plain (v : value) : bool :=
  match v with
  | VNone | VBool _ | VInt _ => true
  | VFloat _ => false
  | VStr s => ascii_text s
  | VList l => forallb plain l
  | VDict d =>
      andb (forallb (fun kv => andb (ascii_text (fst kv)) (plain (snd kv))) d)
           (distinct (dict_keys d))
  end.

(** The first character of a value's text: no blank, and not the bracket
    that closes an array. *)
Definition value_start (c : ascii) : bool :=
  andb (negb (is_ws c)) (negb (code c =? 93)).

(** The characters an int starts with. *)
Definition num_head (c : ascii) : bool := orb (is_digit c) (code c =? 45).

Section Texts.
Context `{Runtime}.

(** The text of one member of an object. *)
Definition member (kv : string * value) : string :=
  encode_string (fst kv) ++ ": " ++ dumps (snd kv).

(** What reading back means for one value: its text, followed by anything
    a value can be followed by, is scanned to the value and what follows. *)
Definition read_back (v : value) : Prop :=
  plain v = true ->
  forall doc fuel rest,
    (List.length (list_ascii_of_string (dumps v)) <= fuel)%nat ->
    closed rest = true ->
    scan_once doc fuel (list_ascii_of_string (dumps v) ++ rest) = Ok (v, rest).

End Texts.

End JsonText.

(* ================================================================== *)
(** * Properties                                                        *)
(* ================================================================== *)

Ltac break_match :=
  match goal with
  | |- context [match ?x with _ => _ end] => destruct x eqn:?
  end.

(** ** The library models on values known from the libraries *)

(** The decimal literals below denote the floats nearest to them: the
    correctly rounded quotients of two integers. *)
Example float_78_54 :
  78.54%float
  = SF2Prim (SFdiv prec emax (S754_finite false 7854 0) (S754_finite false 100 0)).
Proof. reflexivity. Qed.

Example float_3_1416 :
  3.1416%float
  = SF2Prim (SFdiv prec emax (S754_finite false 31416 0) (S754_finite false 10000 0)).
Proof. reflexivity. Qed.

(** [round] goes by the exact value of the float: 2.675 is a little below
    the decimal, 2.5 and 0.125 are exact ties and go to the even digit. *)
Example round_2_675 : round_ndigits 2.675%float 2 = Ok 2.67%float.
Proof. vm_compute. reflexivity. Qed.

Example round_2_5 : round_ndigits 2.5%float 0 = Ok 2%float.
Proof. vm_compute. reflexivity. Qed.

Example round_0_125 : round_ndigits 0.125%float 2 = Ok 0.12%float.
Proof. vm_compute. reflexivity. Qed.

(** The parser on the first example of the library's documentation, and on
    a month and a year alone, where the day of the default is cut to the
    length of the month. *)
Example parse_documented :
  option_map isoformat
    (match parse_at (Sample.last_day 0) "Thu Sep 25 10:36:28 2003" with
     | Ok d => Some d
     | Raise _ => None
     end)
  = Some "2003-09-25T10:36:28".
Proof. vm_compute. reflexivity. Qed.

Example parse_month_year :
  option_map isoformat
    (match parse_at (Sample.last_day 0) "Sep 2003" with
     | Ok d => Some d
     | Raise _ => None
     end)
  = Some "2003-09-30T00:00:00".
Proof. vm_compute. reflexivity. Qed.

(** Three months and fifteen days after the last of January. *)
Example relativedelta_end_of_month :
  option_map isoformat
    (match add_relativedelta
             {| year := 2026; month := 1; day := 31; hour := 0; minute := 0;
                second := 0; microsecond := 0; utcoffset := None |}
             (relativedelta 3 15) with
     | Ok d => Some d
     | Raise _ => None
     end)
  = Some "2026-05-15T00:00:00".
Proof. vm_compute. reflexivity. Qed.

Section Sections.
Context `{Runtime}.
Variable w : World.

(** ** The three sections, one by one *)

Lemma requests_test_state : forall s, snd (requests_test w s) = s.
Proof.
  intros s. unfold requests_test, bind, lift, ret.
  repeat break_match; reflexivity.
Qed.

Lemma requests_test_ok : forall s v s',
  requests_test w s = (Ok v, s') ->
  exists test repo,
    v = VDict [("version", VStr requests_version); ("test", test);
               ("repoData", repo); ("installed", VStr "✅")].
Proof.
  intros s v s'. unfold requests_test, bind, lift, ret.
  repeat break_match; intros E; inversion E; subst; eauto.
Qed.

(** The exceptions of the first section are those of the request and of
    the body, or come from reading the body's fields. *)
Lemma getitem_caught : forall obj key, caught (getitem obj key).
Proof.
  intros obj key. unfold getitem.
  destruct obj; simpl; try reflexivity.
  destruct (dict_lookup d key); simpl; reflexivity.
Qed.

Lemma format_comma_caught : forall v, caught (format_comma v).
Proof. intros v. destruct v; simpl; reflexivity. Qed.

Lemma requests_test_caught : forall s,
  caught (http_get w) ->
  (forall r, http_get w = Ok r -> caught (response_json r)) ->
  caught (fst (requests_test w s)).
Proof.
  intros s Hget Hjson. unfold requests_test, bind, lift, ret.
  destruct (http_get w) as [resp | e]; [ | exact Hget ].
  specialize (Hjson resp eq_refl).
  destruct (response_json resp) as [body | e]; [ | exact Hjson ].
  repeat match goal with
         | |- context [match getitem ?o ?k with _ => _ end] =>
             let G := fresh "G" in
             pose proof (getitem_caught o k) as G; destruct (getitem o k)
         | |- context [match format_comma ?v with _ => _ end] =>
             let G := fresh "G" in
             pose proof (format_comma_caught v) as G; destruct (format_comma v)
         end; simpl; auto.
Qed.

(** The two fixed texts parse to the same fields whatever the clock
    reads. *)
Lemma parse_iso : forall t,
  parse_at t "2025-10-22T14:30:00Z"
  = Ok {| year := 2025; month := 10; day := 22; hour := 14; minute := 30;
          second := 0; microsecond := 0; utcoffset := Some 0 |}.
Proof. intros t. vm_compute. reflexivity. Qed.

Lemma parse_natural : forall t,
  parse_at t "October 22, 2025"
  = Ok {| year := 2025; month := 10; day := 22; hour := 0; minute := 0;
          second := 0; microsecond := 0; utcoffset := utcoffset t |}.
Proof. intros t. vm_compute. reflexivity. Qed.

Lemma isoformat_iso :
  isoformat {| year := 2025; month := 10; day := 22; hour := 14; minute := 30;
               second := 0; microsecond := 0; utcoffset := Some 0 |}
  = "2025-10-22T14:30:00+00:00".
Proof. vm_compute. reflexivity. Qed.

Lemma strftime_natural : forall off,
  strftime {| year := 2025; month := 10; day := 22; hour := 0; minute := 0;
              second := 0; microsecond := 0; utcoffset := off |} "%Y-%m-%d"
  = "2025-10-22".
Proof. intros off. vm_compute. reflexivity. Qed.

(** The date section reads the clock five times when it goes through: twice
    for the parser, then for the future date, the past date and the current
    time.  It fails only where the date arithmetic leaves the calendar. *)
Lemma dateutil_test_eq : forall s,
  dateutil_test w s =
  match add_relativedelta (clock w (2 + clock_reads s)%nat) (relativedelta 3 15) with
  | Raise e => (Raise e, reads s 3)
  | Ok future =>
      match sub_days (clock w (3 + clock_reads s)%nat) 30 with
      | Raise e => (Raise e, reads s 4)
      | Ok past =>
          (Ok (dateutil_record future past (clock w (4 + clock_reads s)%nat)), reads s 5)
      end
  end.
Proof.
  intros s.
  cbv [dateutil_test parser_parse bind lift ret now].
  rewrite parse_iso, parse_natural.
  cbn [clock_reads random_draws].
  destruct (add_relativedelta _ _); [ | reflexivity ].
  destruct (sub_days _ _); [ | reflexivity ].
  rewrite isoformat_iso, strftime_natural. reflexivity.
Qed.

Lemma check_date_fields_caught : forall y m d, caught (check_date_fields y m d).
Proof.
  intros y m d. unfold check_date_fields.
  repeat break_match; simpl; reflexivity.
Qed.

Lemma add_days_caught : forall dt n, caught (add_days dt n).
Proof.
  intros dt n. unfold add_days.
  repeat break_match; simpl; auto.
Qed.

Lemma add_relativedelta_caught : forall dt rd, caught (add_relativedelta dt rd).
Proof.
  intros dt rd. unfold add_relativedelta, replace_date.
  repeat match goal with
         | |- context [match check_date_fields ?y ?m ?d with _ => _ end] =>
             let G := fresh "G" in
             pose proof (check_date_fields_caught y m d) as G;
             destruct (check_date_fields y m d)
         | |- context [let '(_, _) := ?x in _] => destruct x
         end; try exact G; apply add_days_caught.
Qed.

Lemma dateutil_test_caught : forall s, caught (fst (dateutil_test w s)).
Proof.
  intros s. rewrite dateutil_test_eq.
  pose proof (add_relativedelta_caught (clock w (2 + clock_reads s)%nat) (relativedelta 3 15)) as G1.
  pose proof (add_days_caught (clock w (3 + clock_reads s)%nat) (- 30)) as G2.
  unfold sub_days.
  destruct (add_relativedelta _ _); [ | exact G1 ].
  destruct (add_days _ _); [ exact I | exact G2 ].
Qed.

Lemma dateutil_test_ok : forall s v s',
  dateutil_test w s = (Ok v, s') ->
  exists future past, v = dateutil_record future past (clock w (4 + clock_reads s)%nat).
Proof.
  intros s v s'. rewrite dateutil_test_eq.
  repeat break_match; intros E; inversion E; subst; eauto.
Qed.

(** The closed computations of the third section. *)
Lemma float_of_5 : float_of_int 5 = Ok 5%float.
Proof. vm_compute. reflexivity. Qed.
Lemma float_of_2 : float_of_int 2 = Ok 2%float.
Proof. vm_compute. reflexivity. Qed.
Lemma float_of_144 : float_of_int 144 = Ok 144%float.
Proof. vm_compute. reflexivity. Qed.
Lemma pow_5_2 : math_pow 5%float 2%float = Ok 25%float.
Proof. vm_compute. reflexivity. Qed.
Lemma sqrt_144 : math_sqrt 144%float = Ok 12%float.
Proof. vm_compute. reflexivity. Qed.
Lemma round_area : round_ndigits (PrimFloat.mul math_pi 25%float) 2 = Ok 78.54%float.
Proof. vm_compute. reflexivity. Qed.
Lemma round_pi : round_ndigits math_pi 4 = Ok 3.1416%float.
Proof. vm_compute. reflexivity. Qed.
Lemma loads_dumps_test_data : Json.loads (Json.dumps test_data) = Ok test_data.
Proof. vm_compute. reflexivity. Qed.

(** The third section always goes through: two draws, two readings. *)
Lemma stdlib_test_eq : forall s,
  stdlib_test w s =
  (Ok (stdlib_record (random_source w (random_draws s))
                     (random_source w (S (random_draws s)))
                     (clock w (clock_reads s)) (clock w (S (clock_reads s)))),
   {| clock_reads := S (S (clock_reads s)); random_draws := S (S (random_draws s)) |}).
Proof.
  intros s.
  cbv [stdlib_test bind lift ret now today randint choice randbelow].
  rewrite float_of_5, float_of_2, pow_5_2, float_of_144, sqrt_144,
    loads_dumps_test_data, round_area, round_pi.
  change (0 <? 100 + 1 - 1) with true. cbv beta iota.
  cbn [clock_reads random_draws].
  reflexivity.
Qed.

(** ** The report as a whole *)

Lemma get_installed : forall d,
  get (VDict d) "installed"
  = Ok (match dict_lookup d "installed" with Some v => v | None => VNone end).
Proof. intros d. unfold get. destruct (dict_lookup d "installed"); reflexivity. Qed.

Lemma installed_dict : forall d,
  installed (VDict d)
  = eq_str (match dict_lookup d "installed" with Some v => v | None => VNone end) "✅".
Proof.
  intros d. unfold installed, lookup.
  destruct (dict_lookup d "installed"); reflexivity.
Qed.

(** The summary step on a report whose two package entries are dicts. *)
Lemma summary_eq : forall dA dB eC s,
  summary w (VDict [("status", VStr "✅ ALL DEPENDENCIES WORKING");
                    ("packages", VDict [("requests", VDict dA); ("dateutil", VDict dB)]);
                    ("tests", VDict [("stdlib", eC)])]) s
  = (Ok (assemble (VDict dA) (VDict dB) eC (clock w (clock_reads s))), tick s).
Proof.
  intros dA dB eC s.
  unfold summary, assemble, bind, lift, now, tick.
  cbn [getitem dict_lookup String.eqb Ascii.eqb Bool.eqb values dict_values map snd
       count_installed].
  rewrite !get_installed, !installed_dict.
  reflexivity.
Qed.

Lemma requests_entry_dict : forall s,
  is_dict (entry_of (fst (requests_test w s)) package_error).
Proof.
  intros s. destruct (requests_test w s) as [[v | e] s'] eqn:E; simpl.
  - apply requests_test_ok in E. destruct E as (test & repo & ->). exact I.
  - exact I.
Qed.

Lemma dateutil_entry_dict : forall s,
  is_dict (entry_of (fst (dateutil_test w s)) package_error).
Proof.
  intros s. destruct (dateutil_test w s) as [[v | e] s'] eqn:E; simpl.
  - apply dateutil_test_ok in E. destruct E as (future & past & ->). exact I.
  - exact I.
Qed.

(** One guarded section of the script: the entry is stored when the body
    returns, the error record when it raises an exception that is caught,
    and any other exception goes on. *)
Lemma guarded_package : forall (body : M value) st p t key s,
  try_except
    (bind body (fun entry =>
       store (VDict [("status", st); ("packages", VDict p); ("tests", t)])
             "packages" key entry))
    (fun e => store (VDict [("status", st); ("packages", VDict p); ("tests", t)])
                    "packages" key (package_error e)) s
  = match body s with
    | (Ok v, s') =>
        (Ok (VDict [("status", st); ("packages", VDict (dict_set p key v)); ("tests", t)]), s')
    | (Raise e, s') =>
        if isinstance_Exception e
        then (Ok (VDict [("status", st);
                         ("packages", VDict (dict_set p key (package_error e)));
                         ("tests", t)]), s')
        else (Raise e, s')
    end.
Proof.
  intros body st p t key s. unfold try_except, bind.
  destruct (body s) as [[v | e] s']; [ reflexivity | ].
  destruct (isinstance_Exception e); reflexivity.
Qed.

Lemma guarded_test : forall (body : M value) st p t key s,
  try_except
    (bind body (fun entry =>
       store (VDict [("status", st); ("packages", p); ("tests", VDict t)])
             "tests" key entry))
    (fun e => store (VDict [("status", st); ("packages", p); ("tests", VDict t)])
                    "tests" key (test_error e)) s
  = match body s with
    | (Ok v, s') =>
        (Ok (VDict [("status", st); ("packages", p); ("tests", VDict (dict_set t key v))]), s')
    | (Raise e, s') =>
        if isinstance_Exception e
        then (Ok (VDict [("status", st); ("packages", p);
                         ("tests", VDict (dict_set t key (test_error e)))]), s')
        else (Raise e, s')
    end.
Proof.
  intros body st p t key s. unfold try_except, bind.
  destruct (body s) as [[v | e] s']; [ reflexivity | ].
  destruct (isinstance_Exception e); reflexivity.
Qed.

Lemma bind_run : forall (A B : Type) (m : M A) (k : A -> M B) s,
  bind m k s
  = match m s with
    | (Ok a, s') => k a s'
    | (Raise e, s') => (Raise e, s')
    end.
Proof. reflexivity. Qed.

(** The script after its first section, for the entry that section
    left. *)
Lemma verify_from_dateutil : forall entryA s,
  is_dict entryA ->
  bind
    (try_except
       (bind (dateutil_test w) (fun entry =>
          store (VDict [("status", VStr "✅ ALL DEPENDENCIES WORKING");
                        ("packages", VDict [("requests", entryA)]);
                        ("tests", VDict [])])
                "packages" "dateutil" entry))
       (fun e => store (VDict [("status", VStr "✅ ALL DEPENDENCIES WORKING");
                               ("packages", VDict [("requests", entryA)]);
                               ("tests", VDict [])])
                       "packages" "dateutil" (package_error e)))
    (fun results =>
       bind
         (try_except
            (bind (stdlib_test w) (fun entry => store results "tests" "stdlib" entry))
            (fun e => store results "tests" "stdlib" (test_error e)))
         (fun results => summary w results)) s
  = (Ok (assemble entryA
                  (entry_of (fst (dateutil_test w s)) package_error)
                  (entry_of (fst (stdlib_test w (snd (dateutil_test w s)))) test_error)
                  (clock w (clock_reads (snd (stdlib_test w (snd (dateutil_test w s))))))),
     tick (snd (stdlib_test w (snd (dateutil_test w s))))).
Proof.
  intros entryA s DA.
  pose proof (dateutil_entry_dict s) as DB.
  pose proof (dateutil_test_caught s) as HB.
  rewrite bind_run, guarded_package.
  destruct (dateutil_test w s) as [oB sB].
  cbn [fst snd] in *.
  assert (E :
    (match oB with
     | Ok v =>
         (Ok (VDict [("status", VStr "✅ ALL DEPENDENCIES WORKING");
                     ("packages", VDict (dict_set [("requests", entryA)] "dateutil" v));
                     ("tests", VDict [])]), sB)
     | Raise e =>
         if isinstance_Exception e
         then (Ok (VDict [("status", VStr "✅ ALL DEPENDENCIES WORKING");
                          ("packages",
                           VDict (dict_set [("requests", entryA)] "dateutil" (package_error e)));
                          ("tests", VDict [])]), sB)
         else (Raise e, sB)
     end)
    = (Ok (VDict [("status", VStr "✅ ALL DEPENDENCIES WORKING");
                  ("packages", VDict [("requests", entryA);
                                      ("dateutil", entry_of oB package_error)]);
                  ("tests", VDict [])]), sB)).
  { destruct oB as [vB | eB]; [ reflexivity | ].
    cbn [caught] in HB. rewrite HB. reflexivity. }
  rewrite E. clear E.
  rewrite bind_run, guarded_test, stdlib_test_eq.
  cbn [fst snd entry_of].
  change (dict_set [] "stdlib" ?v) with [("stdlib", v)].
  destruct entryA; try contradiction.
  destruct (entry_of oB package_error); try contradiction.
  apply summary_eq.
Qed.

(** When the first section ends with a value or with an exception that is
    caught, the script returns the report assembled from the three
    entries. *)
Lemma verify_report : forall s,
  caught (fst (requests_test w s)) ->
  verify_dependencies w s =
  (Ok (assemble (entry_of (fst (requests_test w s)) package_error)
                (entry_of (fst (dateutil_test w s)) package_error)
                (entry_of (fst (stdlib_test w (snd (dateutil_test w s)))) test_error)
                (clock w (clock_reads (snd (stdlib_test w (snd (dateutil_test w s))))))),
   tick (snd (stdlib_test w (snd (dateutil_test w s))))).
Proof.
  intros s HA.
  pose proof (requests_entry_dict s) as DA.
  pose proof (requests_test_state s) as SA.
  unfold verify_dependencies.
  rewrite bind_run, guarded_package.
  destruct (requests_test w s) as [oA sA].
  cbn [fst snd] in *. subst sA.
  destruct oA as [vA | eA]; cbn [entry_of caught] in *.
  - apply (verify_from_dateutil vA s DA).
  - rewrite HA. apply (verify_from_dateutil (package_error eA) s DA).
Qed.

(** When the first section raises an exception that is not an instance of
    [Exception], the script raises it. *)
Lemma verify_escape : forall s e,
  fst (requests_test w s) = Raise e ->
  isinstance_Exception e = false ->
  verify_dependencies w s = (Raise e, s).
Proof.
  intros s e E HE.
  pose proof (requests_test_state s) as SA.
  unfold verify_dependencies.
  rewrite bind_run, guarded_package.
  destruct (requests_test w s) as [oA sA].
  cbn [fst snd] in *. subst sA oA.
  rewrite HE. reflexivity.
Qed.

(** A returned report is the assembled one. *)
Lemma verify_ok_inv : forall s report s',
  verify_dependencies w s = (Ok report, s') ->
  caught (fst (requests_test w s))
  /\ report = assemble (entry_of (fst (requests_test w s)) package_error)
                       (entry_of (fst (dateutil_test w s)) package_error)
                       (entry_of (fst (stdlib_test w (snd (dateutil_test w s)))) test_error)
                       (clock w (clock_reads (snd (stdlib_test w (snd (dateutil_test w s)))))).
Proof.
  intros s report s' E.
  assert (R : forall a s0, (Ok a, s0) = (Ok report, s') -> a = report).
  { intros a s0 E0. apply (f_equal fst) in E0. cbn [fst] in E0.
    injection E0 as E0. exact E0. }
  destruct (fst (requests_test w s)) as [vA | eA] eqn:EA.
  - assert (HA : caught (fst (requests_test w s))) by (rewrite EA; exact I).
    rewrite (verify_report s HA) in E. apply R in E. rewrite EA in E.
    split; [ exact I | symmetry; exact E ].
  - destruct (isinstance_Exception eA) eqn:HE.
    + assert (HA : caught (fst (requests_test w s))) by (rewrite EA; exact HE).
      rewrite (verify_report s HA) in E. apply R in E. rewrite EA in E.
      split; [ exact HE | symmetry; exact E ].
    + rewrite (verify_escape s eA EA HE) in E. discriminate E.
Qed.

(** ** Dicts: a key set is found again, other keys are not touched *)

Lemma dict_lookup_set_same : forall d k v, dict_lookup (dict_set d k v) k = Some v.
Proof.
  induction d as [| [k' v'] d IH]; intros k v; simpl.
  - rewrite String.eqb_refl. reflexivity.
  - destruct (String.eqb k' k) eqn:E; simpl; rewrite E; [ reflexivity | apply IH ].
Qed.

Lemma dict_lookup_set_other : forall d k v k',
  String.eqb k k' = false -> dict_lookup (dict_set d k v) k' = dict_lookup d k'.
Proof.
  induction d as [| [k0 v0] d IH]; intros k v k' N; simpl.
  - rewrite N. reflexivity.
  - destruct (String.eqb k0 k) eqn:E; simpl.
    + apply String.eqb_eq in E. subst k0. rewrite N. reflexivity.
    + destruct (String.eqb k0 k'); [ reflexivity | apply IH; exact N ].
Qed.

(** X2.  On a list of dicts the counting expression of the summary returns
    the number of them whose installed flag is the check mark. *)
Theorem count_installed_counts : forall l,
  (forall v, In v l -> is_dict v) ->
  count_installed l = Ok (Z.of_nat (List.length (filter installed l))).
Proof.
  induction l as [| v l IH]; intros D.
  - reflexivity.
  - assert (Dv : is_dict v) by (apply D; left; reflexivity).
    destruct v; try contradiction.
    cbn [count_installed]. rewrite get_installed.
    rewrite IH by (intros x Hx; apply D; right; exact Hx).
    cbn [filter]. rewrite installed_dict.
    destruct (eq_str _ _); cbn [List.length]; f_equal; lia.
Qed.

(** ** The claims about the shape of the report *)

(** C1.  Every report the script returns has exactly the four keys
    [status], [packages], [tests] and [summary]; its [packages] dict has
    exactly the two keys [requests] and [dateutil]; and [status] is the one
    fixed text, whatever happened in the sections. *)
Theorem report_shape : forall s report s',
  verify_dependencies w s = (Ok report, s') ->
  keys report = ["status"; "packages"; "tests"; "summary"]
  /\ (exists packages,
        lookup report "packages" = Some packages
        /\ keys packages = ["requests"; "dateutil"])
  /\ lookup report "status" = Some (VStr "✅ ALL DEPENDENCIES WORKING").
Proof.
  intros s report s' E.
  apply verify_ok_inv in E. destruct E as [_ ->].
  split; [ reflexivity | split; [ | reflexivity ] ].
  eexists. split; reflexivity.
Qed.

Lemma summary_ignores_tests : forall d tests s,
  packages_working (summary w (VDict (dict_set d "tests" tests)) s)
  = packages_working (summary w (VDict d) s).
Proof.
  intros d tests s.
  unfold packages_working, summary, bind, lift, now.
  cbn [getitem]. rewrite dict_lookup_set_other by reflexivity.
  destruct (dict_lookup d "packages") as [p | ]; [ | reflexivity ].
  destruct (values p) as [entries | e]; [ | reflexivity ].
  destruct (count_installed entries) as [n | e]; [ | reflexivity ].
  cbn [setitem fst]. unfold lookup2, lookup.
  rewrite !dict_lookup_set_same. reflexivity.
Qed.

(** C5.  In every report the script returns, [summary.packagesWorking] is
    the number of entries of [packages] whose installed flag is the check
    mark, a number from 0 to 2; and the summary step computes the same count
    whatever is stored under [tests], where the third section's result
    lives. *)
Theorem packages_working_counts : forall s report s',
  verify_dependencies w s = (Ok report, s') ->
  (exists packages n,
     lookup report "packages" = Some packages
     /\ lookup2 report "summary" "packagesWorking" = Some (VInt n)
     /\ n = count_working packages
     /\ 0 <= n <= 2)
  /\ (forall results tests s0,
        packages_working (summary w (VDict (dict_set results "tests" tests)) s0)
        = packages_working (summary w (VDict results) s0)).
Proof.
  intros s report s' E.
  apply verify_ok_inv in E. destruct E as [_ ->].
  split; [ | intros; apply summary_ignores_tests ].
  eexists. eexists.
  split; [ reflexivity | split; [ reflexivity | ] ].
  unfold count_working. cbn [dict_values map snd filter].
  destruct (installed (entry_of (fst (requests_test w s)) package_error));
    destruct (installed (entry_of (fst (dateutil_test w s)) package_error));
    cbn [List.length]; split; lia.
Qed.

(** C3.  When the three sections all return, the report has the check mark
    in both package entries, no [error] key under [tests.stdlib], and the
    count 2. *)
Theorem total_success : forall s entryA sA entryB sB entryC sC,
  requests_test w s = (Ok entryA, sA) ->
  dateutil_test w sA = (Ok entryB, sB) ->
  stdlib_test w sB = (Ok entryC, sC) ->
  exists report s',
    verify_dependencies w s = (Ok report, s')
    /\ lookup3 report "packages" "requests" "installed" = Some (VStr "✅")
    /\ lookup3 report "packages" "dateutil" "installed" = Some (VStr "✅")
    /\ (exists stdlib,
          lookup2 report "tests" "stdlib" = Some stdlib
          /\ ~ In "error" (keys stdlib))
    /\ lookup2 report "summary" "packagesWorking" = Some (VInt 2).
Proof.
  intros s entryA sA entryB sB entryC sC EA EB EC.
  pose proof (requests_test_state s) as SA. rewrite EA in SA. cbn [snd] in SA. subst sA.
  assert (HA : caught (fst (requests_test w s))) by (rewrite EA; exact I).
  eexists. eexists. split; [ apply (verify_report s HA) | ].
  rewrite EB. cbn [fst snd]. rewrite EC, EA. cbn [fst entry_of].
  apply requests_test_ok in EA. destruct EA as (test & repo & ->).
  apply dateutil_test_ok in EB. destruct EB as (future & past & ->).
  rewrite stdlib_test_eq in EC.
  assert (EC' : stdlib_record (random_source w (random_draws sB))
                  (random_source w (S (random_draws sB)))
                  (clock w (clock_reads sB)) (clock w (S (clock_reads sB))) = entryC).
  { apply (f_equal fst) in EC. cbn [fst] in EC. injection EC as EC. exact EC. }
  subst entryC.
  split; [ reflexivity | split; [ reflexivity | split; [ | reflexivity ] ] ].
  eexists. split; [ reflexivity | ].
  cbn [keys stdlib_record dict_keys map fst]. intros [F | [F | [F | [F | []]]]]; discriminate F.
Qed.

(** ** The claims about failures *)


(** ** Further properties of the script *)

(** X1.  A body that is a JSON object without the [name] field makes the
    first section raise [KeyError], and the report records it: the error
    record under [packages.requests] carries the text of the key. *)
Theorem missing_field_recorded : forall s response d,
  http_get w = Ok response ->
  response_json response = Ok (VDict d) ->
  dict_lookup d "name" = None ->
  exists report s',
    verify_dependencies w s = (Ok report, s')
    /\ lookup2 report "packages" "requests"
       = Some (VDict [("error", VStr "'name'"); ("installed", VStr "❌")]).
Proof.
  intros s response d G J N.
  assert (EA : requests_test w s = (Raise (KeyError "name"), s)).
  { unfold requests_test, bind, lift. rewrite G, J. cbn [getitem]. rewrite N. reflexivity. }
  assert (HA : caught (fst (requests_test w s))) by (rewrite EA; reflexivity).
  eexists. eexists. split; [ apply (verify_report s HA) | ].
  rewrite EA. reflexivity.
Qed.

End Sections.

Section TwoWorlds.
Context `{Runtime}.

(** The second section depends on the clock only, the third on the clock
    and the generator, and each only on what it reads from its state on. *)
Lemma dateutil_test_ext : forall (w1 w2 : World) s,
  (forall n, (clock_reads s <= n)%nat -> clock w1 n = clock w2 n) ->
  dateutil_test w1 s = dateutil_test w2 s.
Proof.
  intros w1 w2 s C. rewrite !dateutil_test_eq.
  rewrite !C by lia. reflexivity.
Qed.

Lemma stdlib_test_ext : forall (w1 w2 : World) s,
  (forall n, (clock_reads s <= n)%nat -> clock w1 n = clock w2 n) ->
  (forall n, (random_draws s <= n)%nat -> random_source w1 n = random_source w2 n) ->
  stdlib_test w1 s = stdlib_test w2 s.
Proof.
  intros w1 w2 s C R. rewrite !stdlib_test_eq.
  rewrite !C, !R by lia. reflexivity.
Qed.

Lemma requests_test_ext : forall (w1 w2 : World) s,
  http_get w1 = http_get w2 ->
  requests_test w1 s = requests_test w2 s.
Proof.
  intros w1 w2 s G. unfold requests_test, bind, lift. rewrite G. reflexivity.
Qed.

(** The second section leaves the draws alone and only moves the clock
    on. *)
Lemma dateutil_test_state : forall (w : World) s,
  (clock_reads s <= clock_reads (snd (dateutil_test w s)))%nat
  /\ random_draws (snd (dateutil_test w s)) = random_draws s.
Proof.
  intros w s. rewrite dateutil_test_eq.
  repeat break_match; cbn [snd reads clock_reads random_draws]; split; lia.
Qed.


(** ** The claims about the values in the records *)


Lemma stdlib_test_ok : forall (w : World) s entry s',
  stdlib_test w s = (Ok entry, s') ->
  entry = stdlib_record (random_source w (random_draws s))
                        (random_source w (S (random_draws s)))
                        (clock w (clock_reads s)) (clock w (S (clock_reads s))).
Proof.
  intros w s entry s' E. rewrite stdlib_test_eq in E.
  apply (f_equal fst) in E. cbn [fst] in E. injection E as E. symmetry. exact E.
Qed.

(** C7.  In every third section that returns, [circleArea] is the float
    78.54, [sqrt144] is 12.0 and [piValue] is 3.1416: the area is pi times
    five squared rounded to two places, the last is pi rounded to four. *)
Theorem numeric_determinism : forall (w : World) s entry s',
  stdlib_test w s = (Ok entry, s') ->
  lookup2 entry "math" "circleArea" = Some (VFloat 78.54%float)
  /\ lookup2 entry "math" "sqrt144" = Some (VFloat 12%float)
  /\ lookup2 entry "math" "piValue" = Some (VFloat 3.1416%float)
  /\ (exists p, math_pow 5%float 2%float = Ok p
                /\ round_ndigits (PrimFloat.mul math_pi p) 2 = Ok 78.54%float)
  /\ math_sqrt 144%float = Ok 12%float
  /\ round_ndigits math_pi 4 = Ok 3.1416%float.
Proof.
  intros w s entry s' E. apply stdlib_test_ok in E. subst entry.
  split; [ reflexivity | split; [ reflexivity | split; [ reflexivity | ] ] ].
  split; [ | split; [ apply sqrt_144 | apply round_pi ] ].
  exists 25%float. split; [ apply pow_5_2 | apply round_area ].
Qed.

(** C8.  In every third section that returns, [randomNumber] is an integer
    from 1 to 100 and [randomChoice] is one of the three fruit names,
    whatever the generator draws. *)
Theorem random_bounds : forall (w : World) s entry s',
  stdlib_test w s = (Ok entry, s') ->
  exists n c,
    lookup2 entry "random" "randomNumber" = Some (VInt n)
    /\ 1 <= n <= 100
    /\ lookup2 entry "random" "randomChoice" = Some (VStr c)
    /\ In c ["apple"; "banana"; "cherry"].
Proof.
  intros w s entry s' E. apply stdlib_test_ok in E. subst entry.
  set (d1 := Z.of_N (random_source w (random_draws s))).
  set (d2 := Z.of_N (random_source w (S (random_draws s)))).
  assert (B1 : 0 <= d1 mod 100 < 100) by (apply Z.mod_pos_bound; lia).
  assert (B2 : 0 <= d2 mod 3 < 3) by (apply Z.mod_pos_bound; lia).
  assert (C : exists c, nth (Z.to_nat (d2 mod 3)) fruits VNone = VStr c
                        /\ In c ["apple"; "banana"; "cherry"]).
  { assert (K : d2 mod 3 = 0 \/ d2 mod 3 = 1 \/ d2 mod 3 = 2) by lia.
    destruct K as [K | [K | K]]; rewrite K; cbn [Z.to_nat Pos.to_nat Pos.iter_op Nat.add nth fruits];
      eexists; (split; [ reflexivity | ]); cbn [In]; auto. }
  destruct C as (c & C1 & C2).
  exists (1 + d1 mod 100), c.
  split; [ reflexivity | ].
  split; [ lia | ].
  split; [ | exact C2 ].
  unfold stdlib_record, lookup2, lookup. cbn [dict_lookup String.eqb Ascii.eqb Bool.eqb].
  fold d2. rewrite C1. reflexivity.
Qed.

(** C9.  The fixed object written as JSON and read back is the object
    itself, and in every third section that returns it is what stands under
    [json.deserialized]. *)
Theorem json_round_trip : forall (w : World) s entry s',
  stdlib_test w s = (Ok entry, s') ->
  Json.loads (Json.dumps (VDict [("name", VStr "test"); ("value", VInt 42)]))
  = Ok (VDict [("name", VStr "test"); ("value", VInt 42)])
  /\ lookup2 entry "json" "serialized"
     = Some (VStr (Json.dumps (VDict [("name", VStr "test"); ("value", VInt 42)])))
  /\ lookup2 entry "json" "deserialized"
     = Some (VDict [("name", VStr "test"); ("value", VInt 42)]).
Proof.
  intros w s entry s' E. apply stdlib_test_ok in E. subst entry.
  split; [ apply loads_dumps_test_data | split; reflexivity ].
Qed.


End TwoWorlds.

(* ================================================================== *)
(** * The claims at closed worlds                                       *)
(* ================================================================== *)

(** The request times out, the rest goes through: the report has its
    shape. *)
Lemma report_shape_witness :
  run Sample.unreachable = (Ok (returned (run Sample.unreachable)), snd (run Sample.unreachable))
  /\ keys (returned (run Sample.unreachable)) = ["status"; "packages"; "tests"; "summary"]
  /\ (exists packages,
        lookup (returned (run Sample.unreachable)) "packages" = Some packages
        /\ keys packages = ["requests"; "dateutil"])
  /\ lookup (returned (run Sample.unreachable)) "status"
     = Some (VStr "✅ ALL DEPENDENCIES WORKING").
Proof.
  assert (E : run Sample.unreachable
              = (Ok (returned (run Sample.unreachable)), snd (run Sample.unreachable)))
    by (vm_compute; reflexivity).
  split; [ exact E | ].
  exact (@report_shape Sample.runtime Sample.unreachable initial _ _ E).
Defined.




(** GitHub answers and everything goes through. *)
Lemma total_success_witness :
  exists report s',
    run Sample.reachable = (Ok report, s')
    /\ lookup3 report "packages" "requests" "installed" = Some (VStr "✅")
    /\ lookup3 report "packages" "dateutil" "installed" = Some (VStr "✅")
    /\ (exists stdlib,
          lookup2 report "tests" "stdlib" = Some stdlib
          /\ ~ In "error" (keys stdlib))
    /\ lookup2 report "summary" "packagesWorking" = Some (VInt 2).
Proof.
  eapply (@total_success Sample.runtime Sample.reachable initial);
    vm_compute; reflexivity.
Defined.


(** One package works in the run whose request times out. *)
Lemma packages_working_counts_witness :
  run Sample.unreachable = (Ok (returned (run Sample.unreachable)), snd (run Sample.unreachable))
  /\ exists packages n,
       lookup (returned (run Sample.unreachable)) "packages" = Some packages
       /\ lookup2 (returned (run Sample.unreachable)) "summary" "packagesWorking"
          = Some (VInt n)
       /\ n = count_working packages
       /\ 0 <= n <= 2.
Proof.
  assert (E : run Sample.unreachable
              = (Ok (returned (run Sample.unreachable)), snd (run Sample.unreachable)))
    by (vm_compute; reflexivity).
  split; [ exact E | ].
  exact (proj1 (@packages_working_counts Sample.runtime Sample.unreachable initial _ _ E)).
Defined.


Lemma sample_stdlib_returns :
  sample_stdlib = (Ok (returned sample_stdlib), snd sample_stdlib).
Proof. vm_compute. reflexivity. Defined.

Lemma numeric_determinism_witness :
  lookup2 (returned sample_stdlib) "math" "circleArea" = Some (VFloat 78.54%float)
  /\ lookup2 (returned sample_stdlib) "math" "sqrt144" = Some (VFloat 12%float)
  /\ lookup2 (returned sample_stdlib) "math" "piValue" = Some (VFloat 3.1416%float).
Proof.
  destruct (@numeric_determinism Sample.runtime Sample.reachable initial _ _
              sample_stdlib_returns) as (P1 & P2 & P3 & _).
  split; [ exact P1 | split; [ exact P2 | exact P3 ] ].
Defined.

Lemma random_bounds_witness :
  exists n c,
    lookup2 (returned sample_stdlib) "random" "randomNumber" = Some (VInt n)
    /\ 1 <= n <= 100
    /\ lookup2 (returned sample_stdlib) "random" "randomChoice" = Some (VStr c)
    /\ In c ["apple"; "banana"; "cherry"].
Proof.
  exact (@random_bounds Sample.runtime Sample.reachable initial _ _ sample_stdlib_returns).
Defined.

Lemma json_round_trip_witness :
  lookup2 (returned sample_stdlib) "json" "deserialized"
  = Some (VDict [("name", VStr "test"); ("value", VInt 42)]).
Proof.
  exact (proj2 (proj2 (@json_round_trip Sample.runtime Sample.reachable initial _ _
                         sample_stdlib_returns))).
Defined.


(** The rate-limited answer has no [name]. *)
Lemma missing_field_recorded_witness :
  exists report s',
    run Sample.rate_limited = (Ok report, s')
    /\ lookup2 report "packages" "requests"
       = Some (VDict [("error", VStr "'name'"); ("installed", VStr "❌")]).
Proof.
  apply (@missing_field_recorded Sample.runtime Sample.rate_limited initial
           {| status_code := 403;
              response_json := Ok (VDict [("message", VStr "API rate limit exceeded")]) |}
           [("message", VStr "API rate limit exceeded")]);
    reflexivity.
Defined.

(** An error record and a record with the check mark: one is counted. *)
Lemma count_installed_counts_witness :
  count_installed [package_error Sample.timeout_error;
                   VDict [("installed", VStr "✅")]]
  = Ok (Z.of_nat (List.length
          (filter installed [package_error Sample.timeout_error;
                             VDict [("installed", VStr "✅")]]))).
Proof.
  apply count_installed_counts.
  intros v [E | [E | []]]; subst v; exact I.
Defined.

(* ================================================================== *)
(** * Further properties: the calendar                                  *)
(* ================================================================== *)

Lemma all_between_sound : forall test fuel lo hi,
  all_between test fuel lo hi = true ->
  forall r, lo <= r < hi -> test r = true.
Proof.
  induction fuel as [| fuel IH]; intros lo hi A r R; cbn [all_between] in A.
  - apply Z.leb_le in A. lia.
  - destruct (hi <=? lo) eqn:E1; [ apply Z.leb_le in E1; lia | ].
    destruct (hi =? lo + 1) eqn:E2.
    + apply Z.eqb_eq in E2. replace r with lo by lia. exact A.
    + apply andb_true_iff in A. destruct A as [A1 A2].
      destruct (Z_lt_le_dec r ((lo + hi) / 2)).
      * apply (IH _ _ A1). lia.
      * apply (IH _ _ A2). lia.
Qed.

Lemma year_days_checked :
  all_between (month_day_ok true) 10 0 366 = true
  /\ all_between (month_day_ok false) 10 0 365 = true.
Proof. split; vm_compute; reflexivity. Qed.

Lemma month_day_checked : forall (leapyear : bool) n,
  0 <= n < (if leapyear then 366 else 365) ->
  month_day_ok leapyear n = true.
Proof.
  intros leapyear n R. destruct year_days_checked as [L N].
  destruct leapyear.
  - apply (all_between_sound _ _ _ _ L). exact R.
  - apply (all_between_sound _ _ _ _ N). exact R.
Qed.

(** [ord2ymd] as the split of the days into cycles and years, and then
    [month_day]. *)
Lemma ord2ymd_split : forall o,
  ord2ymd o =
  let n400 := (o - 1) / DI400Y in
  let r0 := (o - 1) mod DI400Y in
  let n100 := r0 / DI100Y in
  let r1 := r0 mod DI100Y in
  let n4 := r1 / DI4Y in
  let r2 := r1 mod DI4Y in
  let n1 := r2 / 365 in
  let n := r2 mod 365 in
  let y := n400 * 400 + 1 + n100 * 100 + n4 * 4 + n1 in
  if orb (n1 =? 4) (n100 =? 4) then (y - 1, 12, 31)
  else
    let '(m, d) := month_day (andb (n1 =? 3) (orb (negb (n4 =? 24)) (n100 =? 3))) n in
    (y, m, d).
Proof.
  intros o. unfold ord2ymd, month_day. cbv zeta.
  destruct (orb _ _); [ reflexivity | ].
  destruct (_ <? _); reflexivity.
Qed.

(** The year the split finds: the days before it, and whether it is a leap
    year. *)
Lemma split_year : forall n400 n100 n4 n1,
  0 <= n100 <= 3 -> 0 <= n4 <= 24 -> 0 <= n1 <= 3 ->
  days_before_year (n400 * 400 + 1 + n100 * 100 + n4 * 4 + n1)
  = DI400Y * n400 + DI100Y * n100 + DI4Y * n4 + 365 * n1
  /\ is_leap (n400 * 400 + 1 + n100 * 100 + n4 * 4 + n1)
     = andb (n1 =? 3) (orb (negb (n4 =? 24)) (n100 =? 3)).
Proof.
  intros n400 n100 n4 n1 R100 R4 R1. split.
  - unfold days_before_year, DI400Y, DI100Y, DI4Y. cbv zeta.
    Z.to_euclidean_division_equations. lia.
  - unfold is_leap.
    destruct (Z.eqb_spec n1 3) as [E1 | E1];
      destruct (Z.eqb_spec n4 24) as [E4 | E4];
      destruct (Z.eqb_spec n100 3) as [E100 | E100]; cbn [andb orb negb];
      repeat match goal with
             | |- context [?a mod ?b =? 0] => destruct (Z.eqb_spec (a mod b) 0)
             end; cbn [andb orb negb]; try reflexivity; exfalso;
      Z.to_euclidean_division_equations; lia.
Qed.

(** The last day of a cycle of four years, of a hundred, of four hundred
    is the 31st of December of a leap year. *)
Lemma split_last_day : forall n400 n100 n4 n1,
  0 <= n100 <= 4 -> 0 <= n4 <= 24 -> 0 <= n1 <= 4 ->
  (n100 = 4 -> n4 = 0 /\ n1 = 0) ->
  (n1 = 4 -> n100 <= 3 /\ n4 <= 23) ->
  n1 = 4 \/ n100 = 4 ->
  days_before_year (n400 * 400 + n100 * 100 + n4 * 4 + n1) + 365
  = DI400Y * n400 + DI100Y * n100 + DI4Y * n4 + 365 * n1
  /\ is_leap (n400 * 400 + n100 * 100 + n4 * 4 + n1) = true.
Proof.
  intros n400 n100 n4 n1 R100 R4 R1 L100 L1 C. split.
  - unfold days_before_year, DI400Y, DI100Y, DI4Y. cbv zeta.
    Z.to_euclidean_division_equations. lia.
  - unfold is_leap.
    repeat match goal with
           | |- context [?a mod ?b =? 0] => destruct (Z.eqb_spec (a mod b) 0)
           end; cbn [andb orb negb]; try reflexivity; exfalso;
      Z.to_euclidean_division_equations; lia.
Qed.

(** Every day the calendar has is found again: the date of day [o] is a
    date, and its number is [o]. *)
Lemma ord2ymd_valid : forall o,
  1 <= o <= MAXORDINAL ->
  let '(y, m, d) := ord2ymd o in
  check_date_fields y m d = Ok tt /\ ymd2ord y m d = o.
Proof.
  intros o R. rewrite ord2ymd_split. cbv zeta.
  pose proof (Z.div_mod (o - 1) DI400Y ltac:(discriminate)) as D0.
  pose proof (Z.mod_pos_bound (o - 1) DI400Y ltac:(reflexivity)) as B0.
  set (n400 := (o - 1) / DI400Y) in *. set (r0 := (o - 1) mod DI400Y) in *.
  pose proof (Z.div_mod r0 DI100Y ltac:(discriminate)) as D1.
  pose proof (Z.mod_pos_bound r0 DI100Y ltac:(reflexivity)) as B1.
  set (n100 := r0 / DI100Y) in *. set (r1 := r0 mod DI100Y) in *.
  pose proof (Z.div_mod r1 DI4Y ltac:(discriminate)) as D2.
  pose proof (Z.mod_pos_bound r1 DI4Y ltac:(reflexivity)) as B2.
  set (n4 := r1 / DI4Y) in *. set (r2 := r1 mod DI4Y) in *.
  pose proof (Z.div_mod r2 365 ltac:(discriminate)) as D3.
  pose proof (Z.mod_pos_bound r2 365 ltac:(reflexivity)) as B3.
  set (n1 := r2 / 365) in *. set (n := r2 mod 365) in *.
  clearbody n400 r0 n100 r1 n4 r2 n1 n.
  unfold DI400Y, DI100Y, DI4Y, MAXORDINAL in *.
  assert (R400 : 0 <= n400 <= 24) by lia.
  assert (R100 : 0 <= n100 <= 4) by lia.
  assert (R4 : 0 <= n4 <= 24) by lia.
  assert (R1 : 0 <= n1 <= 4) by lia.
  destruct (orb (n1 =? 4) (n100 =? 4)) eqn:C.
  - apply orb_true_iff in C.
    assert (C' : n1 = 4 \/ n100 = 4)
      by (destruct C as [C | C]; apply Z.eqb_eq in C; [ left | right ]; exact C).
    destruct (split_last_day n400 n100 n4 n1 R100 R4 R1) as [DB L];
      [ lia | lia | exact C' | ].
    unfold DI400Y, DI100Y, DI4Y in DB.
    replace (n400 * 400 + 1 + n100 * 100 + n4 * 4 + n1 - 1)
      with (n400 * 400 + n100 * 100 + n4 * 4 + n1) by lia.
    set (y := n400 * 400 + n100 * 100 + n4 * 4 + n1) in *.
    assert (Y : 1 <= y <= 9999) by (unfold y; lia).
    split.
    + unfold check_date_fields, MINYEAR, MAXYEAR, days_in_month. rewrite L.
      replace (andb (1 <=? y) (y <=? 9999)) with true
        by (symmetry; apply andb_true_iff; split; apply Z.leb_le; lia).
      reflexivity.
    + unfold ymd2ord, days_before_month. rewrite L.
      change (nth (Z.to_nat 12) DAYS_BEFORE_MONTH 0) with 334.
      cbn [Z.ltb Z.compare Pos.compare Pos.compare_cont andb]. lia.
  - apply orb_false_iff in C. destruct C as [C1 C100].
    apply Z.eqb_neq in C1. apply Z.eqb_neq in C100.
    destruct (split_year n400 n100 n4 n1) as [DB L]; try lia.
    unfold DI400Y, DI100Y, DI4Y in DB.
    set (y := n400 * 400 + 1 + n100 * 100 + n4 * 4 + n1) in *.
    set (leapyear := andb (n1 =? 3) (orb (negb (n4 =? 24)) (n100 =? 3))) in *.
    assert (Rn : 0 <= n < (if leapyear then 366 else 365)).
    { destruct leapyear eqn:EL; [ lia | ].
      split; [ lia | ]. lia. }
    pose proof (month_day_checked leapyear n Rn) as M.
    unfold month_day_ok in M.
    destruct (month_day leapyear n) as [m d].
    repeat match goal with
           | K : (_ && _)%bool = true |- _ =>
               apply andb_true_iff in K; destruct K
           end.
    repeat match goal with
           | K : (_ <=? _) = true |- _ => apply Z.leb_le in K
           | K : (_ =? _) = true |- _ => apply Z.eqb_eq in K
           end.
    assert (Y : 1 <= y <= 9999) by (unfold y; lia).
    split.
    + unfold check_date_fields, MINYEAR, MAXYEAR, days_in_month. rewrite L.
      replace (andb (1 <=? y) (y <=? 9999)) with true
        by (symmetry; apply andb_true_iff; split; apply Z.leb_le; lia).
      replace (andb (1 <=? m) (m <=? 12)) with true
        by (symmetry; apply andb_true_iff; split; apply Z.leb_le; lia).
      match goal with
      | |- context [andb (1 <=? d) (d <=? ?x)] =>
          replace (andb (1 <=? d) (d <=? x)) with true
            by (symmetry; apply andb_true_iff; split; apply Z.leb_le; lia)
      end.
      reflexivity.
    + unfold ymd2ord, days_before_month. rewrite L. lia.
Qed.

(** [dt + timedelta(days=n)] moves the number of the day by [n], leaves the
    time of day alone and gives a date of the calendar. *)
Lemma add_days_spec : forall dt n dt',
  add_days dt n = Ok dt' ->
  toordinal dt' = toordinal dt + n
  /\ check_date_fields (year dt') (month dt') (day dt') = Ok tt
  /\ (hour dt', minute dt', second dt', microsecond dt', utcoffset dt')
     = (hour dt, minute dt, second dt, microsecond dt, utcoffset dt).
Proof.
  intros dt n dt'. unfold add_days.
  destruct (andb (0 <? toordinal dt + n) (toordinal dt + n <=? MAXORDINAL)) eqn:R;
    [ | discriminate ].
  apply andb_true_iff in R. destruct R as [R1 R2].
  apply Z.ltb_lt in R1. apply Z.leb_le in R2.
  pose proof (ord2ymd_valid (toordinal dt + n) ltac:(lia)) as V.
  destruct (ord2ymd (toordinal dt + n)) as [[y m] d].
  destruct V as [V1 V2].
  intros E. injection E as E. subst dt'. unfold toordinal. cbn.
  split; [ exact V2 | split; [ exact V1 | reflexivity ] ].
Qed.

(* ================================================================== *)
(** * Further properties: the date section                              *)
(* ================================================================== *)

Lemma check_date_fields_ok : forall y m d,
  1 <= y <= 9999 -> 1 <= m <= 12 -> 1 <= d <= days_in_month y m ->
  check_date_fields y m d = Ok tt.
Proof.
  intros y m d Hy Hm Hd. unfold check_date_fields, MINYEAR, MAXYEAR.
  replace (andb (1 <=? y) (y <=? 9999)) with true
    by (symmetry; apply andb_true_iff; split; apply Z.leb_le; lia).
  replace (andb (1 <=? m) (m <=? 12)) with true
    by (symmetry; apply andb_true_iff; split; apply Z.leb_le; lia).
  replace (andb (1 <=? d) (d <=? days_in_month y m)) with true
    by (symmetry; apply andb_true_iff; split; apply Z.leb_le; lia).
  reflexivity.
Qed.

Lemma check_date_fields_inv : forall y m d u,
  check_date_fields y m d = Ok u ->
  1 <= y <= 9999 /\ 1 <= m <= 12 /\ 1 <= d <= days_in_month y m.
Proof.
  intros y m d u. unfold check_date_fields, MINYEAR, MAXYEAR.
  destruct (andb (1 <=? y) (y <=? 9999)) eqn:E1; [ | discriminate ].
  destruct (andb (1 <=? m) (m <=? 12)) eqn:E2; [ | discriminate ].
  destruct (andb (1 <=? d) (d <=? days_in_month y m)) eqn:E3; [ | discriminate ].
  intros _.
  apply andb_true_iff in E1, E2, E3.
  destruct E1 as [A1 B1], E2 as [A2 B2], E3 as [A3 B3].
  apply Z.leb_le in A1, B1, A2, B2, A3, B3. lia.
Qed.

Lemma valid_datetime_date : forall dt,
  valid_datetime dt = true ->
  1 <= year dt <= 9999 /\ 1 <= month dt <= 12
  /\ 1 <= day dt <= days_in_month (year dt) (month dt).
Proof.
  intros dt V. unfold valid_datetime in V.
  destruct (check_date_fields (year dt) (month dt) (day dt)) eqn:E; [ | discriminate ].
  apply (check_date_fields_inv _ _ _ _ E).
Qed.

Lemma month_cases : forall m, 1 <= m <= 12 ->
  m = 1 \/ m = 2 \/ m = 3 \/ m = 4 \/ m = 5 \/ m = 6 \/ m = 7 \/ m = 8 \/ m = 9
  \/ m = 10 \/ m = 11 \/ m = 12.
Proof. intros m Hm. lia. Qed.

Lemma days_in_month_bounds : forall y m, 1 <= m <= 12 -> 28 <= days_in_month y m <= 31.
Proof.
  intros y m Hm. unfold days_in_month.
  destruct (month_cases m Hm) as [E | [E | [E | [E | [E | [E | [E | [E | [E | [E | [E | E]]]]]]]]]]];
    subst m; destruct (is_leap y); cbv - [Z.le Z.lt]; lia.
Qed.

(** The number of a date lies within its year, at most 31 days in for each
    month begun. *)
Lemma ymd2ord_bounds : forall y m d,
  1 <= m <= 12 -> 1 <= d <= days_in_month y m ->
  days_before_year y < ymd2ord y m d <= days_before_year y + 31 * m.
Proof.
  intros y m d Hm Hd. unfold ymd2ord, days_before_month.
  unfold days_in_month in Hd.
  destruct (month_cases m Hm) as [E | [E | [E | [E | [E | [E | [E | [E | [E | [E | [E | E]]]]]]]]]]];
    subst m; destruct (is_leap y); cbv - [Z.le Z.lt Z.add Z.mul days_before_year] in *; lia.
Qed.

Lemma days_before_year_mono : forall y y', y <= y' -> days_before_year y <= days_before_year y'.
Proof.
  intros y y' L. unfold days_before_year. cbv zeta.
  Z.to_euclidean_division_equations. lia.
Qed.

Lemma relativedelta_3_15 :
  relativedelta 3 15 = {| rd_years := 0; rd_months := 3; rd_days := 15 |}.
Proof. reflexivity. Qed.

(** [dt + relativedelta(months=3, days=15)] for a date of the calendar: the
    day of the month three months on (the last one, when that month is
    shorter), and fifteen days more. *)
Lemma add_relativedelta_spec : forall dt future,
  1 <= month dt <= 12 ->
  add_relativedelta dt (relativedelta 3 15) = Ok future ->
  toordinal future
  = ymd2ord (year_plus3 dt) (month_plus3 dt)
            (Z.min (days_in_month (year_plus3 dt) (month_plus3 dt)) (day dt)) + 15
  /\ check_date_fields (year future) (month future) (day future) = Ok tt.
Proof.
  intros dt future Hm. rewrite relativedelta_3_15.
  unfold add_relativedelta. cbn [rd_years rd_months rd_days].
  assert (E : (if 12 <? month dt + 3 then (year dt + 0 + 1, month dt + 3 - 12)
               else if month dt + 3 <? 1 then (year dt + 0 - 1, month dt + 3 + 12)
               else (year dt + 0, month dt + 3))
              = (year_plus3 dt, month_plus3 dt)).
  { unfold year_plus3, month_plus3.
    destruct (12 <? month dt + 3) eqn:E1; [ apply Z.ltb_lt in E1 | apply Z.ltb_ge in E1 ].
    - f_equal; Z.to_euclidean_division_equations; lia.
    - destruct (month dt + 3 <? 1) eqn:E2; [ apply Z.ltb_lt in E2; lia | ].
      f_equal; Z.to_euclidean_division_equations; lia. }
  rewrite E. clear E.
  unfold replace_date.
  destruct (check_date_fields _ _ _) eqn:C; [ | discriminate ].
  intros A. apply add_days_spec in A. destruct A as (A1 & A2 & _).
  split; [ | exact A2 ]. rewrite A1. reflexivity.
Qed.

Lemma add_days_ok : forall dt n,
  0 < toordinal dt + n <= MAXORDINAL -> exists dt', add_days dt n = Ok dt'.
Proof.
  intros dt n R. unfold add_days.
  replace (andb (0 <? toordinal dt + n) (toordinal dt + n <=? MAXORDINAL)) with true
    by (symmetry; apply andb_true_iff; split; [ apply Z.ltb_lt | apply Z.leb_le ]; lia).
  destruct (ord2ymd (toordinal dt + n)) as [[y m] d]. eexists. reflexivity.
Qed.

Lemma sub_days_ok : forall dt,
  valid_datetime dt = true -> 2 <= year dt ->
  exists past, sub_days dt 30 = Ok past.
Proof.
  intros dt V Y. apply valid_datetime_date in V. destruct V as (Vy & Vm & Vd).
  unfold sub_days. apply add_days_ok. unfold toordinal.
  pose proof (ymd2ord_bounds (year dt) (month dt) (day dt) Vm Vd) as B.
  pose proof (days_before_year_mono 2 (year dt) Y) as L1.
  pose proof (days_before_year_mono (year dt) 9999 ltac:(lia)) as L2.
  change (days_before_year 2) with 365 in L1.
  change (days_before_year 9999) with 3651694 in L2.
  unfold MAXORDINAL. lia.
Qed.

Lemma add_relativedelta_ok : forall dt,
  valid_datetime dt = true -> year dt <= 9998 ->
  exists future, add_relativedelta dt (relativedelta 3 15) = Ok future.
Proof.
  intros dt V Y. apply valid_datetime_date in V. destruct V as (Vy & Vm & Vd).
  rewrite relativedelta_3_15. unfold add_relativedelta. cbn [rd_years rd_months rd_days].
  set (ym := if 12 <? month dt + 3 then (year dt + 0 + 1, month dt + 3 - 12)
             else if month dt + 3 <? 1 then (year dt + 0 - 1, month dt + 3 + 12)
             else (year dt + 0, month dt + 3)).
  assert (P : 1 <= fst ym <= 9999 /\ 1 <= snd ym <= 12
              /\ (fst ym = 9999 -> snd ym <= 3)).
  { subst ym. destruct (12 <? month dt + 3) eqn:E1;
      [ apply Z.ltb_lt in E1 | apply Z.ltb_ge in E1 ]; cbn [fst snd]; [ lia | ].
    destruct (month dt + 3 <? 1) eqn:E2;
      [ apply Z.ltb_lt in E2 | apply Z.ltb_ge in E2 ]; cbn [fst snd]; lia. }
  destruct ym as [y m]. cbn [fst snd] in P. destruct P as (Py & Pm & P9).
  pose proof (days_in_month_bounds y m Pm) as Bm.
  assert (Pd : 1 <= Z.min (days_in_month y m) (day dt) <= days_in_month y m) by lia.
  unfold replace_date. rewrite (check_date_fields_ok y m _ Py Pm Pd).
  apply add_days_ok. unfold toordinal. cbn [year month day rd_days].
  pose proof (ymd2ord_bounds y m _ Pm Pd) as B.
  pose proof (days_before_year_mono 1 y ltac:(lia)) as L1.
  change (days_before_year 1) with 0 in L1.
  unfold MAXORDINAL.
  destruct (Z.eq_dec y 9999) as [E | N].
  - subst y. specialize (P9 eq_refl).
    change (days_before_year 9999) with 3651694 in B. lia.
  - pose proof (days_before_year_mono y 9998 ltac:(lia)) as L2.
    change (days_before_year 9998) with 3651329 in L2. lia.
Qed.

Section DateSection.
Variable w : World.

(** X3.  In every date section that returns, [30DaysAgo] is the
    year-month-day text of a date of the calendar whose day number is 30
    less than that of the fourth reading of the clock. *)
Theorem thirty_days_ago : forall s entry s',
  dateutil_test w s = (Ok entry, s') ->
  exists past,
    lookup2 entry "calculations" "30DaysAgo" = Some (VStr (strftime past "%Y-%m-%d"))
    /\ toordinal past = toordinal (clock w (3 + clock_reads s)%nat) - 30
    /\ check_date_fields (year past) (month past) (day past) = Ok tt.
Proof.
  intros s entry s'. rewrite dateutil_test_eq.
  destruct (add_relativedelta _ _) as [future | e]; [ | discriminate ].
  destruct (sub_days (clock w (3 + clock_reads s)%nat) 30) as [past | e] eqn:P;
    [ | discriminate ].
  intros E. apply (f_equal fst) in E. cbn [fst] in E. injection E as E. subst entry.
  exists past. split; [ reflexivity | ].
  apply add_days_spec in P. destruct P as (P1 & P2 & _).
  split; [ rewrite P1; lia | exact P2 ].
Qed.

(** X4.  In every date section that returns after a third reading of the
    clock with a month from 1 to 12, [in3Months15Days] is the
    year-month-day text of a date of the calendar: fifteen days after the
    reading's day in the month three months on, or after that month's last
    day when it is shorter. *)
Theorem three_months_fifteen_days : forall s entry s',
  1 <= month (clock w (2 + clock_reads s)%nat) <= 12 ->
  dateutil_test w s = (Ok entry, s') ->
  exists future,
    lookup2 entry "calculations" "in3Months15Days"
    = Some (VStr (strftime future "%Y-%m-%d"))
    /\ toordinal future
       = ymd2ord (year_plus3 (clock w (2 + clock_reads s)%nat))
                 (month_plus3 (clock w (2 + clock_reads s)%nat))
                 (Z.min (days_in_month (year_plus3 (clock w (2 + clock_reads s)%nat))
                                       (month_plus3 (clock w (2 + clock_reads s)%nat)))
                        (day (clock w (2 + clock_reads s)%nat))) + 15
    /\ check_date_fields (year future) (month future) (day future) = Ok tt.
Proof.
  intros s entry s' Hm. rewrite dateutil_test_eq.
  destruct (add_relativedelta _ _) as [future | e] eqn:F; [ | discriminate ].
  destruct (sub_days _ _) as [past | e]; [ | discriminate ].
  intros E. apply (f_equal fst) in E. cbn [fst] in E. injection E as E. subst entry.
  exists future. split; [ reflexivity | ].
  apply (add_relativedelta_spec _ _ Hm F).
Qed.

(** X5.  The date section returns whenever the readings it computes with
    are dates of the calendar in the years 2 to 9998: it fails only at the
    two ends of the calendar. *)
Theorem date_section_returns : forall s,
  valid_datetime (clock w (2 + clock_reads s)%nat) = true ->
  year (clock w (2 + clock_reads s)%nat) <= 9998 ->
  valid_datetime (clock w (3 + clock_reads s)%nat) = true ->
  2 <= year (clock w (3 + clock_reads s)%nat) ->
  exists entry,
    dateutil_test w s = (Ok entry, reads s 5)
    /\ lookup entry "installed" = Some (VStr "✅").
Proof.
  intros s V1 Y1 V2 Y2. rewrite dateutil_test_eq.
  destruct (add_relativedelta_ok _ V1 Y1) as [future ->].
  destruct (sub_days_ok _ V2 Y2) as [past ->].
  eexists. split; reflexivity.
Qed.

End DateSection.

Section MoreProperties.
Context `{Runtime}.
Variable w : World.

(** X6.  When the third reading of the clock is in October, November or
    December of year 9999, three months on is past the calendar: the date
    section raises, and the report carries the message under
    [packages.dateutil] instead of failing. *)
Theorem date_section_fails_at_calendar_end : forall s,
  caught (fst (requests_test w s)) ->
  year (clock w (2 + clock_reads s)%nat) = 9999 ->
  10 <= month (clock w (2 + clock_reads s)%nat) <= 12 ->
  exists report s',
    verify_dependencies w s = (Ok report, s')
    /\ lookup2 report "packages" "dateutil"
       = Some (VDict [("error", VStr "year 10000 is out of range");
                      ("installed", VStr "❌")]).
Proof.
  intros s HA Y M.
  assert (E : dateutil_test w s
              = (Raise (ValueError "year 10000 is out of range"), reads s 3)).
  { rewrite dateutil_test_eq, relativedelta_3_15.
    unfold add_relativedelta, replace_date, check_date_fields.
    cbn [rd_years rd_months rd_days]. rewrite Y.
    replace (12 <? month (clock w (2 + clock_reads s)%nat) + 3) with true
      by (symmetry; apply Z.ltb_lt; lia).
    reflexivity. }
  eexists. eexists. split; [ apply (verify_report w s HA) | ].
  rewrite E. reflexivity.
Qed.

(** X8.  When the date section raises an exception, the report has its
    error record under [packages.dateutil]; the entry of the first section
    and the record of the third are what they are without the failure, and
    the count is that of the first entry alone. *)
Theorem date_failure_isolated : forall s e sB,
  caught (fst (requests_test w s)) ->
  dateutil_test w s = (Raise e, sB) ->
  exists report s',
    verify_dependencies w s = (Ok report, s')
    /\ lookup2 report "packages" "dateutil"
       = Some (VDict [("error", VStr (exc_str e)); ("installed", VStr "❌")])
    /\ lookup2 report "packages" "requests"
       = Some (entry_of (fst (requests_test w s)) package_error)
    /\ lookup2 report "tests" "stdlib" = Some (returned (stdlib_test w sB))
    /\ keys (returned (stdlib_test w sB)) = ["math"; "random"; "json"; "datetime"]
    /\ lookup2 report "summary" "packagesWorking"
       = Some (VInt (if installed (entry_of (fst (requests_test w s)) package_error)
                     then 1 else 0)).
Proof.
  intros s e sB HA EB.
  eexists. eexists. split; [ apply (verify_report w s HA) | ].
  rewrite EB. cbn [fst snd entry_of]. rewrite stdlib_test_eq. cbn [fst entry_of].
  split; [ reflexivity | split; [ reflexivity | split; [ reflexivity | ] ] ].
  split; [ reflexivity | ].
  unfold lookup2, lookup, assemble. cbn [dict_lookup String.eqb Ascii.eqb Bool.eqb].
  change (installed (package_error e)) with false.
  destruct (installed _); reflexivity.
Qed.

(** X9.  The first section reads the fields of the body in the order
    [name], [stargazers_count], [forks_count], [language]: the first of
    them the body lacks is the one the recorded [KeyError] names. *)
Theorem first_missing_field_recorded : forall s response d key,
  http_get w = Ok response ->
  response_json response = Ok (VDict d) ->
  (forall k v, In k ["stargazers_count"; "forks_count"] ->
               dict_lookup d k = Some v -> exists n, v = VInt n) ->
  find (absent d) repo_fields = Some key ->
  exists report s',
    verify_dependencies w s = (Ok report, s')
    /\ lookup2 report "packages" "requests"
       = Some (VDict [("error", VStr ("'" ++ key ++ "'")); ("installed", VStr "❌")])
    /\ lookup2 report "summary" "packagesWorking"
       = Some (VInt (if installed (entry_of (fst (dateutil_test w s)) package_error)
                     then 1 else 0)).
Proof.
  intros s response d key G J I F.
  assert (EA : requests_test w s = (Raise (KeyError key), s)).
  { unfold requests_test, bind, lift. rewrite G, J. cbn [getitem].
    unfold repo_fields, absent in F. cbn [find] in F.
    destruct (dict_lookup d "name") as [name | ];
      [ | injection F as <-; reflexivity ].
    destruct (dict_lookup d "stargazers_count") as [sc | ] eqn:SC;
      [ | injection F as <-; reflexivity ].
    destruct (I "stargazers_count" sc) as [n ->];
      [ left; reflexivity | exact SC | ].
    cbn [format_comma].
    destruct (dict_lookup d "forks_count") as [fc | ] eqn:FC;
      [ | injection F as <-; reflexivity ].
    destruct (I "forks_count" fc) as [f ->];
      [ right; left; reflexivity | exact FC | ].
    cbn [format_comma].
    destruct (dict_lookup d "language") as [lang | ];
      [ discriminate F | injection F as <-; reflexivity ]. }
  assert (HA : caught (fst (requests_test w s))) by (rewrite EA; reflexivity).
  eexists. eexists. split; [ apply (verify_report w s HA) | ].
  rewrite EA. cbn [fst entry_of].
  split; [ reflexivity | ].
  unfold lookup2, lookup, assemble. cbn [dict_lookup String.eqb Ascii.eqb Bool.eqb].
  change (installed (package_error (KeyError key))) with false.
  destruct (installed _); reflexivity.
Qed.

(** The last line of the file wraps what [verify_dependencies] returns. *)
Lemma node_output_inv : forall s out s',
  node_output w s = (Ok out, s') ->
  exists report,
    verify_dependencies w s = (Ok report, s')
    /\ out = VList [VDict [("json", report)]].
Proof.
  intros s out s'. unfold node_output. rewrite bind_run.
  destruct (verify_dependencies w s) as [[report | e] s1].
  - unfold ret. intros E. exists report.
    assert (E1 : s1 = s') by (apply (f_equal snd) in E; exact E).
    assert (E2 : Ok (VList [VDict [("json", report)]]) = Ok out)
      by (apply (f_equal fst) in E; exact E).
    injection E2 as <-. subst s1. split; reflexivity.
  - intros E. apply (f_equal fst) in E. discriminate E.
Qed.

(** An exception of the first section that [except Exception] lets through
    comes from the request or from decoding the body. *)
Lemma requests_test_escape : forall s e,
  fst (requests_test w s) = Raise e ->
  isinstance_Exception e = false ->
  http_get w = Raise e
  \/ exists response, http_get w = Ok response /\ response_json response = Raise e.
Proof.
  intros s e. unfold requests_test, bind, lift, ret.
  destruct (http_get w) as [resp | e0] eqn:G.
  - destruct (response_json resp) as [body | e1] eqn:J.
    + intros E N. exfalso. revert E.
      repeat match goal with
             | |- context [match getitem ?o ?k with _ => _ end] =>
                 let G := fresh "G" in
                 pose proof (getitem_caught o k) as G; destruct (getitem o k)
             | |- context [match format_comma ?v with _ => _ end] =>
                 let G := fresh "G" in
                 pose proof (format_comma_caught v) as G; destruct (format_comma v)
             end; cbn [fst]; intros E; try discriminate E;
        injection E as ->; cbn [caught] in *; congruence.
    + cbn [fst]. intros E _. injection E as ->. right. exists resp.
      split; [ reflexivity | exact J ].
  - cbn [fst]. intros E _. injection E as ->. left. reflexivity.
Qed.

(** X10.  What the node returns is a list of exactly one item, a dict with
    the single key [json]; under it is the report of [verify_dependencies],
    with its four keys. *)
Theorem node_output_one_item : forall s out s',
  node_output w s = (Ok out, s') ->
  exists report,
    out = VList [VDict [("json", report)]]
    /\ verify_dependencies w s = (Ok report, s')
    /\ keys report = ["status"; "packages"; "tests"; "summary"].
Proof.
  intros s out s' E.
  apply node_output_inv in E. destruct E as (report & E & ->).
  exists report. split; [ reflexivity | split; [ exact E | ] ].
  apply verify_ok_inv in E. destruct E as [_ ->]. reflexivity.
Qed.

(** X11.  The node fails in one way only: the request, or the decoding of
    its body, raised an exception that is not an instance of [Exception].
    It is that exception the node raises, and nothing was read from the
    clock or drawn before. *)
Theorem node_output_fails_only_on_escape : forall s e s',
  node_output w s = (Raise e, s') ->
  isinstance_Exception e = false
  /\ s' = s
  /\ (http_get w = Raise e
      \/ exists response, http_get w = Ok response /\ response_json response = Raise e).
Proof.
  intros s e s'. unfold node_output. rewrite bind_run.
  destruct (fst (requests_test w s)) as [vA | eA] eqn:EA.
  - assert (HA : caught (fst (requests_test w s))) by (rewrite EA; exact I).
    rewrite (verify_report w s HA). unfold ret. intros E.
    apply (f_equal fst) in E. discriminate E.
  - destruct (isinstance_Exception eA) eqn:HE.
    + assert (HA : caught (fst (requests_test w s))) by (rewrite EA; exact HE).
      rewrite (verify_report w s HA). unfold ret. intros E.
      apply (f_equal fst) in E. discriminate E.
    + rewrite (verify_escape w s eA EA HE). intros E.
      assert (E1 : s = s') by (apply (f_equal snd) in E; exact E).
      assert (E2 : @Raise value eA = Raise e) by (apply (f_equal fst) in E; exact E).
      injection E2 as <-. subst s'.
      split; [ exact HE | split; [ reflexivity | ] ].
      apply (requests_test_escape s eA EA HE).
Qed.

End MoreProperties.

Section StatusCode.
Context `{Runtime}.

(** Two responses with the same body give the first section the same
    outcome up to the text that shows the status code. *)
Lemma requests_test_status : forall (w1 w2 : World) s r1 r2,
  http_get w1 = Ok r1 ->
  http_get w2 = Ok r2 ->
  response_json r1 = response_json r2 ->
  match fst (requests_test w1 s), fst (requests_test w2 s) with
  | Raise e1, Raise e2 => e1 = e2
  | Ok v1, Ok v2 =>
      exists repo,
        v1 = VDict [("version", VStr requests_version);
                    ("test", VStr ("GitHub API status: " ++ str_of_Z (status_code r1)));
                    ("repoData", repo); ("installed", VStr "✅")]
        /\ v2 = VDict [("version", VStr requests_version);
                       ("test", VStr ("GitHub API status: " ++ str_of_Z (status_code r2)));
                       ("repoData", repo); ("installed", VStr "✅")]
  | _, _ => False
  end.
Proof.
  intros w1 w2 s r1 r2 G1 G2 J.
  unfold requests_test, bind, lift, ret. rewrite G1, G2, J.
  destruct (response_json r2) as [body | e]; [ | reflexivity ].
  repeat match goal with
         | |- context [match getitem ?o ?k with _ => _ end] => destruct (getitem o k)
         | |- context [match format_comma ?v with _ => _ end] => destruct (format_comma v)
         end; cbn [fst]; try reflexivity.
  eexists. split; reflexivity.
Qed.

(** X12.  The status code of the response is shown and not checked: when
    two responses have the same body, whatever their status codes, and the
    clock and the generator are the same, the two reports differ at most in
    the text under [packages.requests.test]. *)
Theorem status_code_not_checked : forall (w1 w2 : World) s r1 r2 report1 s',
  http_get w1 = Ok r1 ->
  http_get w2 = Ok r2 ->
  response_json r1 = response_json r2 ->
  (forall n, clock w1 n = clock w2 n) ->
  (forall n, random_source w1 n = random_source w2 n) ->
  verify_dependencies w1 s = (Ok report1, s') ->
  exists report2,
    verify_dependencies w2 s = (Ok report2, s')
    /\ lookup report2 "status" = lookup report1 "status"
    /\ lookup report2 "tests" = lookup report1 "tests"
    /\ lookup report2 "summary" = lookup report1 "summary"
    /\ lookup2 report2 "packages" "dateutil" = lookup2 report1 "packages" "dateutil"
    /\ (forall k, k <> "test" ->
          lookup3 report2 "packages" "requests" k
          = lookup3 report1 "packages" "requests" k).
Proof.
  intros w1 w2 s r1 r2 report1 s' G1 G2 J C R E.
  pose proof (requests_test_status w1 w2 s r1 r2 G1 G2 J) as S.
  assert (EB : dateutil_test w1 s = dateutil_test w2 s)
    by (apply dateutil_test_ext; intros; apply C).
  assert (EC : forall s0, stdlib_test w1 s0 = stdlib_test w2 s0)
    by (intros s0; apply stdlib_test_ext; intros; [ apply C | apply R ]).
  assert (E' := E). apply verify_ok_inv in E'. destruct E' as [HA ->].
  assert (HA2 : caught (fst (requests_test w2 s))).
  { destruct (fst (requests_test w1 s)), (fst (requests_test w2 s));
      try contradiction; [ exact I | subst; exact HA ]. }
  rewrite (verify_report w1 s HA) in E.
  assert (ES : tick (snd (stdlib_test w1 (snd (dateutil_test w1 s)))) = s')
    by (apply (f_equal snd) in E; exact E).
  eexists. split.
  { rewrite (verify_report w2 s HA2). rewrite <- EB, <- EC, ES. reflexivity. }
  rewrite <- C.
  destruct (fst (requests_test w1 s)) as [v1 | e1],
           (fst (requests_test w2 s)) as [v2 | e2]; try contradiction.
  - destruct S as (repo & -> & ->). cbn [entry_of].
    split; [ reflexivity | split; [ reflexivity | split; [ reflexivity | ] ] ].
    split; [ reflexivity | ].
    intros k N. unfold lookup3.
    change (lookup2 (assemble ?a ?b ?c ?t) "packages" "requests") with (Some a).
    unfold lookup. cbn [dict_lookup].
    destruct (String.eqb "version" k); [ reflexivity | ].
    destruct (String.eqb "test" k) eqn:T; [ | reflexivity ].
    apply String.eqb_eq in T. congruence.
  - subst e2.
    split; [ reflexivity | split; [ reflexivity | split; [ reflexivity | ] ] ].
    split; reflexivity.
Qed.

End StatusCode.

Section CalendarStart.
Context `{Runtime}.
Variable w : World.

(** X7.  When the fourth reading of the clock is within the first thirty
    days of year 1, thirty days before it is before the calendar: the date
    section raises [OverflowError], and the report carries the message
    under [packages.dateutil] instead of failing. *)
Theorem date_section_fails_at_calendar_start : forall s,
  caught (fst (requests_test w s)) ->
  valid_datetime (clock w (2 + clock_reads s)%nat) = true ->
  year (clock w (2 + clock_reads s)%nat) <= 9998 ->
  toordinal (clock w (3 + clock_reads s)%nat) <= 30 ->
  exists report s',
    verify_dependencies w s = (Ok report, s')
    /\ lookup2 report "packages" "dateutil"
       = Some (VDict [("error", VStr "date value out of range");
                      ("installed", VStr "❌")]).
Proof.
  intros s HA V Y O.
  assert (E : dateutil_test w s
              = (Raise (OverflowError "date value out of range"), reads s 4)).
  { rewrite dateutil_test_eq.
    destruct (add_relativedelta_ok _ V Y) as [future ->].
    unfold sub_days, add_days. cbv zeta.
    match goal with
    | |- context [andb (0 <? ?o) ?b] =>
        replace (0 <? o) with false by (symmetry; apply Z.ltb_ge; lia)
    end.
    reflexivity. }
  eexists. eexists. split; [ apply (verify_report w s HA) | ].
  rewrite E. reflexivity.
Qed.

End CalendarStart.

(** GitHub answers on the fifth day of year 1. *)
Lemma date_section_fails_at_calendar_start_witness :
  exists report s',
    run Sample.far_past = (Ok report, s')
    /\ lookup2 report "packages" "dateutil"
       = Some (VDict [("error", VStr "date value out of range");
                      ("installed", VStr "❌")]).
Proof.
  apply (@date_section_fails_at_calendar_start Sample.runtime Sample.far_past initial).
  - exact I.
  - reflexivity.
  - cbn. lia.
  - vm_compute. discriminate.
Defined.

(* ================================================================== *)
(** * Further properties: the entries of the report                     *)
(* ================================================================== *)

Lemma commas_rev_last : forall c seen, commas_rev [c] seen = [c].
Proof. intros c seen. destruct seen as [| [| [| ?]]]; reflexivity. Qed.

Lemma commas_rev_third : forall c c' r,
  commas_rev (c :: c' :: r) 2 = c :: ","%char :: commas_rev (c' :: r) 0.
Proof. reflexivity. Qed.

Lemma commas_rev_other : forall c c' r seen,
  seen <> 2%nat ->
  commas_rev (c :: c' :: r) seen = c :: commas_rev (c' :: r) (S seen).
Proof.
  intros c c' r seen N. destruct seen as [| [| [| ?]]]; try reflexivity.
  contradiction N; reflexivity.
Qed.

Lemma filter_commas_rev : forall l seen,
  forallb not_comma l = true ->
  filter not_comma (commas_rev l seen) = l.
Proof.
  induction l as [| c r IH]; intros seen F; [ reflexivity | ].
  cbn [forallb] in F. apply andb_true_iff in F. destruct F as [Fc Fr].
  destruct r as [| c' r'].
  - rewrite commas_rev_last. cbn [filter]. rewrite Fc. reflexivity.
  - destruct (Nat.eq_dec seen 2) as [-> | N2].
    + rewrite commas_rev_third. cbn [filter]. rewrite Fc.
      change (not_comma ","%char) with false. cbn iota.
      f_equal. apply IH. exact Fr.
    + rewrite commas_rev_other by exact N2. cbn [filter]. rewrite Fc.
      f_equal. apply IH. exact Fr.
Qed.

Lemma filter_rev_eq : forall (A : Type) (f : A -> bool) l,
  filter f (rev l) = rev (filter f l).
Proof.
  intros A f. induction l as [| a l IH]; [ reflexivity | ].
  cbn [rev filter]. rewrite filter_app, IH. cbn [filter].
  destruct (f a); [ reflexivity | apply app_nil_r ].
Qed.

Lemma forallb_rev : forall (A : Type) (f : A -> bool) l,
  forallb f (rev l) = forallb f l.
Proof.
  intros A f. induction l as [| a l IH]; [ reflexivity | ].
  cbn [rev forallb]. rewrite forallb_app, IH. cbn [forallb].
  rewrite andb_true_r. apply andb_comm.
Qed.

Lemma remove_commas_group_digits : forall t,
  forallb not_comma (list_ascii_of_string t) = true ->
  remove_commas (group_digits t) = t.
Proof.
  intros t F. unfold remove_commas, group_digits.
  rewrite list_ascii_of_string_of_list_ascii.
  rewrite filter_rev_eq, filter_commas_rev by (rewrite forallb_rev; exact F).
  rewrite rev_involutive. apply string_of_list_ascii_of_string.
Qed.

Lemma uint_no_comma : forall d,
  forallb not_comma (list_ascii_of_string (NilEmpty.string_of_uint d)) = true.
Proof. induction d; cbn; auto. Qed.

Lemma str_of_Z_no_comma : forall n,
  forallb not_comma (list_ascii_of_string (str_of_Z n)) = true.
Proof.
  intros n. unfold str_of_Z, NilZero.string_of_int, NilZero.string_of_uint.
  destruct (Z.to_int n) as [d | d]; [ | cbn [list_ascii_of_string forallb] ];
    destruct d; try apply uint_no_comma; try reflexivity;
    cbn [list_ascii_of_string forallb]; rewrite uint_no_comma; reflexivity.
Qed.

Lemma remove_commas_minus : forall t,
  remove_commas ("-" ++ t) = "-" ++ remove_commas t.
Proof. intros t. reflexivity. Qed.

Lemma str_of_Z_neg : forall n, n < 0 -> str_of_Z n = "-" ++ str_of_Z (- n).
Proof.
  intros n N. destruct n as [| p | p]; try lia.
  unfold str_of_Z. cbn [Z.opp Z.to_int NilZero.string_of_int].
  unfold NilZero.string_of_uint.
  destruct (Pos.to_uint p); reflexivity.
Qed.

(** Without its commas, the grouped text of an int is the text of the
    int. *)
Lemma remove_commas_format_int : forall n,
  remove_commas (format_int_comma n) = str_of_Z n.
Proof.
  intros n. unfold format_int_comma.
  destruct (n <? 0) eqn:N.
  - apply Z.ltb_lt in N. rewrite remove_commas_minus, (str_of_Z_neg n N).
    f_equal. apply remove_commas_group_digits, str_of_Z_no_comma.
  - apply remove_commas_group_digits, str_of_Z_no_comma.
Qed.

Lemma commas_rev_places : forall l seen i,
  forallb not_comma l = true ->
  (seen <= 2)%nat ->
  match nth_error (commas_rev l seen) i with
  | Some c => Ascii.eqb c ","%char
  | None => false
  end
  = andb (Nat.eqb ((i + seen) mod 4) 3) (Nat.ltb i (List.length (commas_rev l seen))).
Proof.
  induction l as [| c r IH]; intros seen i F S2.
  - cbn [commas_rev List.length]. destruct i; cbn [nth_error];
      rewrite andb_false_r; reflexivity.
  - cbn [forallb] in F. apply andb_true_iff in F. destruct F as [Fc Fr].
    assert (Nc : Ascii.eqb c ","%char = false)
      by (unfold not_comma in Fc; destruct (Ascii.eqb c ","%char); [ discriminate | reflexivity ]).
    assert (M : forall k, (k <= 2)%nat -> Nat.eqb ((0 + k) mod 4) 3 = false).
    { intros k K. destruct k as [| [| [| ?]]]; try reflexivity; lia. }
    destruct r as [| c' r'].
    + rewrite commas_rev_last. destruct i as [| j]; cbn [nth_error List.length].
      * rewrite Nc, (M seen S2). reflexivity.
      * destruct j; cbn [nth_error]; rewrite andb_false_r; reflexivity.
    + destruct (Nat.eq_dec seen 2) as [-> | N2].
      * rewrite commas_rev_third. destruct i as [| [| j]]; cbn [nth_error List.length].
        -- rewrite Nc. reflexivity.
        -- reflexivity.
        -- rewrite (IH 0%nat j Fr) by lia.
           replace (S (S j) + 2)%nat with (j + 0 + 1 * 4)%nat by lia.
           rewrite Nat.Div0.mod_add. reflexivity.
      * rewrite commas_rev_other by exact N2. destruct i as [| j]; cbn [nth_error List.length].
        -- rewrite Nc, (M seen S2). reflexivity.
        -- rewrite (IH (S seen) j Fr) by lia.
           replace (S j + seen)%nat with (j + S seen)%nat by lia.
           reflexivity.
Qed.

Lemma length_string_of_list : forall l,
  String.length (string_of_list_ascii l) = List.length l.
Proof. induction l as [| c l IH]; [ reflexivity | cbn; f_equal; exact IH ]. Qed.

(** In the grouped text of an int that is not negative, the commas are at
    every fourth place from the right, and only there. *)
Lemma format_int_comma_places : forall n i,
  0 <= n ->
  comma_at (format_int_comma n) i
  = andb (Nat.eqb (i mod 4) 3) (Nat.ltb i (String.length (format_int_comma n))).
Proof.
  intros n i N. unfold format_int_comma.
  replace (n <? 0) with false by (symmetry; apply Z.ltb_ge; exact N).
  unfold comma_at, group_digits.
  rewrite length_string_of_list.
  rewrite list_ascii_of_string_of_list_ascii, rev_involutive, length_rev.
  rewrite commas_rev_places
    by (try lia; rewrite forallb_rev; apply str_of_Z_no_comma).
  rewrite Nat.add_0_r. reflexivity.
Qed.

Section Entries.
Context `{Runtime}.
Variable w : World.

(** X13.  When the body has the four fields, with ints that are not
    negative for the two counts, the first section returns its entry
    whatever the status code: the two counts are shown in decimal with a
    comma at every fourth place from the right and only there, the name and
    the language are passed on as they are, and the status code is shown in
    the test text. *)
Theorem counts_grouped_by_thousands : forall s response d name stars forks language,
  http_get w = Ok response ->
  response_json response = Ok (VDict d) ->
  dict_lookup d "name" = Some name ->
  dict_lookup d "stargazers_count" = Some (VInt stars) ->
  dict_lookup d "forks_count" = Some (VInt forks) ->
  dict_lookup d "language" = Some language ->
  0 <= stars ->
  0 <= forks ->
  exists entry stars_text forks_text,
    requests_test w s = (Ok entry, s)
    /\ lookup2 entry "repoData" "stars" = Some (VStr stars_text)
    /\ lookup2 entry "repoData" "forks" = Some (VStr forks_text)
    /\ remove_commas stars_text = str_of_Z stars
    /\ remove_commas forks_text = str_of_Z forks
    /\ (forall i, comma_at stars_text i
                  = andb (Nat.eqb (i mod 4) 3) (Nat.ltb i (String.length stars_text)))
    /\ (forall i, comma_at forks_text i
                  = andb (Nat.eqb (i mod 4) 3) (Nat.ltb i (String.length forks_text)))
    /\ lookup2 entry "repoData" "name" = Some name
    /\ lookup2 entry "repoData" "language" = Some language
    /\ lookup entry "test"
       = Some (VStr ("GitHub API status: " ++ str_of_Z (status_code response)))
    /\ lookup entry "installed" = Some (VStr "✅").
Proof.
  intros s response d name stars forks language G J N S F L PS PF.
  eexists. exists (format_int_comma stars), (format_int_comma forks).
  split.
  { unfold requests_test, bind, lift, ret. rewrite G, J. cbn [getitem].
    rewrite N, S, F, L. cbn [format_comma]. reflexivity. }
  split; [ reflexivity | split; [ reflexivity | ] ].
  split; [ apply remove_commas_format_int | ].
  split; [ apply remove_commas_format_int | ].
  split; [ intros i; apply format_int_comma_places; exact PS | ].
  split; [ intros i; apply format_int_comma_places; exact PF | ].
  repeat split; reflexivity.
Qed.

(** X14.  In every report the script returns, each of the two package
    entries either has the check mark and no [error] key, or is exactly an
    error record with the cross; the record under [tests.stdlib] has the
    four parts of the third section and no [error] key; and the summary has
    its three keys, with the one fixed message whatever the count. *)
Theorem report_entries_consistent : forall s report s',
  verify_dependencies w s = (Ok report, s') ->
  (forall p, In p ["requests"; "dateutil"] ->
     exists entry,
       lookup2 report "packages" p = Some entry
       /\ ((lookup entry "installed" = Some (VStr "✅") /\ ~ In "error" (keys entry))
           \/ exists msg, entry = VDict [("error", VStr msg); ("installed", VStr "❌")]))
  /\ (exists stdlib,
        lookup2 report "tests" "stdlib" = Some stdlib
        /\ keys stdlib = ["math"; "random"; "json"; "datetime"])
  /\ (exists summary,
        lookup report "summary" = Some summary
        /\ keys summary = ["message"; "timestamp"; "packagesWorking"]
        /\ lookup summary "message"
           = Some (VStr "🎉 All packages and stdlib modules working!")).
Proof.
  intros s report s' E.
  apply verify_ok_inv in E. destruct E as [_ ->].
  split; [ | split ].
  - intros p [<- | [<- | []]].
    + eexists. split; [ reflexivity | ].
      destruct (requests_test w s) as [[vA | eA] sA] eqn:EA; cbn [fst entry_of].
      * left. apply requests_test_ok in EA. destruct EA as (test & repo & ->).
        split; [ reflexivity | ].
        cbn [keys dict_keys map fst].
        intros [F | [F | [F | [F | []]]]]; discriminate F.
      * right. eexists. reflexivity.
    + eexists. split; [ reflexivity | ].
      destruct (dateutil_test w s) as [[vB | eB] sB] eqn:EB; cbn [fst entry_of].
      * left. apply dateutil_test_ok in EB. destruct EB as (future & past & ->).
        split; [ reflexivity | ].
        cbn [keys dateutil_record dict_keys map fst].
        intros [F | [F | [F | [F | []]]]]; discriminate F.
      * right. eexists. reflexivity.
  - eexists. split; [ reflexivity | ].
    rewrite stdlib_test_eq. reflexivity.
  - eexists. split; [ reflexivity | split; reflexivity ].
Qed.

(** X15.  The timestamp of the summary is the last reading of the clock the
    run takes: the run ends one reading after the one shown. *)
Theorem timestamp_is_last_reading : forall s report s',
  verify_dependencies w s = (Ok report, s') ->
  exists n,
    clock_reads s' = S n
    /\ lookup2 report "summary" "timestamp" = Some (VStr (isoformat (clock w n)))
    /\ (clock_reads s < n)%nat.
Proof.
  intros s report s' E.
  assert (E' := E). apply verify_ok_inv in E'. destruct E' as [HA ->].
  rewrite (verify_report w s HA) in E.
  apply (f_equal snd) in E. cbn [snd] in E. subst s'.
  eexists. split; [ reflexivity | split; [ reflexivity | ] ].
  rewrite stdlib_test_eq. cbn [snd reads clock_reads].
  pose proof (dateutil_test_state w s) as [L _]. lia.
Qed.

Lemma append_assoc : forall a b c : string, (a ++ b) ++ c = a ++ (b ++ c).
Proof.
  induction a as [| x a IH]; intros b c; [ reflexivity | ].
  cbn [String.append]. f_equal. apply IH.
Qed.

Lemma append_nil_r : forall a : string, a ++ "" = a.
Proof. induction a as [| x a IH]; [ reflexivity | cbn [String.append]; f_equal; exact IH ]. Qed.

(** The text of [isoformat] starts with the date as [%Y-%m-%d] writes
    it. *)
Lemma isoformat_date : forall dt,
  exists rest, isoformat dt = strftime dt "%Y-%m-%d" ++ "T" ++ rest.
Proof.
  intros dt.
  exists (format_time (hour dt) (minute dt) (second dt) (microsecond dt)
          ++ format_offset (utcoffset dt)).
  unfold isoformat, strftime.
  cbn [list_ascii_of_string strftime_chars Ascii.eqb Bool.eqb].
  rewrite append_nil_r.
  repeat (rewrite !append_assoc; cbn [String.append]).
  reflexivity.
Qed.

Lemma strftime_same_date : forall t1 t2,
  (year t1, month t1, day t1) = (year t2, month t2, day t2) ->
  strftime t1 "%Y-%m-%d" = strftime t2 "%Y-%m-%d".
Proof.
  intros t1 t2 D. unfold strftime.
  cbn [list_ascii_of_string strftime_chars Ascii.eqb Bool.eqb].
  injection D as -> -> ->. reflexivity.
Qed.

Lemma stdlib_record_now : forall d1 d2 t1 t2,
  lookup2 (stdlib_record d1 d2 t1 t2) "datetime" "now" = Some (VStr (isoformat t1)).
Proof. reflexivity. Qed.

Lemma stdlib_record_today : forall d1 d2 t1 t2,
  lookup2 (stdlib_record d1 d2 t1 t2) "datetime" "today"
  = Some (VStr (strftime t2 "%Y-%m-%d")).
Proof. reflexivity. Qed.


End Entries.

(* ================================================================== *)
(** * Further properties at closed worlds                               *)
(* ================================================================== *)

(** The date section of the reachable world returns. *)
Lemma sample_dates_return :
  dateutil_test Sample.reachable initial
  = (Ok (returned (dateutil_test Sample.reachable initial)),
     snd (dateutil_test Sample.reachable initial)).
Proof. vm_compute. reflexivity. Defined.

(** The runs of the sample worlds that return a report. *)
Lemma reachable_returns :
  run Sample.reachable = (Ok (returned (run Sample.reachable)), snd (run Sample.reachable)).
Proof. vm_compute. reflexivity. Defined.

Lemma unreachable_returns :
  run Sample.unreachable
  = (Ok (returned (run Sample.unreachable)), snd (run Sample.unreachable)).
Proof. vm_compute. reflexivity. Defined.

(** Thirty days before 2025-10-22 is 2025-09-22. *)
Lemma thirty_days_ago_witness :
  exists past,
    lookup2 (returned (dateutil_test Sample.reachable initial)) "calculations" "30DaysAgo"
    = Some (VStr (strftime past "%Y-%m-%d"))
    /\ toordinal past = toordinal (Sample.ticking 3) - 30
    /\ check_date_fields (year past) (month past) (day past) = Ok tt.
Proof.
  exact (thirty_days_ago Sample.reachable initial _ _ sample_dates_return).
Defined.

(** Three months after October is January of the next year. *)
Lemma three_months_fifteen_days_witness :
  exists future,
    lookup2 (returned (dateutil_test Sample.reachable initial))
      "calculations" "in3Months15Days"
    = Some (VStr (strftime future "%Y-%m-%d"))
    /\ toordinal future = ymd2ord 2026 1 22 + 15
    /\ check_date_fields (year future) (month future) (day future) = Ok tt.
Proof.
  assert (M : 1 <= month (clock Sample.reachable (2 + clock_reads initial)%nat) <= 12)
    by (cbn; lia).
  exact (three_months_fifteen_days Sample.reachable initial _ _ M sample_dates_return).
Defined.

Lemma date_section_returns_witness :
  exists entry,
    dateutil_test Sample.reachable initial = (Ok entry, reads initial 5)
    /\ lookup entry "installed" = Some (VStr "✅").
Proof.
  apply (date_section_returns Sample.reachable initial);
    first [ reflexivity | cbn; lia ].
Defined.

(** GitHub answers on the last day of year 9999. *)
Lemma date_section_fails_at_calendar_end_witness :
  exists report s',
    run Sample.far_future = (Ok report, s')
    /\ lookup2 report "packages" "dateutil"
       = Some (VDict [("error", VStr "year 10000 is out of range");
                      ("installed", VStr "❌")]).
Proof.
  apply (@date_section_fails_at_calendar_end Sample.runtime Sample.far_future initial).
  - exact I.
  - reflexivity.
  - cbn. lia.
Defined.

Lemma date_failure_isolated_witness :
  exists report s',
    run Sample.far_future = (Ok report, s')
    /\ lookup2 report "packages" "dateutil"
       = Some (VDict [("error", VStr "year 10000 is out of range");
                      ("installed", VStr "❌")])
    /\ lookup3 report "packages" "requests" "installed" = Some (VStr "✅")
    /\ lookup2 report "summary" "packagesWorking" = Some (VInt 1).
Proof.
  destruct (@date_failure_isolated Sample.runtime Sample.far_future initial
              (ValueError "year 10000 is out of range") (reads initial 3) I eq_refl)
    as (report & s' & E & EB & EA & _ & _ & EW).
  exists report, s'.
  split; [ exact E | split; [ exact EB | split; [ | exact EW ] ] ].
  unfold lookup3. rewrite EA. reflexivity.
Defined.

(** The body has the name and the stars and lacks the forks. *)
Lemma first_missing_field_recorded_witness :
  exists report s',
    run Sample.no_forks = (Ok report, s')
    /\ lookup2 report "packages" "requests"
       = Some (VDict [("error", VStr "'forks_count'"); ("installed", VStr "❌")]).
Proof.
  destruct (@first_missing_field_recorded Sample.runtime Sample.no_forks initial
              {| status_code := 200; response_json := Ok Sample.partial_body |}
              [("name", VStr "n8n"); ("stargazers_count", VInt 45123);
               ("language", VStr "TypeScript")]
              "forks_count" eq_refl eq_refl)
    as (report & s' & E & EA & _).
  - intros k v [<- | [<- | []]] L.
    + injection L as <-. exists 45123. reflexivity.
    + discriminate L.
  - reflexivity.
  - exists report, s'. split; [ exact E | exact EA ].
Defined.

Lemma node_returns :
  node_run Sample.reachable
  = (Ok (returned (node_run Sample.reachable)), snd (node_run Sample.reachable)).
Proof. vm_compute. reflexivity. Defined.

Lemma node_output_one_item_witness :
  exists report,
    returned (node_run Sample.reachable) = VList [VDict [("json", report)]]
    /\ run Sample.reachable = (Ok report, snd (node_run Sample.reachable))
    /\ keys report = ["status"; "packages"; "tests"; "summary"].
Proof.
  exact (@node_output_one_item Sample.runtime Sample.reachable initial _ _ node_returns).
Defined.

(** The request is interrupted from the keyboard. *)
Lemma node_output_fails_only_on_escape_witness :
  isinstance_Exception {| exc_type := KeyboardInterrupt; exc_str := "" |} = false
  /\ initial = initial
  /\ (http_get Sample.interrupted
      = Raise {| exc_type := KeyboardInterrupt; exc_str := "" |}
      \/ exists response,
           http_get Sample.interrupted = Ok response
           /\ response_json response
              = Raise {| exc_type := KeyboardInterrupt; exc_str := "" |}).
Proof.
  apply (@node_output_fails_only_on_escape Sample.runtime Sample.interrupted initial).
  vm_compute. reflexivity.
Defined.

(** The same body under status 200 and under status 404. *)
Lemma status_code_not_checked_witness :
  exists report2,
    run Sample.not_found = (Ok report2, snd (run Sample.reachable))
    /\ lookup report2 "summary" = lookup (returned (run Sample.reachable)) "summary"
    /\ lookup3 report2 "packages" "requests" "installed"
       = lookup3 (returned (run Sample.reachable)) "packages" "requests" "installed".
Proof.
  destruct (@status_code_not_checked Sample.runtime Sample.reachable Sample.not_found
              initial _ _ _ _ eq_refl eq_refl eq_refl
              (fun n => eq_refl) (fun n => eq_refl) reachable_returns)
    as (report2 & E & _ & _ & ES & _ & EK).
  exists report2. split; [ exact E | split; [ exact ES | ] ].
  apply EK. discriminate.
Defined.

(** 45123 stars and 5012 forks. *)
Lemma counts_grouped_by_thousands_witness :
  exists entry stars_text forks_text,
    requests_test (H := Sample.runtime) Sample.reachable initial = (Ok entry, initial)
    /\ lookup2 entry "repoData" "stars" = Some (VStr stars_text)
    /\ lookup2 entry "repoData" "forks" = Some (VStr forks_text)
    /\ remove_commas stars_text = str_of_Z 45123
    /\ remove_commas forks_text = str_of_Z 5012.
Proof.
  destruct (@counts_grouped_by_thousands Sample.runtime Sample.reachable initial
              _ _ (VStr "n8n") 45123 5012 (VStr "TypeScript")
              eq_refl eq_refl eq_refl eq_refl eq_refl eq_refl
              ltac:(lia) ltac:(lia))
    as (entry & st & ft & E & ES & EF & RS & RF & _).
  exists entry, st, ft.
  split; [ exact E | split; [ exact ES | split; [ exact EF | split; [ exact RS | exact RF ] ] ] ].
Defined.

(** The run whose request times out: one error record, one entry with the
    check mark. *)
Lemma report_entries_consistent_witness :
  exists stdlib,
    lookup2 (returned (run Sample.unreachable)) "tests" "stdlib" = Some stdlib
    /\ keys stdlib = ["math"; "random"; "json"; "datetime"].
Proof.
  exact (proj1 (proj2 (@report_entries_consistent Sample.runtime Sample.unreachable
                         initial _ _ unreachable_returns))).
Defined.

Lemma timestamp_is_last_reading_witness :
  exists n,
    clock_reads (snd (run Sample.reachable)) = S n
    /\ lookup2 (returned (run Sample.reachable)) "summary" "timestamp"
       = Some (VStr (isoformat (Sample.ticking n)))
    /\ (0 < n)%nat.
Proof.
  exact (@timestamp_is_last_reading Sample.runtime Sample.reachable initial _ _
           reachable_returns).
Defined.


(* ================================================================== *)
(** * Further properties: the body of the response                      *)
(* ================================================================== *)

Section Body.
Context `{Runtime}.
Variable w : World.

Lemma format_comma_formattable : forall v,
  match format_comma v with
  | Ok _ => formattable v = true
  | Raise _ => formattable v = false
  end.
Proof. intros v. destruct v; reflexivity. Qed.

(** The first section returns exactly on the bodies that are in order. *)
Lemma requests_test_body : forall s response body,
  http_get w = Ok response ->
  response_json response = Ok body ->
  match fst (requests_test w s) with
  | Ok _ => body_ok body = true
  | Raise e => body_ok body = false /\ isinstance_Exception e = true
  end.
Proof.
  intros s response body G J.
  unfold requests_test, bind, lift, ret. rewrite G, J.
  destruct body as [ | b | n | x | t | l | d]; try (split; reflexivity).
  cbn [getitem body_ok].
  destruct (dict_lookup d "name") as [name | ]; [ | split; reflexivity ].
  destruct (dict_lookup d "stargazers_count") as [stars | ]; [ | split; reflexivity ].
  pose proof (format_comma_formattable stars) as FS.
  pose proof (format_comma_caught stars) as CS.
  destruct (format_comma stars) as [st | e]; rewrite FS;
    [ | destruct (dict_lookup d "forks_count"), (dict_lookup d "language");
        split; try reflexivity; exact CS ].
  destruct (dict_lookup d "forks_count") as [forks | ]; [ | split; reflexivity ].
  pose proof (format_comma_formattable forks) as FF.
  pose proof (format_comma_caught forks) as CF.
  destruct (format_comma forks) as [ft | e]; rewrite FF;
    [ | destruct (dict_lookup d "language"); split; try reflexivity; exact CF ].
  destruct (dict_lookup d "language") as [language | ]; [ reflexivity | split; reflexivity ].
Qed.

(** X17.  When the request returns a response and its body decodes, the
    script returns a report whatever the body is, and the installed flag of
    [packages.requests] is the check mark exactly when the body is an object
    with the four fields and numbers for the two counts; the cross
    otherwise.  The status code plays no part. *)
Theorem requests_entry_installed_iff : forall s response body,
  http_get w = Ok response ->
  response_json response = Ok body ->
  exists report s',
    verify_dependencies w s = (Ok report, s')
    /\ lookup3 report "packages" "requests" "installed"
       = Some (VStr (if body_ok body then "✅" else "❌")).
Proof.
  intros s response body G J.
  pose proof (requests_test_body s response body G J) as B.
  assert (HA : caught (fst (requests_test w s))).
  { destruct (fst (requests_test w s)); [ exact I | exact (proj2 B) ]. }
  eexists. eexists. split; [ apply (verify_report w s HA) | ].
  unfold lookup3.
  change (lookup2 (assemble ?a ?b ?c ?t) "packages" "requests") with (Some a).
  destruct (requests_test w s) as [[entry | e] sA] eqn:EA; cbn [fst entry_of] in *.
  - rewrite B. apply requests_test_ok in EA. destruct EA as (test & repo & ->).
    reflexivity.
  - destruct B as [-> _]. reflexivity.
Qed.

End Body.

(** The rate-limited answer is an object without the four fields. *)
Lemma requests_entry_installed_iff_witness :
  exists report s',
    run Sample.rate_limited = (Ok report, s')
    /\ lookup3 report "packages" "requests" "installed" = Some (VStr "❌").
Proof.
  exact (@requests_entry_installed_iff Sample.runtime Sample.rate_limited initial
           _ _ eq_refl eq_refl).
Defined.

Section Frame.
Context `{Runtime}.

(** X18.  Of the response the script reads the status code and four fields
    of the body, and nothing else: two responses with the same status code
    whose bodies are objects that agree on [name], [stargazers_count],
    [forks_count] and [language], whatever else they hold and in whatever
    order, give the same run when the clock and the generator are the
    same. *)
Theorem unread_fields_ignored : forall (w1 w2 : World) s r1 r2 d1 d2,
  http_get w1 = Ok r1 ->
  http_get w2 = Ok r2 ->
  status_code r1 = status_code r2 ->
  response_json r1 = Ok (VDict d1) ->
  response_json r2 = Ok (VDict d2) ->
  (forall k, In k repo_fields -> dict_lookup d1 k = dict_lookup d2 k) ->
  (forall n, clock w1 n = clock w2 n) ->
  (forall n, random_source w1 n = random_source w2 n) ->
  verify_dependencies w1 s = verify_dependencies w2 s.
Proof.
  intros w1 w2 s r1 r2 d1 d2 G1 G2 SC J1 J2 F C R.
  assert (EA : requests_test w1 s = requests_test w2 s).
  { unfold requests_test, bind, lift. rewrite G1, G2, J1, J2, SC. cbn [getitem].
    rewrite (F "name"), (F "stargazers_count"), (F "forks_count"), (F "language")
      by (unfold repo_fields; cbn [In]; tauto).
    reflexivity. }
  assert (HA : caught (fst (requests_test w1 s))).
  { apply requests_test_caught; [ rewrite G1; exact I | ].
    intros r E. rewrite G1 in E. injection E as <-. rewrite J1. exact I. }
  assert (HA2 : caught (fst (requests_test w2 s))) by (rewrite <- EA; exact HA).
  assert (EB : dateutil_test w1 s = dateutil_test w2 s)
    by (apply dateutil_test_ext; intros; apply C).
  assert (EC : forall s0, stdlib_test w1 s0 = stdlib_test w2 s0)
    by (intros s0; apply stdlib_test_ext; intros; [ apply C | apply R ]).
  rewrite (verify_report w1 s HA), (verify_report w2 s HA2).
  rewrite EA, EB, EC, C. reflexivity.
Qed.

End Frame.

(** The body of the reachable world, with a field the script does not
    read in front and the four others in another order. *)
Lemma unread_fields_ignored_witness :
  run Sample.reachable = run Sample.verbose.
Proof.
  apply (@unread_fields_ignored Sample.runtime Sample.reachable Sample.verbose initial
           _ _ _ _ eq_refl eq_refl eq_refl eq_refl eq_refl).
  - intros k [<- | [<- | [<- | [<- | []]]]]; reflexivity.
  - reflexivity.
  - reflexivity.
Defined.

(* ================================================================== *)
(** * Further properties: the round trip through JSON                   *)
(* ================================================================== *)

Import Json JsonText.

Lemma encode_chars_ascii : forall c r,
  is_ascii c = true ->
  encode_chars (c :: r) = (encode_ascii c ++ encode_chars r)%list.
Proof.
  intros c r A. unfold is_ascii in A. cbn [encode_chars]. unfold encode_ascii. cbv zeta.
  repeat match goal with
         | |- context [if ?b then _ else _] => destruct b eqn:?; try reflexivity
         end; discriminate.
Qed.

Lemma scan_string_ascii : forall doc c acc tail,
  is_ascii c = true ->
  scan_string doc acc (encode_ascii c ++ tail)%list = scan_string doc (c :: acc) tail.
Proof.
  intros doc c acc tail A.
  destruct c as [b0 b1 b2 b3 b4 b5 b6 b7].
  destruct b7; [ destruct b0, b1, b2, b3, b4, b5, b6; discriminate A | clear A ].
  destruct b0, b1, b2, b3, b4, b5, b6; reflexivity.
Qed.

Lemma chars_app : forall a b,
  list_ascii_of_string (a ++ b) = (list_ascii_of_string a ++ list_ascii_of_string b)%list.
Proof.
  induction a as [| c a IH]; intros b; [ reflexivity | ].
  cbn [String.append list_ascii_of_string app]. f_equal. apply IH.
Qed.

Lemma scan_string_encode : forall doc l acc rest,
  forallb is_ascii l = true ->
  scan_string doc acc (encode_chars l ++ dquote :: rest)%list
  = Ok (string_of_list_ascii (rev acc ++ l), rest).
Proof.
  intros doc. induction l as [| c r IH]; intros acc rest A.
  - rewrite List.app_nil_r. reflexivity.
  - cbn [forallb] in A. apply andb_true_iff in A. destruct A as [Ac Ar].
    rewrite encode_chars_ascii by exact Ac.
    rewrite <- List.app_assoc, scan_string_ascii by exact Ac.
    rewrite IH by exact Ar. cbn [rev]. rewrite <- List.app_assoc. reflexivity.
Qed.

Lemma chars_encode_string : forall s,
  list_ascii_of_string (encode_string s)
  = (dquote :: encode_chars (list_ascii_of_string s) ++ [dquote])%list.
Proof.
  intros s. unfold encode_string.
  cbn [String.append list_ascii_of_string]. f_equal.
  rewrite chars_app, list_ascii_of_string_of_list_ascii. reflexivity.
Qed.

(** ** Integers *)

Lemma to_uint_normal : forall p, normal (Pos.to_uint p) = true.
Proof.
  intros p.
  assert (U : Decimal.unorm (Pos.to_uint p) = Pos.to_uint p).
  { pose proof (DecimalPos.Unsigned.to_of (Pos.to_uint p)) as T.
    rewrite DecimalPos.Unsigned.of_to in T. symmetry. exact T. }
  pose proof (DecimalPos.Unsigned.to_uint_nonnil p) as NN.
  destruct (Pos.to_uint p) as [ | u | u | u | u | u | u | u | u | u | u ];
    try reflexivity; [ contradiction NN; reflexivity | ].
  destruct u; try reflexivity; exfalso;
    rewrite DecimalFacts.unorm_D0 in U;
    match type of U with
    | Decimal.unorm ?x = _ =>
        pose proof (DecimalFacts.nb_digits_unorm x ltac:(discriminate)) as L;
        rewrite U in L; cbn [Decimal.nb_digits] in L; lia
    end.
Qed.

Lemma take_digits_digits : forall u rest,
  closed rest = true ->
  take_digits (digits u ++ rest) = (digits u, rest).
Proof.
  intros u rest C. unfold digits.
  induction u; cbn [NilEmpty.string_of_uint list_ascii_of_string app take_digits];
    try (change (is_digit _) with true; cbn iota; rewrite IHu; reflexivity).
  destruct rest as [| c r]; [ reflexivity | ].
  cbn [take_digits]. cbn [closed] in C.
  replace (is_digit c) with false; [ reflexivity | ].
  unfold is_digit. symmetry. apply andb_false_iff.
  apply orb_true_iff in C. destruct C as [C | C];
    [ | apply orb_true_iff in C; destruct C as [C | C] ];
    apply Z.eqb_eq in C; rewrite C; [ left | right | right ]; reflexivity.
Qed.

Lemma scan_number_int : forall (minus : bool) z tl rest,
  (code z =? 45) = false ->
  orb (negb (code z =? 48)) (match tl with [] => true | _ => false end) = true ->
  take_digits (z :: tl ++ rest)%list = (z :: tl, rest) ->
  closed rest = true ->
  scan_number ((if minus then ["-"%char] else []) ++ z :: tl ++ rest)%list
  = Some (((if minus then ["-"%char] else []) ++ z :: tl)%list, false, rest).
Proof.
  intros minus z tl rest S Z0 T C.
  assert (F : (match rest with
               | p :: r =>
                   if code p =? 46 then
                     let (d, t) := take_digits r in
                     match d with
                     | [] => ([], rest)
                     | _ => (p :: d, t)
                     end
                   else ([], rest)
               | [] => ([], rest)
               end) = (@nil ascii, rest)).
  { destruct rest as [| p r]; [ reflexivity | ].
    cbn [closed] in C. replace (code p =? 46) with false; [ reflexivity | ].
    symmetry. apply Z.eqb_neq. intros E. rewrite E in C. discriminate C. }
  assert (X : (match rest with
               | e :: r =>
                   if orb (code e =? 101) (code e =? 69) then
                     let (sg, r') :=
                       match r with
                       | s :: r'' =>
                           if orb (code s =? 43) (code s =? 45) then ([s], r'') else ([], r)
                       | [] => ([], r)
                       end in
                     let (d, t) := take_digits r' in
                     match d with
                     | [] => ([], rest)
                     | _ => ((e :: sg ++ d)%list, t)
                     end
                   else ([], rest)
               | [] => ([], rest)
               end) = (@nil ascii, rest)).
  { destruct rest as [| e r]; [ reflexivity | ].
    cbn [closed] in C.
    replace (orb (code e =? 101) (code e =? 69)) with false; [ reflexivity | ].
    symmetry. apply orb_false_iff. split; apply Z.eqb_neq; intros E;
      rewrite E in C; discriminate C. }
  unfold scan_number.
  destruct minus; cbn [app];
    [ change (code "-" =? 45) with true; cbn iota | rewrite S ];
    rewrite T;
    (destruct tl as [| z' tl'];
     [ rewrite F, X; reflexivity
     | replace (code z =? 48) with false
         by (destruct (code z =? 48); [ discriminate Z0 | reflexivity ]);
       rewrite F, X; cbn [List.length Nat.eqb andb negb app];
       rewrite !List.app_nil_r; reflexivity ]).
Qed.

Lemma scan_number_digits : forall (minus : bool) u rest,
  normal u = true ->
  closed rest = true ->
  scan_number ((if minus then ["-"%char] else []) ++ digits u ++ rest)
  = Some (((if minus then ["-"%char] else []) ++ digits u)%list, false, rest).
Proof.
  intros minus u rest N C.
  pose proof (take_digits_digits u rest C) as T.
  destruct u as [ | u | u | u | u | u | u | u | u | u | u ]; try discriminate N;
    unfold digits in *;
    cbn [NilEmpty.string_of_uint list_ascii_of_string app] in *;
    (apply scan_number_int; [ reflexivity | | exact T | exact C ]);
    try reflexivity.
  destruct u; try discriminate N. reflexivity.
Qed.

(** The text of an int, as a sign and digits. *)
Lemma str_of_Z_digits : forall n,
  exists (minus : bool) u,
    normal u = true
    /\ list_ascii_of_string (str_of_Z n)
       = ((if minus then ["-"%char] else []) ++ digits u)%list.
Proof.
  intros n. unfold str_of_Z, NilZero.string_of_int, NilZero.string_of_uint.
  destruct n as [| p | p]; cbn [Z.to_int].
  - exists false, (Decimal.D0 Decimal.Nil). split; reflexivity.
  - exists false, (Pos.to_uint p). split; [ apply to_uint_normal | ].
    pose proof (to_uint_normal p) as N.
    destruct (Pos.to_uint p); try discriminate N; reflexivity.
  - exists true, (Pos.to_uint p). split; [ apply to_uint_normal | ].
    pose proof (to_uint_normal p) as N.
    destruct (Pos.to_uint p); try discriminate N; reflexivity.
Qed.

(** The text of an int is read back as the int. *)
Lemma scan_number_str_of_Z : forall n rest,
  closed rest = true ->
  exists text,
    scan_number (list_ascii_of_string (str_of_Z n) ++ rest) = Some (text, false, rest)
    /\ int_of_literal text = n.
Proof.
  intros n rest C. exists (list_ascii_of_string (str_of_Z n)). split.
  - destruct (str_of_Z_digits n) as (minus & u & N & ->).
    rewrite <- List.app_assoc. apply scan_number_digits; assumption.
  - unfold int_of_literal. rewrite string_of_list_ascii_of_string.
    unfold str_of_Z.
    rewrite NilZero.isi.
    + apply DecimalZ.of_to.
    + destruct n; cbn [Z.to_int]; try discriminate.
      intros E. injection E as E.
      exact (DecimalPos.Unsigned.to_uint_nonnil _ E).
    + destruct n; cbn [Z.to_int]; try discriminate.
      intros E. injection E as E.
      exact (DecimalPos.Unsigned.to_uint_nonnil _ E).
Qed.

(** ** Values *)

Lemma value_ind_nested : forall P : value -> Prop,
  P VNone ->
  (forall b, P (VBool b)) ->
  (forall n, P (VInt n)) ->
  (forall x, P (VFloat x)) ->
  (forall s, P (VStr s)) ->
  (forall l, Forall P l -> P (VList l)) ->
  (forall d, Forall (fun kv => P (snd kv)) d -> P (VDict d)) ->
  forall v, P v.
Proof.
  intros P HN HB HI HF HS HL HD.
  fix IH 1. intros [ | b | n | x | s | l | d].
  - exact HN.
  - apply HB.
  - apply HI.
  - apply HF.
  - apply HS.
  - apply HL. induction l as [| v l IHl]; constructor; [ apply IH | exact IHl ].
  - apply HD. induction d as [| [k v] d IHd]; constructor; [ apply IH | exact IHd ].
Qed.

Section RoundTrip.
Context `{Runtime}.

Lemma digits_head : forall u,
  normal u = true ->
  exists c t, digits u = c :: t /\ value_start c = true /\ num_head c = true.
Proof.
  intros u N.
  destruct u; try discriminate N; unfold digits;
    cbn [NilEmpty.string_of_uint list_ascii_of_string];
    eexists; eexists; (split; [ reflexivity | split; reflexivity ]).
Qed.

Lemma int_head : forall n,
  exists c t,
    list_ascii_of_string (str_of_Z n) = c :: t
    /\ value_start c = true /\ num_head c = true.
Proof.
  intros n. destruct (str_of_Z_digits n) as (minus & u & N & ->).
  destruct minus; cbn [app].
  - eexists. eexists. split; [ reflexivity | split; reflexivity ].
  - apply digits_head. exact N.
Qed.

Lemma dumps_head : forall v,
  plain v = true ->
  exists c t, list_ascii_of_string (dumps v) = c :: t /\ value_start c = true.
Proof.
  intros v P. destruct v as [ | b | n | x | s | l | d].
  - eexists. eexists. split; reflexivity.
  - destruct b; eexists; eexists; split; reflexivity.
  - destruct (int_head n) as (c & t & E & V & _). exists c, t. split; assumption.
  - discriminate P.
  - cbn [dumps]. rewrite chars_encode_string. eexists. eexists. split; reflexivity.
  - eexists. eexists. split; reflexivity.
  - eexists. eexists. split; reflexivity.
Qed.

Lemma skip_ws_start : forall c t, value_start c = true -> skip_ws (c :: t) = c :: t.
Proof.
  intros c t V. unfold value_start in V. apply andb_true_iff in V.
  destruct V as [V _]. cbn [skip_ws].
  destruct (is_ws c); [ discriminate V | reflexivity ].
Qed.

(** A number at the head of the text is read by [scan_number]. *)
Lemma scan_once_number : forall doc fuel c t,
  num_head c = true ->
  scan_once doc (S fuel) (c :: t)
  = match scan_number (c :: t) with
    | Some (text, true, rest) =>
        Ok (VFloat (float_of_str (string_of_list_ascii text)), rest)
    | Some (text, false, rest) => Ok (VInt (int_of_literal text), rest)
    | None =>
        match literal "NaN" (c :: t), literal "Infinity" (c :: t),
              literal "-Infinity" (c :: t) with
        | Some rest, _, _ => Ok (VFloat PrimFloat.nan, rest)
        | _, Some rest, _ => Ok (VFloat PrimFloat.infinity, rest)
        | _, _, Some rest => Ok (VFloat PrimFloat.neg_infinity, rest)
        | None, None, None => Raise (JSONDecodeError "Expecting value" doc (c :: t))
        end
    end.
Proof.
  intros doc fuel c t N.
  destruct c as [b0 b1 b2 b3 b4 b5 b6 b7].
  destruct b0, b1, b2, b3, b4, b5, b6, b7; try discriminate N; reflexivity.
Qed.

Lemma scan_once_int : forall doc fuel n rest,
  closed rest = true ->
  scan_once doc (S fuel) (list_ascii_of_string (str_of_Z n) ++ rest) = Ok (VInt n, rest).
Proof.
  intros doc fuel n rest C.
  destruct (scan_number_str_of_Z n rest C) as (text & S & I).
  destruct (int_head n) as (c & t & E & _ & N).
  rewrite E in *. cbn [app] in *.
  rewrite (scan_once_number doc fuel c (t ++ rest) N), S, I. reflexivity.
Qed.

Lemma scan_once_str : forall doc fuel s rest,
  ascii_text s = true ->
  scan_once doc (S fuel) (list_ascii_of_string (encode_string s) ++ rest)
  = Ok (VStr s, rest).
Proof.
  intros doc fuel s rest A.
  rewrite chars_encode_string. cbn [app scan_once].
  change (code dquote =? 34) with true. cbn iota.
  rewrite <- List.app_assoc. cbn [app].
  rewrite scan_string_encode by exact A.
  cbn [rev app]. rewrite string_of_list_ascii_of_string. reflexivity.
Qed.

Lemma value_start_not_close : forall c, value_start c = true -> (code c =? 93) = false.
Proof.
  intros c V. unfold value_start in V. apply andb_true_iff in V.
  destruct V as [_ V]. destruct (code c =? 93); [ discriminate V | reflexivity ].
Qed.

Lemma scan_once_array : forall doc fuel c t,
  value_start c = true ->
  scan_once doc (S fuel) ("["%char :: c :: t) = scan_elements doc fuel [] (c :: t).
Proof.
  intros doc fuel c t V. cbn [scan_once].
  change (code "["%char =? 34) with false.
  change (code "["%char =? 123) with false.
  change (code "["%char =? 91) with true. cbn iota.
  rewrite (skip_ws_start c t V), (value_start_not_close c V). reflexivity.
Qed.

Lemma scan_once_object : forall doc fuel t,
  scan_once doc (S fuel) ("{"%char :: dquote :: t) = scan_members doc fuel [] (dquote :: t).
Proof. reflexivity. Qed.

Lemma scan_elements_eq : forall doc fuel acc l,
  scan_elements doc (S fuel) acc l
  = match scan_once doc fuel l with
    | Raise e => Raise e
    | Ok (v, rest) =>
        match skip_ws rest with
        | sep :: more =>
            if code sep =? 93 then Ok (VList (rev (v :: acc)), more)
            else if code sep =? 44 then scan_elements doc fuel (v :: acc) (skip_ws more)
            else Raise (JSONDecodeError "Expecting ',' delimiter" doc (sep :: more))
        | [] => Raise (JSONDecodeError "Expecting ',' delimiter" doc [])
        end
    end.
Proof. reflexivity. Qed.

Lemma scan_members_eq : forall doc fuel acc r,
  scan_members doc (S fuel) acc (dquote :: r)
  = match scan_string doc [] r with
    | Raise e => Raise e
    | Ok (key, rest) =>
        match skip_ws rest with
        | colon :: after =>
            if code colon =? 58 then
              match scan_once doc fuel (skip_ws after) with
              | Raise e => Raise e
              | Ok (v, rest) =>
                  match skip_ws rest with
                  | sep :: more =>
                      if code sep =? 125 then Ok (VDict (dict_set acc key v), more)
                      else if code sep =? 44 then
                        match skip_ws more with
                        | q' :: r' =>
                            if code q' =? 34
                            then scan_members doc fuel (dict_set acc key v) (q' :: r')
                            else Raise (JSONDecodeError
                                   "Expecting property name enclosed in double quotes"
                                   doc (q' :: r'))
                        | [] => Raise (JSONDecodeError
                                   "Expecting property name enclosed in double quotes"
                                   doc [])
                        end
                      else Raise (JSONDecodeError "Expecting ',' delimiter" doc (sep :: more))
                  | [] => Raise (JSONDecodeError "Expecting ',' delimiter" doc [])
                  end
              end
            else Raise (JSONDecodeError "Expecting ':' delimiter" doc (colon :: after))
        | [] => Raise (JSONDecodeError "Expecting ':' delimiter" doc [])
        end
    end.
Proof. reflexivity. Qed.

Lemma scan_elements_last : forall doc fuel acc l v rest,
  scan_once doc fuel l = Ok (v, "]"%char :: rest) ->
  scan_elements doc (S fuel) acc l = Ok (VList (rev (v :: acc)), rest).
Proof.
  intros doc fuel acc l v rest E. rewrite scan_elements_eq, E. reflexivity.
Qed.

Lemma scan_elements_more : forall doc fuel acc l v c t,
  value_start c = true ->
  scan_once doc fuel l = Ok (v, ","%char :: " "%char :: c :: t) ->
  scan_elements doc (S fuel) acc l = scan_elements doc fuel (v :: acc) (c :: t).
Proof.
  intros doc fuel acc l v c t V E. rewrite scan_elements_eq, E.
  change (skip_ws (","%char :: " "%char :: c :: t)) with (","%char :: " "%char :: c :: t).
  change (code ","%char =? 93) with false.
  change (code ","%char =? 44) with true. cbn iota.
  change (skip_ws (" "%char :: c :: t)) with (skip_ws (c :: t)).
  rewrite (skip_ws_start c t V). reflexivity.
Qed.

Lemma scan_members_key : forall doc fuel acc k c t,
  ascii_text k = true ->
  value_start c = true ->
  scan_members doc (S fuel) acc
    (list_ascii_of_string (encode_string k) ++ ":"%char :: " "%char :: c :: t)
  = match scan_once doc fuel (c :: t) with
    | Raise e => Raise e
    | Ok (v, rest) =>
        match skip_ws rest with
        | sep :: more =>
            if code sep =? 125 then Ok (VDict (dict_set acc k v), more)
            else if code sep =? 44 then
              match skip_ws more with
              | q' :: r' =>
                  if code q' =? 34 then scan_members doc fuel (dict_set acc k v) (q' :: r')
                  else Raise (JSONDecodeError
                                "Expecting property name enclosed in double quotes"
                                doc (q' :: r'))
              | [] => Raise (JSONDecodeError
                               "Expecting property name enclosed in double quotes"
                               doc [])
              end
            else Raise (JSONDecodeError "Expecting ',' delimiter" doc (sep :: more))
        | [] => Raise (JSONDecodeError "Expecting ',' delimiter" doc [])
        end
    end.
Proof.
  intros doc fuel acc k c t A V.
  rewrite chars_encode_string. cbn [app].
  rewrite scan_members_eq.
  rewrite <- List.app_assoc. cbn [app].
  rewrite scan_string_encode by exact A.
  cbn [rev app]. rewrite string_of_list_ascii_of_string.
  change (skip_ws (":"%char :: " "%char :: c :: t)) with (":"%char :: " "%char :: c :: t).
  change (code ":"%char =? 58) with true. cbn iota.
  change (skip_ws (" "%char :: c :: t)) with (skip_ws (c :: t)).
  rewrite (skip_ws_start c t V). reflexivity.
Qed.

Lemma scan_members_last : forall doc fuel acc k c t v rest,
  ascii_text k = true ->
  value_start c = true ->
  scan_once doc fuel (c :: t) = Ok (v, "}"%char :: rest) ->
  scan_members doc (S fuel) acc
    (list_ascii_of_string (encode_string k) ++ ":"%char :: " "%char :: c :: t)
  = Ok (VDict (dict_set acc k v), rest).
Proof.
  intros doc fuel acc k c t v rest A V E.
  rewrite (scan_members_key doc fuel acc k c t A V), E. reflexivity.
Qed.

Lemma scan_members_more : forall doc fuel acc k c t v r',
  ascii_text k = true ->
  value_start c = true ->
  scan_once doc fuel (c :: t) = Ok (v, ","%char :: " "%char :: dquote :: r') ->
  scan_members doc (S fuel) acc
    (list_ascii_of_string (encode_string k) ++ ":"%char :: " "%char :: c :: t)
  = scan_members doc fuel (dict_set acc k v) (dquote :: r').
Proof.
  intros doc fuel acc k c t v r' A V E.
  rewrite (scan_members_key doc fuel acc k c t A V), E. reflexivity.
Qed.

(** A key that is new goes last. *)
Lemma dict_set_fresh : forall d k v,
  existsb (String.eqb k) (dict_keys d) = false ->
  dict_set d k v = (d ++ [(k, v)])%list.
Proof.
  induction d as [| [k' v'] d IH]; intros k v F; [ reflexivity | ].
  cbn [dict_keys map fst existsb] in F. apply orb_false_iff in F. destruct F as [F1 F2].
  cbn [dict_set app]. rewrite String.eqb_sym, F1. f_equal. apply IH. exact F2.
Qed.

Lemma distinct_app_cons : forall a k b,
  distinct (a ++ k :: b) = true ->
  existsb (String.eqb k) a = false /\ distinct ((a ++ [k]) ++ b) = true.
Proof.
  induction a as [| x a IH]; intros k b D.
  - split; [ reflexivity | exact D ].
  - cbn [app distinct] in D. apply andb_true_iff in D. destruct D as [D1 D2].
    destruct (IH k b D2) as [E1 E2].
    rewrite existsb_app in D1. cbn [existsb] in D1.
    apply negb_true_iff in D1. apply orb_false_iff in D1. destruct D1 as [Da Dk].
    apply orb_false_iff in Dk. destruct Dk as [Dk Db].
    split.
    + cbn [existsb]. rewrite String.eqb_sym, Dk, E1. reflexivity.
    + cbn [app distinct]. rewrite E2, andb_true_r. apply negb_true_iff.
      rewrite !existsb_app. cbn [existsb]. rewrite Da, Dk, Db. reflexivity.
Qed.

Lemma chars_dumps_list : forall l,
  list_ascii_of_string (dumps (VList l))
  = ("["%char :: list_ascii_of_string (String.concat ", " (map dumps l)) ++ ["]"%char])%list.
Proof.
  intros l. change (dumps (VList l)) with ("[" ++ String.concat ", " (map dumps l) ++ "]").
  cbn [String.append list_ascii_of_string]. rewrite chars_app. reflexivity.
Qed.

Lemma chars_dumps_dict : forall d,
  list_ascii_of_string (dumps (VDict d))
  = ("{"%char :: list_ascii_of_string (String.concat ", " (map member d)) ++ ["}"%char])%list.
Proof.
  intros d. change (dumps (VDict d)) with ("{" ++ String.concat ", " (map member d) ++ "}").
  cbn [String.append list_ascii_of_string]. rewrite chars_app. reflexivity.
Qed.

Lemma chars_concat_more : forall x y l,
  list_ascii_of_string (String.concat ", " (x :: y :: l))
  = (list_ascii_of_string x
     ++ ","%char :: " "%char :: list_ascii_of_string (String.concat ", " (y :: l)))%list.
Proof.
  intros x y l.
  change (String.concat ", " (x :: y :: l)) with (x ++ ", " ++ String.concat ", " (y :: l)).
  rewrite chars_app. reflexivity.
Qed.

Lemma chars_member : forall k v,
  list_ascii_of_string (member (k, v))
  = (list_ascii_of_string (encode_string k)
     ++ ":"%char :: " "%char :: list_ascii_of_string (dumps v))%list.
Proof. intros k v. unfold member. cbn [fst snd]. rewrite chars_app. reflexivity. Qed.

(** The head of the texts of the elements of a list that is not empty. *)
Lemma concat_head : forall (f : value -> string) v l,
  (exists c t, list_ascii_of_string (f v) = c :: t /\ value_start c = true) ->
  exists c t,
    list_ascii_of_string (String.concat ", " (map f (v :: l))) = c :: t
    /\ value_start c = true.
Proof.
  intros f v l (c & t & E & V). destruct l as [| v2 l].
  - exists c, t. split; [ exact E | exact V ].
  - cbn [map]. rewrite chars_concat_more, E. eexists. eexists.
    split; [ reflexivity | exact V ].
Qed.

Lemma read_back_elements : forall l,
  Forall read_back l ->
  forallb plain l = true ->
  l <> [] ->
  forall doc fuel acc rest,
    (List.length (list_ascii_of_string (String.concat ", " (map dumps l))) < fuel)%nat ->
    closed rest = true ->
    scan_elements doc fuel acc
      (list_ascii_of_string (String.concat ", " (map dumps l)) ++ "]"%char :: rest)
    = Ok (VList (rev acc ++ l), rest).
Proof.
  induction l as [| v l IH]; intros R P N doc fuel acc rest L C; [ contradiction N; reflexivity | ].
  inversion R as [| v0 l0 Rv Rl]; subst v0 l0.
  cbn [forallb] in P. apply andb_true_iff in P. destruct P as [Pv Pl].
  destruct fuel as [| fuel]; [ lia | ].
  destruct l as [| v2 l'].
  - cbn [map String.concat] in *.
    rewrite (scan_elements_last doc fuel acc _ v rest).
    + cbn [rev]. reflexivity.
    + apply (Rv Pv); [ lia | reflexivity ].
  - cbn [map] in L |- *. rewrite chars_concat_more in L |- *.
    rewrite length_app in L. cbn [List.length] in L.
    assert (Pv2 : plain v2 = true)
      by (cbn [forallb] in Pl; apply andb_true_iff in Pl; exact (proj1 Pl)).
    destruct (concat_head dumps v2 l' (dumps_head v2 Pv2)) as (c & t & E & V).
    change (map dumps (v2 :: l')) with (dumps v2 :: map dumps l') in E.
    rewrite <- List.app_assoc. cbn [app].
    rewrite (scan_elements_more doc fuel acc _ v c
               (t ++ "]"%char :: rest) V).
    + change (c :: t ++ "]"%char :: rest)%list with ((c :: t) ++ "]"%char :: rest)%list.
      rewrite <- E.
      change (dumps v2 :: map dumps l') with (map dumps (v2 :: l')).
      rewrite (IH Rl Pl ltac:(discriminate) doc fuel (v :: acc) rest).
      * cbn [rev]. rewrite <- List.app_assoc. reflexivity.
      * cbn [map]. lia.
      * exact C.
    + change (c :: t ++ "]"%char :: rest)%list with ((c :: t) ++ "]"%char :: rest)%list.
      rewrite <- E. apply (Rv Pv); [ lia | reflexivity ].
Qed.

Lemma read_back_members : forall d,
  Forall (fun kv => read_back (snd kv)) d ->
  forallb (fun kv => andb (ascii_text (fst kv)) (plain (snd kv))) d = true ->
  d <> [] ->
  forall doc fuel acc rest,
    (List.length (list_ascii_of_string (String.concat ", " (map member d))) < fuel)%nat ->
    closed rest = true ->
    distinct (dict_keys acc ++ dict_keys d) = true ->
    scan_members doc fuel acc
      (list_ascii_of_string (String.concat ", " (map member d)) ++ "}"%char :: rest)
    = Ok (VDict (acc ++ d), rest).
Proof.
  induction d as [| [k v] d IH]; intros R P N doc fuel acc rest L C D;
    [ contradiction N; reflexivity | ].
  inversion R as [| kv0 d0 Rv Rd]; subst kv0 d0. cbn [snd] in Rv.
  cbn [forallb fst snd] in P. apply andb_true_iff in P. destruct P as [Pkv Pd].
  apply andb_true_iff in Pkv. destruct Pkv as [Ak Pv].
  cbn [dict_keys map fst] in D.
  destruct (distinct_app_cons _ _ _ D) as [Fresh D'].
  destruct (dumps_head v Pv) as (c & t & E & V).
  destruct fuel as [| fuel]; [ lia | ].
  destruct d as [| kv2 d'].
  - cbn [map String.concat] in *. rewrite chars_member in L |- *.
    rewrite length_app in L. cbn [List.length] in L.
    rewrite <- List.app_assoc. cbn [app]. rewrite E. cbn [app].
    rewrite (scan_members_last doc fuel acc k c _ v rest Ak V).
    + rewrite (dict_set_fresh acc k v Fresh). reflexivity.
    + change (c :: t ++ "}"%char :: rest)%list with ((c :: t) ++ "}"%char :: rest)%list.
      rewrite <- E. apply (Rv Pv); [ lia | reflexivity ].
  - cbn [map] in L |- *. rewrite chars_concat_more in L |- *. rewrite chars_member in L |- *.
    repeat first [ rewrite length_app in L | progress (cbn [List.length] in L) ].
    destruct kv2 as [k2 v2].
    assert (M : exists r',
              list_ascii_of_string (String.concat ", " (map member ((k2, v2) :: d')))
              = dquote :: r').
    { destruct d' as [| kv3 d''].
      - cbn [map String.concat]. rewrite chars_member, chars_encode_string.
        eexists. reflexivity.
      - cbn [map]. rewrite chars_concat_more, chars_member, chars_encode_string.
        eexists. reflexivity. }
    destruct M as [r' M].
    change (map member ((k2, v2) :: d')) with (member (k2, v2) :: map member d') in M.
    rewrite <- !List.app_assoc. cbn [app]. rewrite E, M. cbn [app].
    rewrite (scan_members_more doc fuel acc k c _ v
               (r' ++ "}"%char :: rest) Ak V).
    + change (dquote :: r' ++ "}"%char :: rest)%list
        with ((dquote :: r') ++ "}"%char :: rest)%list.
      rewrite <- M.
      change (member (k2, v2) :: map member d') with (map member ((k2, v2) :: d')).
      rewrite (dict_set_fresh acc k v Fresh).
      rewrite (IH Rd Pd ltac:(discriminate) doc fuel (acc ++ [(k, v)])%list rest).
      * rewrite <- List.app_assoc. reflexivity.
      * cbn [map]. lia.
      * exact C.
      * unfold dict_keys in *. rewrite map_app. cbn [map fst]. exact D'.
    + change (c :: t ++ ","%char :: " "%char :: dquote :: r' ++ "}"%char :: rest)%list
        with ((c :: t) ++ ","%char :: " "%char :: dquote :: r' ++ "}"%char :: rest)%list.
      rewrite <- E. apply (Rv Pv); [ lia | reflexivity ].
Qed.

Lemma read_back_all : forall v, read_back v.
Proof.
  induction v as [ | b | n | x | s | l Rl | d Rd ] using value_ind_nested;
    intros P doc fuel rest L C.
  - destruct fuel as [| fuel]; [ cbn in L; lia | reflexivity ].
  - destruct fuel as [| fuel]; [ destruct b; cbn in L; lia | destruct b; reflexivity ].
  - destruct fuel as [| fuel].
    + destruct (int_head n) as (c & t & E & _). cbn [dumps] in L. rewrite E in L.
      cbn [List.length] in L. lia.
    + apply scan_once_int. exact C.
  - discriminate P.
  - destruct fuel as [| fuel].
    + cbn [dumps] in L. rewrite chars_encode_string in L. cbn [List.length] in L. lia.
    + apply scan_once_str. exact P.
  - rewrite chars_dumps_list in L |- *. cbn [List.length] in L.
    rewrite length_app in L. cbn [List.length] in L.
    destruct fuel as [| fuel]; [ lia | ].
    destruct l as [| v l].
    + reflexivity.
    + cbn [plain] in P.
      assert (Pv : plain v = true)
        by (cbn [forallb] in P; apply andb_true_iff in P; exact (proj1 P)).
      destruct (concat_head dumps v l (dumps_head v Pv)) as (c & t & E & V).
      cbn [app]. rewrite <- List.app_assoc. cbn [app].
      rewrite E. cbn [app]. rewrite (scan_once_array doc fuel c _ V).
      change (c :: t ++ "]"%char :: rest)%list with ((c :: t) ++ "]"%char :: rest)%list.
      rewrite <- E.
      rewrite (read_back_elements (v :: l) Rl P ltac:(discriminate) doc fuel [] rest).
      * reflexivity.
      * lia.
      * exact C.
  - rewrite chars_dumps_dict in L |- *. cbn [List.length] in L.
    rewrite length_app in L. cbn [List.length] in L.
    destruct fuel as [| fuel]; [ lia | ].
    cbn [plain] in P. apply andb_true_iff in P. destruct P as [P D].
    destruct d as [| [k v] d].
    + reflexivity.
    + assert (M : exists r',
                list_ascii_of_string (String.concat ", " (map member ((k, v) :: d)))
                = dquote :: r').
      { destruct d as [| kv3 d''].
        - cbn [map String.concat]. rewrite chars_member, chars_encode_string.
          eexists. reflexivity.
        - cbn [map]. rewrite chars_concat_more, chars_member, chars_encode_string.
          eexists. reflexivity. }
      destruct M as [r' M].
      cbn [app]. rewrite <- List.app_assoc. cbn [app].
      rewrite M. cbn [app]. rewrite scan_once_object.
      change (dquote :: r' ++ "}"%char :: rest)%list
        with ((dquote :: r') ++ "}"%char :: rest)%list.
      rewrite <- M.
      rewrite (read_back_members ((k, v) :: d) Rd P ltac:(discriminate) doc fuel [] rest).
      * reflexivity.
      * lia.
      * exact C.
      * exact D.
Qed.


End RoundTrip.

